(** * PersonalPASystem: task store, rollover job and progress log

    A shallow embedding of [Agent_design_UI/main..py] (class
    [PersonalPASystem]) and of [TaskManagerTools.add_task] from
    [Agent_design_UI/toolsnotadded.py], with the properties the
    specification states about them.

    Conventions of the embedding:
    - a Python [str] is the list of its Unicode code points ([list N]);
    - a CSV file is the list of rows [csv.reader] yields for it, each row a
      list of fields (an empty line gives the empty row); the text layer of
      the [csv] module (quoting, line ends) is not modelled. The last line
      of a file is complete, it ends with a line break, as in every file
      [csv.writer] writes: on a file whose last line is not complete an
      append joins the new row to that line, which a list of rows cannot
      say;
    - every method runs in a state-and-exception monad over the files, the
      standard output and the log of calls made to the external query tool;
      an exception leaves the state as it was when it was raised, as in
      Python;
    - the query tool [CsvTools.query_csv_file] is not part of the
      repository: it is a function the system carries, of the files, the
      name of a table and the text of a query;
    - [datetime.now()] is read from the system and does not change during
      one call;
    - the library functions are modelled as CPython 3.11 on Linux has
      them: the character tables (decimal digits, digits, white space) are
      those of Unicode 14.0, [strftime] writes the year without padding,
      a [float] is a binary64 number and is represented by the rational it
      stands for; CPython's optional limit on the length of integer
      literals (4300 digits) is left out. *)

From Stdlib Require Import ZArith NArith List Bool Lia String Ascii.
From Stdlib Require Import QArith Qpower Qround Qabs Lqa.
From stdpp Require Import base decidable option list numbers gmap.

Local Open Scope Z_scope.

(** ** Python strings *)

Abbreviation char := N (only parsing).
Abbreviation str := (list N) (only parsing).

(** A string literal of the source (ASCII only). *)
Definition lit (s : string) : str :=
  List.map N_of_ascii (list_ascii_of_string s).

Definition NL : str := [10%N].

(** [a == b] on strings. *)
Definition str_eqb (a b : str) : bool := bool_decide (a = b).

(** [a <= b] on strings: lexicographic order on code points. *)
Fixpoint str_le (a b : str) : bool :=
  match a, b with
  | [], _ => true
  | _ :: _, [] => false
  | x :: a', y :: b' =>
      if (x <? y)%N then true
      else if (y <? x)%N then false
      else str_le a' b'
  end.

Definition in_ranges (rs : list (N * N)) (c : char) : bool :=
  existsb (fun r => (fst r <=? c)%N && (c <=? snd r)%N) rs.

(** Code points of the digit zero of every decimal-digit block (general
    category Nd); each block holds the ten digits in order. *)
Definition decimal_zeros : list N :=
  [ 0x30; 0x660; 0x6F0; 0x7C0; 0x966; 0x9E6; 0xA66; 0xAE6; 0xB66; 0xBE6;
    0xC66; 0xCE6; 0xD66; 0xDE6; 0xE50; 0xED0; 0xF20; 0x1040; 0x1090;
    0x17E0; 0x1810; 0x1946; 0x19D0; 0x1A80; 0x1A90; 0x1B50; 0x1BB0;
    0x1C40; 0x1C50; 0xA620; 0xA8D0; 0xA900; 0xA9D0; 0xA9F0; 0xAA50;
    0xABF0; 0xFF10; 0x104A0; 0x10D30; 0x11066; 0x110F0; 0x11136; 0x111D0;
    0x112F0; 0x11450; 0x114D0; 0x11650; 0x116C0; 0x11730; 0x118E0;
    0x11950; 0x11C50; 0x11D50; 0x11DA0; 0x16A60; 0x16AC0; 0x16B50;
    0x1D7CE; 0x1D7D8; 0x1D7E2; 0x1D7EC; 0x1D7F6; 0x1E140; 0x1E2F0;
    0x1E950; 0x1FBF0 ]%N.

(** The decimal value of a character, as [unicodedata.decimal]. *)
Definition decimal_value (c : char) : option N :=
  match List.find (fun z => (z <=? c)%N && (c <? z + 10)%N) decimal_zeros with
  | Some z => Some (c - z)%N
  | None => None
  end.

(** Characters of numeric type Digit that are not decimal: superscripts,
    subscripts, circled and dingbat digits and the like. *)
Definition other_digit_ranges : list (N * N) :=
  [ (0xB2, 0xB3); (0xB9, 0xB9); (0x1369, 0x1371); (0x19DA, 0x19DA);
    (0x2070, 0x2070); (0x2074, 0x2079); (0x2080, 0x2089); (0x2460, 0x2468);
    (0x2474, 0x247C); (0x2488, 0x2490); (0x24EA, 0x24EA); (0x24F5, 0x24FD);
    (0x24FF, 0x24FF); (0x2776, 0x277E); (0x2780, 0x2788); (0x278A, 0x2792);
    (0x10A40, 0x10A43); (0x10E60, 0x10E68); (0x11052, 0x1105A);
    (0x1F100, 0x1F10A) ]%N.

Definition char_isdecimal (c : char) : bool :=
  match decimal_value c with Some _ => true | None => false end.

Definition char_isdigit (c : char) : bool :=
  char_isdecimal c || in_ranges other_digit_ranges c.

(** [s.isdigit()]: at least one character, and all of them digits. *)
Definition isdigit (s : str) : bool :=
  match s with
  | [] => false
  | _ => forallb char_isdigit s
  end.

(** White space as [str.isspace] and [str.strip] see it. *)
Definition space_ranges : list (N * N) :=
  [ (0x9, 0xD); (0x1C, 0x20); (0x85, 0x85); (0xA0, 0xA0); (0x1680, 0x1680);
    (0x2000, 0x200A); (0x2028, 0x2029); (0x202F, 0x202F); (0x205F, 0x205F);
    (0x3000, 0x3000) ]%N.

Definition char_isspace (c : char) : bool := in_ranges space_ranges c.

Fixpoint lstrip (s : str) : str :=
  match s with
  | c :: s' => if char_isspace c then lstrip s' else s
  | [] => []
  end.

Definition rstrip (s : str) : str := rev (lstrip (rev s)).

(** [s.strip()] *)
Definition strip (s : str) : str := rstrip (lstrip s).

(** [s.split(sep)] for a separator of one character. *)
Fixpoint split_aux (sep : char) (cur : str) (s : str) : list str :=
  match s with
  | [] => [rev cur]
  | c :: s' =>
      if (c =? sep)%N then rev cur :: split_aux sep [] s'
      else split_aux sep (c :: cur) s'
  end.

Definition split (sep : char) (s : str) : list str := split_aux sep [] s.

(** [sep.join(parts)] *)
Fixpoint join (sep : str) (parts : list str) : str :=
  match parts with
  | [] => []
  | [p] => p
  | p :: ps => p ++ sep ++ join sep ps
  end.

(** ** Exceptions *)

Inductive exn : Type :=
  | IndexError
  | ValueError
  | KeyError
  | OverflowError.

Inductive result (A : Type) : Type :=
  | Ok (a : A)
  | Raise (e : exn).
Arguments Ok {A} a.
Arguments Raise {A} e.

Definition rbind {A B} (r : result A) (k : A -> result B) : result B :=
  match r with
  | Ok a => k a
  | Raise e => Raise e
  end.

Declare Scope res_scope.
Delimit Scope res_scope with res.
Notation "'let?' x := r 'in' k" := (rbind r (fun x => k))
  (at level 10, x pattern, r at level 100, k at level 200) : res_scope.

Local Open Scope res_scope.

(** [l[i]] *)
Definition getitem {A} (l : list A) (i : nat) : result A :=
  match l !! i with
  | Some x => Ok x
  | None => Raise IndexError
  end.

(** [l[i] = x] *)
Definition setitem {A} (l : list A) (i : nat) (x : A) : result (list A) :=
  if bool_decide (i < length l)%nat then Ok (<[i:=x]> l) else Raise IndexError.

(** ** [int(s)] and [str(n)] *)

(** What [int] does to a character before parsing: ASCII is kept, other
    white space becomes a blank, other decimal digits become ASCII digits,
    and anything else becomes a question mark. *)
Definition to_ascii_decimal (c : char) : char :=
  if (c <? 128)%N then c
  else if char_isspace c then 32%N
  else match decimal_value c with
       | Some d => (48 + d)%N
       | None => 63%N
       end.

(** C's [isspace]: blank, [\t], [\n], [\v], [\f], [\r]. *)
Definition ascii_isspace (c : char) : bool :=
  (c =? 32)%N || ((9 <=? c)%N && (c <=? 13)%N).

Fixpoint skip_spaces (s : str) : str :=
  match s with
  | c :: s' => if ascii_isspace c then skip_spaces s' else s
  | [] => []
  end.

Definition ascii_digit (c : char) : option Z :=
  if (48 <=? c)%N && (c <=? 57)%N then Some (Z.of_N c - 48) else None.

(** Digits with single underscores between them; [prev_us] tells whether the
    previous character was an underscore. Returns the value read and what
    follows the number. *)
Fixpoint scan_digits (acc : Z) (prev_us : bool) (s : str) : option (Z * str) :=
  match s with
  | c :: s' =>
      match ascii_digit c with
      | Some d => scan_digits (10 * acc + d) false s'
      | None =>
          if (c =? 95)%N then
            if prev_us then None else scan_digits acc true s'
          else if prev_us then None else Some (acc, s)
      end
  | [] => if prev_us then None else Some (acc, [])
  end.

Definition parse_int_ascii (s : str) : result Z :=
  let s1 := skip_spaces s in
  let '(neg, s2) :=
    match s1 with
    | 43%N :: t => (false, t)
    | 45%N :: t => (true, t)
    | _ => (false, s1)
    end in
  match s2 with
  | c :: _ =>
      match ascii_digit c with
      | None => Raise ValueError
      | Some _ =>
          match scan_digits 0 false s2 with
          | Some (v, rest) =>
              match skip_spaces rest with
              | [] => Ok (if neg then - v else v)
              | _ => Raise ValueError
              end
          | None => Raise ValueError
          end
      end
  | [] => Raise ValueError
  end.

(** [int(s)] *)
Definition py_int (s : str) : result Z :=
  parse_int_ascii (List.map to_ascii_decimal s).

Fixpoint digits_of (fuel : nat) (n : Z) (acc : str) : str :=
  match fuel with
  | O => acc
  | S f =>
      let acc' := Z.to_N (48 + n mod 10) :: acc in
      if n <? 10 then acc' else digits_of f (n / 10) acc'
  end.

(** [str(n)] for an [int]. *)
Definition py_str (n : Z) : str :=
  let a := Z.abs n in
  let ds := digits_of (S (Z.to_nat (Z.log2 a))) a [] in
  if n <? 0 then 45%N :: ds else ds.

(** ** Dates: [datetime.strptime], [+ timedelta(days=1)], [strftime] *)

Record date : Type := mkdate { year : Z; month : Z; day : Z }.

Definition is_leap (y : Z) : bool :=
  (y mod 4 =? 0) && (negb (y mod 100 =? 0) || (y mod 400 =? 0)).

Definition days_in_month (y m : Z) : Z :=
  if m =? 2 then (if is_leap y then 29 else 28)
  else if (m =? 4) || (m =? 6) || (m =? 9) || (m =? 11) then 30
  else 31.

Definition valid_date (d : date) : bool :=
  (1 <=? year d) && (year d <=? 9999) &&
  (1 <=? month d) && (month d <=? 12) &&
  (1 <=? day d) && (day d <=? days_in_month (year d) (month d)).

Definition in_range (lo hi : N) (c : char) : bool :=
  (lo <=? c)%N && (c <=? hi)%N.

Definition digit_val (c : char) : Z := Z.of_N c - 48.

(** [%Y]: the regular expression [\d\d\d\d], where [\d] is any decimal
    digit of Unicode; the text matched goes through [int]. *)
Definition parse_year (s : str) : option (Z * str) :=
  match s with
  | a :: b :: c :: d :: rest =>
      match decimal_value a, decimal_value b, decimal_value c, decimal_value d with
      | Some a', Some b', Some c', Some d' =>
          Some (Z.of_N (1000 * a' + 100 * b' + 10 * c' + d'), rest)
      | _, _, _, _ => None
      end
  | _ => None
  end.

(** [%m]: [1[0-2]|0[1-9]|[1-9]], alternatives tried in this order. *)
Definition parse_month (s : str) : option (Z * str) :=
  match s with
  | a :: rest =>
      match rest with
      | b :: rest' =>
          if (a =? 49)%N && in_range 48 50 b then Some (10 + digit_val b, rest')
          else if (a =? 48)%N && in_range 49 57 b then Some (digit_val b, rest')
          else if in_range 49 57 a then Some (digit_val a, rest)
          else None
      | [] => if in_range 49 57 a then Some (digit_val a, rest) else None
      end
  | [] => None
  end.

(** [%d]: [3[0-1]|[1-2]\d|0[1-9]|[1-9]| [1-9]], alternatives tried in this
    order. *)
Definition parse_day (s : str) : option (Z * str) :=
  match s with
  | a :: rest =>
      match rest with
      | b :: rest' =>
          if (a =? 51)%N && in_range 48 49 b then Some (30 + digit_val b, rest')
          else if in_range 49 50 a && char_isdecimal b then
            match decimal_value b with
            | Some b' => Some (10 * digit_val a + Z.of_N b', rest')
            | None => None
            end
          else if (a =? 48)%N && in_range 49 57 b then Some (digit_val b, rest')
          else if in_range 49 57 a then Some (digit_val a, rest)
          else if (a =? 32)%N && in_range 49 57 b then Some (digit_val b, rest')
          else None
      | [] => if in_range 49 57 a then Some (digit_val a, rest) else None
      end
  | [] => None
  end.

Definition expect (c : char) (s : str) : option str :=
  match s with
  | x :: rest => if (x =? c)%N then Some rest else None
  | [] => None
  end.

(** [datetime.strptime(s, '%Y-%m-%d')], date part. The whole string has to
    match, and the fields have to form a date of years 1 to 9999. *)
Definition strptime (s : str) : result date :=
  match parse_year s with
  | Some (y, s1) =>
      match expect 45 s1 with
      | Some s2 =>
          match parse_month s2 with
          | Some (m, s3) =>
              match expect 45 s3 with
              | Some s4 =>
                  match parse_day s4 with
                  | Some (d, []) =>
                      let dt := mkdate y m d in
                      if valid_date dt then Ok dt else Raise ValueError
                  | _ => Raise ValueError
                  end
              | None => Raise ValueError
              end
          | None => Raise ValueError
          end
      | None => Raise ValueError
      end
  | None => Raise ValueError
  end.

(** The day after [d] in the proleptic Gregorian calendar. *)
Definition next_day (d : date) : date :=
  if day d <? days_in_month (year d) (month d)
  then mkdate (year d) (month d) (day d + 1)
  else if month d <? 12 then mkdate (year d) (month d + 1) 1
  else mkdate (year d + 1) 1 1.

(** [d + timedelta(days=1)]: dates stop at 9999-12-31. *)
Definition add_one_day (d : date) : result date :=
  let d' := next_day d in
  if year d' <=? 9999 then Ok d' else Raise OverflowError.

Definition pad2 (n : Z) : str :=
  if n <? 10 then 48%N :: py_str n else py_str n.

(** [d.strftime('%Y-%m-%d')] as CPython on Linux has it: the C library
    writes the year without padding, month and day with two digits. *)
Definition strftime (d : date) : str :=
  py_str (year d) ++ lit "-" ++ pad2 (month d) ++ lit "-" ++ pad2 (day d).

(** [date.toordinal]: days since 0001-01-01, that day being 1. *)
Definition days_before_year (y : Z) : Z :=
  let y1 := y - 1 in y1 * 365 + y1 / 4 - y1 / 100 + y1 / 400.

Definition days_before_month (y m : Z) : Z :=
  nth (Z.to_nat m) [0; 0; 31; 59; 90; 120; 151; 181; 212; 243; 273; 304; 334] 0
  + (if (2 <? m) && is_leap y then 1 else 0).

Definition toordinal (d : date) : Z :=
  days_before_year (year d) + days_before_month (year d) (month d) + day d.

(** ** Floating point: binary64 with round to nearest, ties to even

    A finite [float] is the rational it stands for. [b64 x] is the float
    nearest to the rational [x]; it is what a correctly rounded operation
    returns when the exact result is [x]. *)

(** Round half to even, to an integer. *)
Definition rne (x : Q) : Z :=
  let f := Qfloor x in
  match (x - inject_Z f ?= 1 # 2)%Q with
  | Lt => f
  | Gt => f + 1
  | Eq => if Z.even f then f else f + 1
  end.

(** The integer part of the binary logarithm of [x > 0]. *)
Definition Qlog2 (x : Q) : Z :=
  let l := Z.log2 (Qnum x) - Z.log2 (Zpos (Qden x)) in
  if Qle_bool (2 ^ l) x then l else l - 1.

(** The exponent of the last bit of the float nearest to [x > 0]: 53 bits
    of precision, and 2^-1074 the smallest positive float. *)
Definition b64_exp (x : Q) : Z := Z.max (Qlog2 x - 52) (-1074).

Definition b64 (x : Q) : Q :=
  if Qeq_bool x 0 then 0%Q
  else
    let a := Qabs x in
    let e := b64_exp a in
    ((if Qle_bool 0 x then 1 else -1) * inject_Z (rne (a / 2 ^ e)) * 2 ^ e)%Q.

(** Rationals from here on round to an infinity. *)
Definition b64_overflow : Q := (2 ^ 1024 - 2 ^ 970)%Q.

Definition overflows (x : Q) : bool := Qle_bool b64_overflow (Qabs x).

Inductive pyfloat : Type :=
  | Fin (q : Q)
  | Inf (negative : bool).

(** [a / b] on [int]s with [b <> 0]: the quotient correctly rounded, and
    [OverflowError] when it is too large for a float. *)
Definition int_truediv (a b : Z) : result pyfloat :=
  let x := (inject_Z a / inject_Z b)%Q in
  if overflows x then Raise OverflowError else Ok (Fin (b64 x)).

(** [x * 100] on a float. *)
Definition float_mul_100 (x : pyfloat) : pyfloat :=
  match x with
  | Fin q =>
      let y := (q * 100)%Q in
      if overflows y then Inf (negb (Qle_bool 0 y)) else Fin (b64 y)
  | Inf s => Inf s
  end.

(** [round(x, 2)] on a float: the exact value of [x] rounded half to even
    at the second decimal, then the float nearest to that decimal. *)
Definition float_round_2 (x : pyfloat) : pyfloat :=
  match x with
  | Fin q => Fin (b64 (inject_Z (rne (q * 100)) / 100))
  | Inf s => Inf s
  end.

(** ** Values, files and the state *)

Inductive pyval : Type :=
  | PNone
  | PStr (s : str)
  | PInt (n : Z)
  | PFloat (x : pyfloat).

Abbreviation row := (list (list N)) (only parsing).

(** The three CSV files. The task and schedule files hold the rows the
    reader yields; the progress file is only ever appended to, and holds
    the rows as they are handed to [csv.writer]. *)
Record csv_files : Type := mkfiles {
  tasks_csv : list row;
  schedule_csv : list row;
  progress_csv : list (list pyval)
}.

(** What a method can read but not change: the clock and the external
    query tool [self.csv_tools], a function of the files on disk, the name
    of a table and the text of a query. *)
Record PersonalPASystem : Type := mksystem {
  now_date : str;        (* datetime.now().strftime('%Y-%m-%d') *)
  now_weekday : str;     (* datetime.now().strftime('%A') *)
  query_csv_file : csv_files -> str -> str -> str
}.

Record world : Type := mkworld {
  files : csv_files;
  stdout : list str;            (* lines printed, oldest first *)
  calls : list (str * str)      (* queries sent to the tool, oldest first *)
}.

Definition M (A : Type) : Type := world -> result A * world.

Definition ret {A} (a : A) : M A := fun w => (Ok a, w).

Definition bind {A B} (m : M A) (k : A -> M B) : M B :=
  fun w =>
    match m w with
    | (Ok a, w') => k a w'
    | (Raise e, w') => (Raise e, w')
    end.

Definition lift {A} (r : result A) : M A := fun w => (r, w).

Declare Scope pa_scope.
Delimit Scope pa_scope with pa.
Notation "x <- m ;; k" := (bind m (fun x => k))
  (at level 100, m at next level, right associativity) : pa_scope.
Notation "m ;; k" := (bind m (fun _ => k))
  (at level 100, right associativity) : pa_scope.

Local Open Scope pa_scope.

Definition read_tasks : M (list row) :=
  fun w => (Ok (tasks_csv (files w)), w).

Definition with_tasks (f : list row -> list row) (w : world) : world :=
  mkworld
    (mkfiles (f (tasks_csv (files w))) (schedule_csv (files w))
       (progress_csv (files w)))
    (stdout w) (calls w).

(** [open(self.tasks_csv, 'w')] and [writer.writerows(rows)] *)
Definition write_tasks (rows : list row) : M unit :=
  fun w => (Ok tt, with_tasks (fun _ => rows) w).

(** [open(self.tasks_csv, 'a')] and [writer.writerow(r)]: the row comes
    after the last row of a file that is empty or whose last line is
    complete, which every file the writer wrote is. *)
Definition append_task (r : row) : M unit :=
  fun w => (Ok tt, with_tasks (fun rows => rows ++ [r]) w).

(** [open(self.progress_csv, 'a')] and [writer.writerow(r)] *)
Definition append_progress (r : list pyval) : M unit :=
  fun w =>
    (Ok tt,
     mkworld
       (mkfiles (tasks_csv (files w)) (schedule_csv (files w))
          (progress_csv (files w) ++ [r]))
       (stdout w) (calls w)).

Definition print (s : str) : M unit :=
  fun w => (Ok tt, mkworld (files w) (stdout w ++ [s]) (calls w)).

(** [self.csv_tools.query_csv_file(name, sql)] *)
Definition query (self : PersonalPASystem) (name sql : str) : M str :=
  fun w =>
    (Ok (query_csv_file self (files w) name sql),
     mkworld (files w) (stdout w) (calls w ++ [(name, sql)])).

(** ** [PersonalPASystem.add_task] *)

(** [[int(row[0]) for row in rows if row[0].isdigit()]] *)
Fixpoint digit_ids (data : list row) : result (list Z) :=
  match data with
  | [] => Ok []
  | r :: rest =>
      let? id := getitem r 0 in
      if isdigit id then
        let? n := py_int id in
        let? ns := digit_ids rest in
        Ok (n :: ns)
      else digit_ids rest
  end.

(** [max(l)] on a list that is not empty. *)
Definition list_max_Z (x : Z) (l : list Z) : Z := fold_left Z.max l x.

Definition next_task_id (rows : list row) : result Z :=
  if bool_decide (1 < length rows)%nat then
    let? task_ids := digit_ids (drop 1 rows) in
    match task_ids with
    | x :: l => Ok (list_max_Z x l + 1)
    | [] => Ok 1
    end
  else Ok 1.

Definition add_task_msg (title : str) (next_id : Z) : str :=
  lit "Task '" ++
  title ++
  lit "' added successfully with ID " ++
  py_str next_id.

Definition add_task (self : PersonalPASystem)
    (title description category : str) (priority : Z)
    (due_date time_block : str) : M pyval :=
  rows <- read_tasks ;;
  next_id <- lift (next_task_id rows) ;;
  append_task
    [ py_str next_id; title; description; category; py_str priority;
      lit "pending"; now_date self; due_date; py_str 0; time_block ] ;;
  print (add_task_msg title next_id) ;;
  ret PNone.

(** ** [PersonalPASystem.update_task_status] *)

(** The loop over [rows[1:]]: the first row whose first field is [key] is
    updated and the loop stops. Returns the flag [updated] and the rows. *)
Fixpoint update_loop (key new_status : str) (data : list row)
  : result (bool * list row) :=
  match data with
  | [] => Ok (false, [])
  | r :: rest =>
      let? id := getitem r 0 in
      if str_eqb id key then
        let? r1 := setitem r 5 new_status in
        let? r2 := (if str_eqb new_status (lit "completed")
                    then setitem r1 8 (lit "0") else Ok r1) in
        Ok (true, r2 :: rest)
      else
        let? res := update_loop key new_status rest in
        Ok (fst res, r :: snd res)
  end.

Definition not_found_msg (task_id : Z) : str :=
  lit "Task with ID " ++
  py_str task_id ++
  lit " not found.".

Definition updated_msg (task_id : Z) (new_status : str) : str :=
  lit "Task " ++
  py_str task_id ++
  lit " status updated to '" ++
  new_status ++
  lit "'".

Definition update_task_status (self : PersonalPASystem)
    (task_id : Z) (new_status : str) : M pyval :=
  rows <- read_tasks ;;
  res <- lift (update_loop (py_str task_id) new_status (drop 1 rows)) ;;
  if negb (fst res) then
    print (not_found_msg task_id) ;;
    ret PNone
  else
    write_tasks (take 1 rows ++ snd res) ;;
    print (updated_msg task_id new_status) ;;
    ret PNone.

(** ** [PersonalPASystem._update_progress_log] *)

Definition stats_query (today : str) : str :=
  NL ++ lit "        SELECT " ++
  NL ++ lit "            COUNT(*) FILTER (WHERE status = 'completed' AND due_date = '" ++ today ++ lit "') as completed," ++
  NL ++ lit "            COUNT(*) FILTER (WHERE status = 'pending' AND due_date = '" ++ today ++ lit "') as pending" ++
  NL ++ lit "        FROM tasks" ++
  NL ++ lit "        ".

(** [round((completed / total * 100) if total > 0 else 0, 2)] with
    [total = completed + pending]. Rounding the [int] 0 gives the [int] 0. *)
Definition productivity_score (completed pending : Z) : result pyval :=
  let total := completed + pending in
  if 0 <? total then
    let? ratio := int_truediv completed total in
    Ok (PFloat (float_round_2 (float_mul_100 ratio)))
  else Ok (PInt 0).

Definition _update_progress_log (self : PersonalPASystem)
    (migrated_tasks : Z) : M pyval :=
  let today := now_date self in
  result <- query self (lit "tasks") (stats_query today) ;;
  let lines := split 10 (strip result) in
  if bool_decide (2 <= length lines)%nat then
    counts <- lift (match lines with
                    | [_; counts] => Ok counts
                    | _ => Raise ValueError
                    end) ;;
    cp <- lift (match split 44 counts with
                | [a; b] =>
                    let? completed := py_int a in
                    let? pending := py_int b in
                    Ok (completed, pending)
                | _ => Raise ValueError
                end) ;;
    score <- lift (productivity_score (fst cp) (snd cp)) ;;
    append_progress
      [ PStr today; PInt (fst cp); PInt (snd cp); PInt migrated_tasks;
        score; PStr [] ] ;;
    ret PNone
  else ret PNone.

(** ** [PersonalPASystem.migrate_incomplete_tasks] *)

(** One turn of the loop: the row after it, and whether it was migrated. *)
Definition migrate_row (today : str) (r : row) : result (row * bool) :=
  let? status := getitem r 5 in
  if str_eqb status (lit "pending") then
    let? due := getitem r 7 in
    if str_le due today then
      let? count := getitem r 8 in
      let? n := py_int count in
      let? r1 := setitem r 8 (py_str (n + 1)) in
      let? due1 := getitem r1 7 in
      let? due_date := strptime due1 in
      let? new_due_date := add_one_day due_date in
      let? r2 := setitem r1 7 (strftime new_due_date) in
      Ok (r2, true)
    else Ok (r, false)
  else Ok (r, false).

(** The loop over [rows[1:]], with the running [migrated_count]. *)
Fixpoint migrate_loop (today : str) (data : list row) (migrated_count : Z)
  : result (list row * Z) :=
  match data with
  | [] => Ok ([], migrated_count)
  | r :: rest =>
      let? rm := migrate_row today r in
      let? res := migrate_loop today rest
                    (if snd rm then migrated_count + 1 else migrated_count) in
      Ok (fst rm :: fst res, snd res)
  end.

Definition migrated_msg (migrated_count : Z) : str :=
  lit "Migrated " ++
  py_str migrated_count ++
  lit " incomplete tasks".

Definition migrate_incomplete_tasks (self : PersonalPASystem) : M pyval :=
  let today := now_date self in
  rows <- read_tasks ;;
  res <- lift (migrate_loop today (drop 1 rows) 0) ;;
  write_tasks (take 1 rows ++ fst res) ;;
  _update_progress_log self (snd res) ;;
  print (migrated_msg (snd res)) ;;
  ret PNone.

(** ** [PersonalPASystem.get_today_schedule] *)

Definition schedule_query (today_name : str) : str :=
  NL ++ lit "        SELECT block_id, start_time, end_time, block_name, block_type, task_ids" ++
  NL ++ lit "        FROM schedule" ++
  NL ++ lit "        WHERE day = '" ++ today_name ++ lit "'" ++
  NL ++ lit "        ORDER BY start_time" ++
  NL ++ lit "        ".

Definition tasks_query (task_ids : list str) : str :=
  NL ++ lit "                    SELECT task_id, title, priority, status" ++
  NL ++ lit "                    FROM tasks" ++
  NL ++ lit "                    WHERE task_id IN (" ++ join (lit ",") task_ids ++ lit ")" ++
  NL ++ lit "                    ORDER BY priority DESC" ++
  NL ++ lit "                    ".

(** A [dict] with string keys. [dict(zip(keys, values))] stops at the
    shorter list, and a key that comes again overwrites. *)
Definition dict_zip {V} (keys : list (list N)) (values : list V)
  : gmap (list N) V :=
  fold_left (fun m kv => <[fst kv := snd kv]> m) (zip keys values) ∅.

(** What a block of the schedule holds under a key: a field of the query's
    answer, or the list of task records put under ['tasks']. *)
Inductive dval : Type :=
  | DStr (s : str)
  | DTasks (l : list (gmap (list N) (list N))).

(** [block[key]] *)
Definition dict_get {V} (d : gmap (list N) V) (key : str) : result V :=
  match d !! key with
  | Some v => Ok v
  | None => Raise KeyError
  end.

(** The rows of an answer of the tool as records: the first line names the
    columns. An answer of one line has no rows. *)
Definition answer_records (answer : str) : list (gmap (list N) (list N)) :=
  match split 10 (strip answer) with
  | headers :: ((_ :: _) as lines) =>
      List.map (fun line => dict_zip (split 44 headers) (split 44 line)) lines
  | _ => []
  end.

(** The body of the loop over the schedule lines. [query] is the variable
    of that name in [get_today_schedule]: the text of the schedule query. *)
Definition schedule_block (self : PersonalPASystem) (query_text : str)
    (headers : list (list N)) (line : str) : M (gmap (list N) dval) :=
  let values := split 44 line in
  let block := DStr <$> dict_zip headers values in
  ids <- lift (dict_get block (lit "task_ids")) ;;
  match ids with
  | DStr (_ :: _ as ids_text) =>
      let task_ids := split 59 ids_text in
      let tasks_query_text := tasks_query task_ids in
      tasks_result <- query self (lit "tasks") query_text ;;
      let tasks := answer_records tasks_result in
      ret (<[lit "tasks" := DTasks tasks]> block)
  | _ => ret (<[lit "tasks" := DTasks []]> block)
  end.

Fixpoint schedule_blocks (self : PersonalPASystem) (query_text : str)
    (headers : list (list N)) (lines : list (list N))
  : M (list (gmap (list N) dval)) :=
  match lines with
  | [] => ret []
  | line :: rest =>
      block <- schedule_block self query_text headers line ;;
      blocks <- schedule_blocks self query_text headers rest ;;
      ret (block :: blocks)
  end.

Definition get_today_schedule (self : PersonalPASystem)
  : M (list (gmap (list N) dval)) :=
  let today_name := now_weekday self in
  let query_text := schedule_query today_name in
  schedule_result <- query self (lit "schedule") query_text ;;
  match split 10 (strip schedule_result) with
  | header_line :: ((_ :: _) as lines) =>
      schedule_blocks self query_text (split 44 header_line) lines
  | _ => ret []
  end.

(** ** [TaskManagerTools.add_task] of [toolsnotadded.py]

    The data frame [pd.read_csv] returns is a list of records; its
    [task_id] column is of an integer type, the other cells are values. *)
Module TaskManagerTools.

Record task : Type := mktask {
  task_id : Z;
  name : pyval;
  category : pyval;
  priority : pyval;
  scheduled_date : pyval;
  scheduled_time : pyval;
  duration_mins : pyval;
  status : pyval;
  completion_date : pyval;
  notes : pyval;
  rollover_count : pyval
}.

(** [df['task_id'].max()] on a frame that is not empty. *)
Definition max_task_id (t : task) (df : list task) : Z :=
  list_max_Z (task_id t) (List.map task_id df).

Definition new_task_id (df : list task) : Z :=
  match df with
  | [] => 1
  | t :: rest => max_task_id t rest + 1
  end.

Definition added_msg (id : Z) : str :=
  lit "Task added successfully with ID: " ++ py_str id.

(** Returns the frame written back to the file and the message. *)
Definition add_task (df : list task)
    (name category priority scheduled_date scheduled_time
     duration_mins status notes : pyval) : list task * str :=
  let id := new_task_id df in
  let new_task :=
    mktask id name category priority scheduled_date scheduled_time
      duration_mins status (PStr []) notes (PInt 0) in
  (df ++ [new_task], added_msg id).

End TaskManagerTools.

(** ** [PersonalPASystem._initialize_csv_files] *)

(** The data directory when the system starts: each of the three files is
    there with its rows, or is not there. *)
Record data_dir : Type := mkdata_dir {
  tasks_file : option (list row);
  schedule_file : option (list row);
  progress_file : option (list (list pyval))
}.

Definition tasks_columns : row :=
  [ lit "task_id"; lit "title"; lit "description"; lit "category";
    lit "priority"; lit "status"; lit "created_date"; lit "due_date";
    lit "rollover_count"; lit "time_block" ].

Definition schedule_columns : row :=
  [ lit "block_id"; lit "day"; lit "start_time"; lit "end_time";
    lit "block_name"; lit "block_type"; lit "task_ids" ].

Definition progress_columns : list pyval :=
  [ PStr (lit "date"); PStr (lit "completed_tasks"); PStr (lit "pending_tasks");
    PStr (lit "rolled_over_tasks"); PStr (lit "productivity_score");
    PStr (lit "notes") ].

(** The body of the loop of [_add_default_schedule]: the five rows written
    for a day, [block_id] going up by one after each. The number is in the
    file as [str] writes it. *)
Definition day_blocks (block_id : Z) (day_name : str) : list row :=
  [ [ py_str block_id; day_name; lit "06:00"; lit "06:50";
      lit "Morning Routine & Mental Warm-Up"; lit "routine"; lit "" ];
    [ py_str (block_id + 1); day_name; lit "06:50"; lit "10:00";
      lit "Core Learning Sessions"; lit "learning"; lit "" ];
    [ py_str (block_id + 1 + 1); day_name; lit "10:30"; lit "14:00";
      lit "Project & Skill Application"; lit "project"; lit "" ];
    [ py_str (block_id + 1 + 1 + 1); day_name; lit "14:00"; lit "15:00";
      lit "Job Search & Networking"; lit "career"; lit "" ];
    [ py_str (block_id + 1 + 1 + 1 + 1); day_name; lit "20:30"; lit "21:00";
      lit "Reflection & Planning"; lit "planning"; lit "" ] ].

(** [for day in days: ...] *)
Fixpoint default_schedule_loop (days : list str) (block_id : Z) : list row :=
  match days with
  | [] => []
  | day_name :: rest =>
      day_blocks block_id day_name ++
      default_schedule_loop rest (block_id + 1 + 1 + 1 + 1 + 1)
  end.

Definition days : list str :=
  [ lit "Monday"; lit "Tuesday"; lit "Wednesday"; lit "Thursday";
    lit "Friday"; lit "Saturday"; lit "Sunday" ].

(** The rows [_add_default_schedule] hands to the writer. *)
Definition _add_default_schedule : list row :=
  default_schedule_loop days 1.

(** Each file that is not there is made, with its header row, and the
    schedule with the default blocks after the header. *)
Definition _initialize_csv_files (d : data_dir) : data_dir :=
  let tasks :=
    match tasks_file d with
    | None => Some [tasks_columns]
    | Some rows => Some rows
    end in
  let schedule :=
    match schedule_file d with
    | None => Some (schedule_columns :: _add_default_schedule)
    | Some rows => Some rows
    end in
  let progress :=
    match progress_file d with
    | None => Some [progress_columns]
    | Some rows => Some rows
    end in
  mkdata_dir tasks schedule progress.

(** ** Reading the task store

    What the statements below say about a row of the task file. *)

(** The row has a first field, and it is not [key]. *)
Definition has_other_id (key : str) (r : row) : bool :=
  match r !! 0%nat with
  | Some id => negb (str_eqb id key)
  | None => false
  end.

(** What the loop does to the row it finds. *)
Definition set_status (new_status : str) (r : row) : row :=
  if str_eqb new_status (lit "completed")
  then <[8%nat:=lit "0"]> (<[5%nat:=new_status]> r)
  else <[5%nat:=new_status]> r.

(** The length a row needs for the update to go through. *)
Definition status_fields (new_status : str) : nat :=
  if str_eqb new_status (lit "completed") then 9%nat else 6%nat.

(** The row is pending and due: the condition of the rollover loop. *)
Definition is_due (today : str) (r : row) : bool :=
  match r !! 5%nat, r !! 7%nat with
  | Some status, Some due => str_eqb status (lit "pending") && str_le due today
  | _, _ => false
  end.

(** The due date and the rollover count of a row, as the loop reads them. *)
Definition due_date_of (r : row) : result date :=
  let? due := getitem r 7 in strptime due.

Definition rollover_count_of (r : row) : result Z :=
  let? count := getitem r 8 in py_int count.

(** The rollover loop gets through the row: the fields it reads are there,
    and those of a row that is due hold a count and a date before
    9999-12-31. *)
Definition rollover_ready (today : str) (r : row) : bool :=
  match r !! 5%nat with
  | Some status =>
      if str_eqb status (lit "pending") then
        match r !! 7%nat with
        | Some due =>
            if str_le due today then
              match rollover_count_of r, due_date_of r with
              | Ok _, Ok d =>
                  match add_one_day d with Ok _ => true | Raise _ => false end
              | _, _ => false
              end
            else true
        | None => false
        end
      else true
  | None => false
  end.

(** A due row after the rollover: the count plus one, the day after. *)
Definition roll (n : Z) (d : date) (r : row) : row :=
  <[7%nat := strftime (next_day d)]> (<[8%nat := py_str (n + 1)]> r).

(** What one run of the rollover makes of a row. *)
Definition rolled (today : str) (r : row) : row :=
  if is_due today r then
    match rollover_count_of r, due_date_of r with
    | Ok n, Ok d => roll n d r
    | _, _ => r
    end
  else r.

(** The number of rows that are pending and due. *)
Definition due_count (today : str) (data : list row) : Z :=
  Z.of_nat (length (List.filter (is_due today) data)).

(** How a row [r] of the store and the row [r'] in its place after one run
    of the rollover compare. A row that is pending and due has its count
    read as [n] and its due date as [d]; [r'] is [r] with the count [n + 1]
    and the day after [d], which is one day later by the day number; read
    again, [r'] gives that count and, for a year of four digits, that
    date. Any other row is left as it is. *)
Definition rollover_step (today : str) (r r' : row) : Prop :=
  if is_due today r then
    exists (n : Z) (d : date),
      rollover_count_of r = Ok n /\ due_date_of r = Ok d /\
      r' = <[7%nat := strftime (next_day d)]> (<[8%nat := py_str (n + 1)]> r) /\
      rollover_count_of r' = Ok (n + 1) /\
      toordinal (next_day d) = toordinal d + 1 /\
      (1000 <= year d -> due_date_of r' = Ok (next_day d))
  else r' = r.

(** The number a string of decimal digits stands for. *)
Definition decimal_number (s : str) : Z :=
  fold_left
    (fun acc c => 10 * acc + match decimal_value c with
                             | Some d => Z.of_N d
                             | None => 0
                             end) s 0.

(** A row [add_task] can read: it has a first field, and if [isdigit]
    accepts that field, all its characters are decimal digits. *)
Definition id_readable (r : row) : bool :=
  match r !! 0%nat with
  | Some id => implb (isdigit id) (forallb char_isdecimal id)
  | None => false
  end.

(** The row has an all-digit task id. *)
Definition has_digit_id (r : row) : bool :=
  match r !! 0%nat with
  | Some id => isdigit id
  | None => false
  end.

(** The task id of a row as an integer. *)
Definition id_number (r : row) : Z :=
  match r !! 0%nat with
  | Some id => decimal_number id
  | None => 0
  end.

(** The id [add_task] computes: one more than the largest all-digit id,
    and 1 when no row has one. *)
Definition next_id_of (digit_rows : list row) : Z :=
  match List.map id_number digit_rows with
  | x :: l => list_max_Z x l + 1
  | [] => 1
  end.

(** The id the specification promises: one more than the largest id of
    the store, every id read as an integer, and 1 for an empty store. *)
Definition all_ids (data : list row) : result (list Z) :=
  fold_right
    (fun r acc =>
       let? id := getitem r 0 in
       let? n := py_int id in
       let? ns := acc in
       Ok (n :: ns))
    (Ok []) data.

Definition promised_task_id (rows : list row) : result Z :=
  match all_ids (drop 1 rows) with
  | Ok (x :: l) => Ok (list_max_Z x l + 1)
  | Ok [] => Ok 1
  | Raise e => Raise e
  end.

(** The counts in an answer of the query tool to the statistics query, as
    [_update_progress_log] reads them. *)
Definition answer_counts (answer : str) : option (Z * Z) :=
  match split 10 (strip answer) with
  | [_; counts] =>
      match split 44 counts with
      | [a; b] =>
          match py_int a, py_int b with
          | Ok completed, Ok pending => Some (completed, pending)
          | _, _ => None
          end
      | _ => None
      end
  | _ => None
  end.

(** The tool answers the statistics query with a header and one line of
    two counts, neither negative, whatever the files hold. *)
Definition tool_counts (self : PersonalPASystem) (fs : csv_files)
  : option (Z * Z) :=
  answer_counts
    (query_csv_file self fs (lit "tasks") (stats_query (now_date self))).

Definition counts_ok (cp : option (Z * Z)) : bool :=
  match cp with
  | Some (c, p) => (0 <=? c) && (0 <=? p)
  | None => false
  end.

(** The number a value stands for. *)
Definition number_of (v : pyval) : option Q :=
  match v with
  | PInt n => Some (inject_Z n)
  | PFloat (Fin q) => Some q
  | _ => None
  end.

(** The score the specification gives: the exact quotient times 100, and 0
    when nothing is due. *)
Definition exact_score (completed pending : Z) : Q :=
  if 0 <? completed + pending
  then (inject_Z completed / inject_Z (completed + pending) * 100)%Q
  else 0%Q.

(** The schedule line gives the block a [task_ids] field that is not
    empty. *)
Definition block_task_ids (headers : list (list N)) (line : str)
  : option str :=
  dict_zip headers (split 44 line) !! lit "task_ids".

(** ** Auxiliary definitions of the proofs *)

(** [str] writes the year with four characters, and [%Y] reads them back. *)
Definition year_reads_back (y : Z) : bool :=
  match py_str y with
  | [a; b; c; d] =>
      match parse_year [a; b; c; d] with
      | Some (v, []) => v =? y
      | _ => false
      end
  | _ => false
  end.

(** The character of a digit. *)
Definition digit_char (k : Z) : N := Z.to_N (48 + k).

(** A date as one number that orders dates as year, month, day. *)
Definition date_key (d : date) : Z := (year d * 16 + month d) * 32 + day d.

(** [str] writes a year of four digits as its four digits. *)
Definition year_has_four_digits (y : Z) : bool :=
  str_eqb (py_str y)
    [ digit_char (y / 1000); digit_char (y / 100 mod 10);
      digit_char (y / 10 mod 10); digit_char (y mod 10) ].

(** ** Further definitions of the statements *)

(** The row [add_task] writes for a task with the id [id]. *)
Definition task_row (self : PersonalPASystem) (id : Z)
    (title description category : str) (priority : Z)
    (due_date time_block : str) : row :=
  [ py_str id; title; description; category; py_str priority;
    lit "pending"; now_date self; due_date; lit "0"; time_block ].

(** All that stays of a row when the status and the rollover count may
    change: its length and its other fields. *)
Definition same_but_status (r r' : row) : Prop :=
  length r' = length r /\
  forall j : nat, j <> 5%nat -> j <> 8%nat -> r' !! j = r !! j.

(** All that stays of a row when the due date and the rollover count may
    change. *)
Definition same_but_due (r r' : row) : Prop :=
  length r' = length r /\
  forall j : nat, j <> 7%nat -> j <> 8%nat -> r' !! j = r !! j.

(** The three files of a data directory that has them all. *)
Definition files_in (d : data_dir) : option csv_files :=
  match tasks_file d, schedule_file d, progress_file d with
  | Some tasks, Some schedule, Some progress =>
      Some (mkfiles tasks schedule progress)
  | _, _, _ => None
  end.

(** A file that was there is there with the same rows. *)
Definition kept {A} (before after : option A) : Prop :=
  match before with
  | Some rows => after = Some rows
  | None => True
  end.

(** The schedule line names task ids: its [task_ids] field is there and is
    not empty. *)
Definition block_has_ids (headers : list (list N)) (line : str) : bool :=
  match block_task_ids headers line with
  | Some (_ :: _) => true
  | _ => false
  end.

(** The block made of a schedule line: the fields of the line under the
    column names, and under ['tasks'] the records [tasks] when the line
    names task ids and the empty list when it names none. *)
Definition block_of (headers : list (list N))
    (tasks : list (gmap (list N) (list N))) (line : str)
  : gmap (list N) dval :=
  <[lit "tasks" := DTasks (if block_has_ids headers line then tasks else [])]>
    (DStr <$> dict_zip headers (split 44 line)).

(** ** Sample data for the checks below *)

Definition tasks_header : list (list N) :=
  [ lit "task_id"; lit "title"; lit "description"; lit "category";
    lit "priority"; lit "status"; lit "created_date"; lit "due_date";
    lit "rollover_count"; lit "time_block" ].

Definition sample_task (id status due count : string) : list (list N) :=
  [ lit id; lit "t"; lit "d"; lit "c"; lit "1"; lit status;
    lit "2023-12-30"; lit due; lit count; lit "b" ].

(** A tool that answers the statistics query with the given counts and any
    other query with the given schedule. *)
Definition sample_tool (counts schedule : string)
  : csv_files -> list N -> list N -> list N :=
  fun _ name _ =>
    if str_eqb name (lit "schedule") then lit schedule
    else lit "completed,pending" ++ NL ++ lit counts.

Definition sample_system (counts : string) : PersonalPASystem :=
  mksystem (lit "2024-01-02") (lit "Tuesday") (sample_tool counts "").

Definition sample_world (tasks : list (list (list N))) : world :=
  mkworld (mkfiles tasks [] []) [] [].

(** A store whose one task has the id -1. *)
Definition negative_id_store : list (list (list N)) :=
  [tasks_header; sample_task "-1" "pending" "2024-01-05" "0"].

(** A store whose one task has the superscript two (U+00B2) for its id. *)
Definition superscript_id_store : list (list (list N)) :=
  [ tasks_header;
    [ [0xB2%N]; lit "t"; lit "d"; lit "c"; lit "1"; lit "pending";
      lit "2023-12-30"; lit "2024-01-05"; lit "0"; lit "b" ] ].

(** The store of the scenario of the specification, with two more rows:
    task 5 is pending and one day overdue, task 6 is completed, task 7 is
    pending and due later, task 8 is pending and a year overdue. *)
Definition rollover_store : list (list (list N)) :=
  [ tasks_header;
    sample_task "5" "pending" "2024-01-01" "2";
    sample_task "6" "completed" "2024-01-01" "2";
    sample_task "7" "pending" "2024-01-03" "0";
    sample_task "8" "pending" "2022-12-31" "9" ].

(** An answer of the tool to the schedule query: three blocks, the first
    without task ids. *)
Definition sample_schedule_answer : str :=
  lit "block_id,task_ids" ++ NL ++ lit "1," ++ NL ++ lit "2,5;6" ++ NL ++
  lit "3,7".

(** An answer of the tool about the task table. *)
Definition sample_tasks_answer : str :=
  lit "task_id,title,status" ++ NL ++ lit "5,Write report,pending" ++ NL ++
  lit "6,Call bank,completed" ++ NL.

(** An answer to the schedule query that has no [task_ids] column. *)
Definition sample_answer_without_ids : str :=
  lit "block_id,block_name" ++ NL ++ lit "2,Core Learning Sessions".

Definition sample_schedule_system (schedule : str) : PersonalPASystem :=
  mksystem (lit "2024-01-02") (lit "Tuesday")
    (fun _ name _ =>
       if str_eqb name (lit "schedule") then schedule else sample_tasks_answer).

(** * Properties *)

(** ** Lists and results *)

Lemma getitem_Ok {A} (l : list A) (i : nat) (x : A) :
  l !! i = Some x -> getitem l i = Ok x.
Proof. unfold getitem. intros ->. reflexivity. Qed.

Lemma setitem_Ok {A} (l : list A) (i : nat) (x : A) :
  (i < length l)%nat -> setitem l i x = Ok (<[i:=x]> l).
Proof.
  intros H. unfold setitem. rewrite bool_decide_eq_true_2; [reflexivity|exact H].
Qed.

Lemma str_eqb_eq (a b : str) : str_eqb a b = true <-> a = b.
Proof. unfold str_eqb. apply bool_decide_eq_true. Qed.

Lemma str_eqb_refl (a : str) : str_eqb a a = true.
Proof. apply str_eqb_eq. reflexivity. Qed.

Lemma str_eqb_neq (a b : str) : str_eqb a b = false <-> a <> b.
Proof. unfold str_eqb. apply bool_decide_eq_false. Qed.

(** ** Checks of the library model against CPython *)

Example py_int_checks :
  py_int (lit " 12 ") = Ok 12 /\ py_int (lit "+5") = Ok 5 /\
  py_int (lit "-3") = Ok (-3) /\ py_int (lit "1_0") = Ok 10 /\
  py_int (lit "_1") = Raise ValueError /\ py_int (lit "1__0") = Raise ValueError /\
  py_int (lit "1_") = Raise ValueError /\ py_int (lit "00012") = Ok 12 /\
  py_int (lit "") = Raise ValueError /\ py_int (lit "+ 5") = Raise ValueError /\
  py_int [0x661; 0x662]%N = Ok 12 /\ py_int [0xB2]%N = Raise ValueError /\
  py_int [49; 0x1C]%N = Raise ValueError /\ py_int [49; 0x2003]%N = Ok 1 /\
  py_int (lit "1 2") = Raise ValueError /\ py_int (lit "-0") = Ok 0.
Proof. repeat split; reflexivity. Qed.

Example py_str_checks :
  py_str 0 = lit "0" /\ py_str 12 = lit "12" /\ py_str (-5) = lit "-5" /\
  py_str 1000 = lit "1000" /\ py_str 99 = lit "99".
Proof. repeat split; reflexivity. Qed.

Example isdigit_checks :
  isdigit (lit "123") = true /\ isdigit (lit "") = false /\
  isdigit (lit "-1") = false /\ isdigit (lit " 7") = false /\
  isdigit [0xB2]%N = true /\ isdigit [0x661; 0x662]%N = true /\
  isdigit (lit "task_id") = false.
Proof. repeat split; reflexivity. Qed.

Example split_checks :
  split 44 (lit "a,b,,c") = [lit "a"; lit "b"; lit ""; lit "c"] /\
  split 44 (lit "") = [lit ""] /\
  strip (lit "  a b
") = lit "a b" /\
  join (lit ",") [lit "1"; lit "2"] = lit "1,2".
Proof. repeat split; reflexivity. Qed.

Example strptime_checks :
  strptime (lit "2024-01-01") = Ok (mkdate 2024 1 1) /\
  strptime (lit "2024-1-1") = Ok (mkdate 2024 1 1) /\
  strptime (lit "2024-01- 1") = Ok (mkdate 2024 1 1) /\
  strptime (lit "2024-13-01") = Raise ValueError /\
  strptime (lit "2024-02-30") = Raise ValueError /\
  strptime (lit "2024-02-29") = Ok (mkdate 2024 2 29) /\
  strptime (lit "0000-01-01") = Raise ValueError /\
  strptime (lit "2024-01-01 ") = Raise ValueError /\
  strptime (lit "2024-01-311") = Raise ValueError /\
  strptime (lit "2024-10-1") = Ok (mkdate 2024 10 1) /\
  strptime (lit "2024-1-10") = Ok (mkdate 2024 1 10) /\
  strptime (lit "2024-010-1") = Raise ValueError /\
  strptime (lit "2024-01-1" ++ [0x662%N]) = Ok (mkdate 2024 1 12) /\
  strptime (lit "2024-01-3" ++ [0x660%N]) = Raise ValueError /\
  strptime (lit "224-01-01") = Raise ValueError.
Proof. repeat split; reflexivity. Qed.

Example strftime_checks :
  strftime (mkdate 2024 1 2) = lit "2024-01-02" /\
  strftime (mkdate 1 1 2) = lit "1-01-02" /\
  strftime (next_day (mkdate 2023 12 31)) = lit "2024-01-01" /\
  strftime (next_day (mkdate 2024 2 28)) = lit "2024-02-29" /\
  strftime (next_day (mkdate 2023 2 28)) = lit "2023-03-01" /\
  add_one_day (mkdate 9999 12 31) = Raise OverflowError /\
  toordinal (mkdate 1 1 1) = 1 /\ toordinal (mkdate 2024 1 1) = 738886.
Proof. repeat split; reflexivity. Qed.

Example decimal_number_checks :
  decimal_number (lit "0042") = 42 /\ decimal_number (lit "7") = 7 /\
  decimal_number [0x661; 0x662]%N = 12 /\
  py_int (lit "0042") = Ok (decimal_number (lit "0042")).
Proof. repeat split; reflexivity. Qed.

Example score_checks :
  productivity_score 0 0 = Ok (PInt 0) /\
  productivity_score 1 2 = Ok (PFloat (Fin (b64 (3333 # 100)))) /\
  productivity_score 2 1 = Ok (PFloat (Fin (b64 (6667 # 100)))) /\
  productivity_score 1 19999 = Ok (PFloat (Fin (b64 (1 # 100)))) /\
  productivity_score 1 31 = Ok (PFloat (Fin (b64 (312 # 100)))) /\
  productivity_score 3 0 = Ok (PFloat (Fin (b64 100))).
Proof. repeat split; vm_compute; reflexivity. Qed.

(** ** [update_task_status] *)

Lemma update_loop_miss (key st : str) (data : list row) :
  forallb (has_other_id key) data = true ->
  update_loop key st data = Ok (false, data).
Proof.
  induction data as [|r rest IH]; simpl; [reflexivity|].
  intros H. apply andb_true_iff in H as [Hr Hrest].
  unfold has_other_id in Hr. unfold getitem.
  destruct (r !! 0%nat) as [id|]; [|discriminate]. simpl.
  apply negb_true_iff in Hr. rewrite Hr, (IH Hrest). reflexivity.
Qed.

Lemma update_loop_hit (key st : str) (pre post : list row) (r : row) :
  forallb (has_other_id key) pre = true ->
  r !! 0%nat = Some key ->
  (status_fields st <= length r)%nat ->
  update_loop key st (pre ++ r :: post) = Ok (true, pre ++ set_status st r :: post).
Proof.
  intros Hpre Hid Hlen. induction pre as [|p pre IH]; simpl.
  - unfold getitem. rewrite Hid. simpl. rewrite str_eqb_refl.
    unfold status_fields, set_status in *.
    destruct (str_eqb st (lit "completed")).
    + rewrite setitem_Ok by lia. simpl.
      rewrite setitem_Ok by (rewrite length_insert; lia). reflexivity.
    + rewrite setitem_Ok by lia. reflexivity.
  - simpl in Hpre. apply andb_true_iff in Hpre as [Hp Hpre].
    unfold has_other_id in Hp. unfold getitem.
    destruct (p !! 0%nat) as [id|]; [|discriminate]. simpl.
    apply negb_true_iff in Hp. rewrite Hp, (IH Hpre). reflexivity.
Qed.

Lemma set_status_status (st : str) (r : row) :
  (status_fields st <= length r)%nat -> set_status st r !! 5%nat = Some st.
Proof.
  unfold set_status, status_fields. intros H.
  destruct (str_eqb st (lit "completed")).
  - rewrite list_lookup_insert_ne by lia.
    apply list_lookup_insert_eq. lia.
  - apply list_lookup_insert_eq. lia.
Qed.

Lemma set_status_other (st : str) (r : row) (j : nat) :
  j <> 5%nat -> (j <> 8%nat \/ st <> lit "completed") ->
  set_status st r !! j = r !! j.
Proof.
  unfold set_status. intros H5 H8.
  destruct (str_eqb st (lit "completed")) eqn:E.
  - destruct H8 as [H8|H8].
    + rewrite list_lookup_insert_ne by lia.
      apply list_lookup_insert_ne. lia.
    + apply str_eqb_eq in E. contradiction.
  - apply list_lookup_insert_ne. lia.
Qed.

Lemma set_status_length (st : str) (r : row) :
  length (set_status st r) = length r.
Proof.
  unfold set_status. destruct (str_eqb st (lit "completed"));
    rewrite ?length_insert; reflexivity.
Qed.

(** The whole method on a store whose first match is [r]. *)
Lemma update_task_status_hit (self : PersonalPASystem) (task_id : Z)
    (st : str) (w : world) (header r : row) (pre post : list row) :
  tasks_csv (files w) = header :: pre ++ r :: post ->
  forallb (has_other_id (py_str task_id)) pre = true ->
  r !! 0%nat = Some (py_str task_id) ->
  (status_fields st <= length r)%nat ->
  update_task_status self task_id st w =
    (Ok PNone,
     mkworld
       (mkfiles (header :: pre ++ set_status st r :: post)
          (schedule_csv (files w)) (progress_csv (files w)))
       (stdout w ++ [updated_msg task_id st]) (calls w)).
Proof.
  intros Hrows Hpre Hid Hlen.
  unfold update_task_status, bind, read_tasks, lift.
  rewrite Hrows.
  change (drop 1 (header :: pre ++ r :: post)) with (pre ++ r :: post).
  rewrite (update_loop_hit _ _ _ _ _ Hpre Hid Hlen). reflexivity.
Qed.

(** C3: marking a task completed sets its status field to ['completed'] and
    its rollover count to ['0'], whatever the count was. The task is the
    first row of the store whose id field is [str(task_id)]; it has the
    nine fields the update writes to. *)
Theorem completed_resets_rollover_count (self : PersonalPASystem)
    (task_id : Z) (w : world) (header r : row) (pre post : list row) :
  tasks_csv (files w) = header :: pre ++ r :: post ->
  forallb (has_other_id (py_str task_id)) pre = true ->
  r !! 0%nat = Some (py_str task_id) ->
  (9 <= length r)%nat ->
  exists r' : row,
    fst (update_task_status self task_id (lit "completed") w) = Ok PNone /\
    tasks_csv (files (snd (update_task_status self task_id (lit "completed") w)))
      = header :: pre ++ r' :: post /\
    r' !! 5%nat = Some (lit "completed") /\
    r' !! 8%nat = Some (lit "0").
Proof.
  intros Hrows Hpre Hid Hlen.
  exists (set_status (lit "completed") r).
  rewrite (update_task_status_hit self task_id (lit "completed") w header r pre post)
    by (try assumption; exact Hlen).
  simpl. repeat split.
  - apply set_status_status. exact Hlen.
  - unfold set_status. simpl. apply list_lookup_insert_eq.
    rewrite length_insert. lia.
Qed.

Lemma completed_resets_rollover_count_witness :
  exists r' : row,
    fst (update_task_status (sample_system "1,2") 6 (lit "completed")
           (sample_world [tasks_header; sample_task "5" "pending" "2024-01-01" "2";
                          sample_task "6" "pending" "2024-01-01" "41";
                          sample_task "6" "pending" "2024-01-09" "7"])) = Ok PNone /\
    tasks_csv (files (snd (update_task_status (sample_system "1,2") 6 (lit "completed")
           (sample_world [tasks_header; sample_task "5" "pending" "2024-01-01" "2";
                          sample_task "6" "pending" "2024-01-01" "41";
                          sample_task "6" "pending" "2024-01-09" "7"]))))
      = tasks_header :: [sample_task "5" "pending" "2024-01-01" "2"] ++ r'
          :: [sample_task "6" "pending" "2024-01-09" "7"] /\
    r' !! 5%nat = Some (lit "completed") /\
    r' !! 8%nat = Some (lit "0").
Proof.
  apply (completed_resets_rollover_count (sample_system "1,2") 6
           (sample_world [tasks_header; sample_task "5" "pending" "2024-01-01" "2";
                          sample_task "6" "pending" "2024-01-01" "41";
                          sample_task "6" "pending" "2024-01-09" "7"])
           tasks_header (sample_task "6" "pending" "2024-01-01" "41")
           [sample_task "5" "pending" "2024-01-01" "2"]
           [sample_task "6" "pending" "2024-01-09" "7"]).
  - reflexivity.
  - reflexivity.
  - reflexivity.
  - vm_compute. lia.
Defined.

(** C6: a task id that matches no row makes [update_task_status] print the
    not-found message and return; nothing is written: the files are what
    they were, and the message of a successful update is not printed. Every
    row of the store has an id field. *)
Theorem unknown_id_leaves_store (self : PersonalPASystem) (task_id : Z)
    (new_status : str) (w : world) :
  forallb (has_other_id (py_str task_id)) (drop 1 (tasks_csv (files w))) = true ->
  update_task_status self task_id new_status w =
    (Ok PNone,
     mkworld (files w)
       (stdout w ++ [lit "Task with ID " ++ py_str task_id ++ lit " not found."])
       (calls w)).
Proof.
  intros H. unfold update_task_status, bind, read_tasks, lift.
  rewrite (update_loop_miss _ _ _ H). reflexivity.
Qed.

Lemma unknown_id_leaves_store_witness :
  update_task_status (sample_system "1,2") 9 (lit "completed")
    (sample_world [tasks_header; sample_task "5" "pending" "2024-01-01" "2";
                   sample_task "6" "pending" "2024-01-01" "41"]) =
    (Ok PNone,
     mkworld
       (files (sample_world [tasks_header; sample_task "5" "pending" "2024-01-01" "2";
                             sample_task "6" "pending" "2024-01-01" "41"]))
       ([] ++ [lit "Task with ID " ++ py_str 9 ++ lit " not found."])
       []).
Proof.
  apply (unknown_id_leaves_store (sample_system "1,2") 9 (lit "completed")
           (sample_world [tasks_header; sample_task "5" "pending" "2024-01-01" "2";
                          sample_task "6" "pending" "2024-01-01" "41"])).
  reflexivity.
Defined.

(** C9: [update_task_status] changes the first row whose id field matches
    and nothing else. Rows before and after it stay as they are, also rows
    after it that carry the same id; in the row itself every field but the
    status, and the rollover count when the new status is ['completed'],
    stays as it is; the schedule and the progress log are not touched. *)
Theorem update_changes_first_match_only (self : PersonalPASystem)
    (task_id : Z) (new_status : str) (w : world) (header r : row)
    (pre post : list row) :
  tasks_csv (files w) = header :: pre ++ r :: post ->
  forallb (has_other_id (py_str task_id)) pre = true ->
  r !! 0%nat = Some (py_str task_id) ->
  (status_fields new_status <= length r)%nat ->
  exists r' : row,
    let w' := snd (update_task_status self task_id new_status w) in
    tasks_csv (files w') = header :: pre ++ r' :: post /\
    r' !! 5%nat = Some new_status /\
    length r' = length r /\
    (forall j : nat, j <> 5%nat ->
       (j <> 8%nat \/ new_status <> lit "completed") -> r' !! j = r !! j) /\
    (forall i : nat, i <> S (length pre) ->
       tasks_csv (files w') !! i = tasks_csv (files w) !! i) /\
    schedule_csv (files w') = schedule_csv (files w) /\
    progress_csv (files w') = progress_csv (files w).
Proof.
  intros Hrows Hpre Hid Hlen.
  exists (set_status new_status r).
  rewrite (update_task_status_hit self task_id new_status w header r pre post)
    by assumption.
  simpl. rewrite Hrows. repeat split.
  - apply set_status_status. exact Hlen.
  - apply set_status_length.
  - intros j H5 H8. apply set_status_other; assumption.
  - intros i Hi. destruct i as [|i]; [reflexivity|]. simpl.
    assert (Hne : i <> length pre) by lia.
    destruct (Nat.lt_ge_cases i (length pre)) as [Hlt|Hge].
    + rewrite !lookup_app_l by exact Hlt. reflexivity.
    + rewrite !lookup_app_r by exact Hge.
      destruct (i - length pre)%nat as [|k] eqn:E; [lia|]. reflexivity.
Qed.

Lemma update_changes_first_match_only_witness :
  exists r' : row,
    let w := sample_world [tasks_header; sample_task "5" "pending" "2024-01-01" "2";
                           sample_task "6" "pending" "2024-01-01" "41";
                           sample_task "6" "pending" "2024-01-09" "7"] in
    let w' := snd (update_task_status (sample_system "1,2") 6 (lit "in_progress") w) in
    tasks_csv (files w') =
      tasks_header :: [sample_task "5" "pending" "2024-01-01" "2"] ++ r'
        :: [sample_task "6" "pending" "2024-01-09" "7"] /\
    r' !! 5%nat = Some (lit "in_progress") /\
    length r' = length (sample_task "6" "pending" "2024-01-01" "41") /\
    (forall j : nat, j <> 5%nat ->
       (j <> 8%nat \/ lit "in_progress" <> lit "completed") ->
       r' !! j = sample_task "6" "pending" "2024-01-01" "41" !! j) /\
    (forall i : nat, i <> S (length [sample_task "5" "pending" "2024-01-01" "2"]) ->
       tasks_csv (files w') !! i = tasks_csv (files w) !! i) /\
    schedule_csv (files w') = schedule_csv (files w) /\
    progress_csv (files w') = progress_csv (files w).
Proof.
  apply (update_changes_first_match_only (sample_system "1,2") 6 (lit "in_progress")
           (sample_world [tasks_header; sample_task "5" "pending" "2024-01-01" "2";
                          sample_task "6" "pending" "2024-01-01" "41";
                          sample_task "6" "pending" "2024-01-09" "7"])
           tasks_header (sample_task "6" "pending" "2024-01-01" "41")
           [sample_task "5" "pending" "2024-01-01" "2"]
           [sample_task "6" "pending" "2024-01-09" "7"]).
  - reflexivity.
  - reflexivity.
  - reflexivity.
  - vm_compute. lia.
Defined.

(** When the loop raises, on a row without fields before the match or on a
    matching row too short for the update, the method raises before it
    writes: the state is what it was. *)
Lemma update_failure_leaves_store (self : PersonalPASystem) (task_id : Z)
    (new_status : str) (w : world) (e : exn) :
  update_loop (py_str task_id) new_status (drop 1 (tasks_csv (files w))) = Raise e ->
  update_task_status self task_id new_status w = (Raise e, w).
Proof.
  intros H. unfold update_task_status, bind, read_tasks, lift.
  rewrite H. reflexivity.
Qed.

(** ** [int] on strings of decimal digits *)

Lemma decimal_value_spec (c d : N) :
  decimal_value c = Some d ->
  exists z : N, In z decimal_zeros /\ (z <= c < z + 10)%N /\ d = (c - z)%N.
Proof.
  unfold decimal_value.
  destruct (List.find _ decimal_zeros) as [z|] eqn:E; [|discriminate].
  intros [= <-]. apply find_some in E as [Hin Hz].
  apply andb_true_iff in Hz as [H1 H2].
  apply N.leb_le in H1. apply N.ltb_lt in H2.
  exists z. repeat split; assumption.
Qed.

Ltac each_zero H :=
  unfold decimal_zeros in H; simpl in H;
  repeat (destruct H as [H|H]; [subst|]); [..|contradiction].

Lemma decimal_to_ascii (c d : N) :
  decimal_value c = Some d ->
  to_ascii_decimal c = (48 + d)%N /\ (d < 10)%N.
Proof.
  intros Hd. pose proof Hd as Hv.
  apply decimal_value_spec in Hv as (z & Hin & Hz & ->).
  split; [|lia]. unfold to_ascii_decimal.
  destruct (c <? 128)%N eqn:E.
  - apply N.ltb_lt in E. each_zero Hin; lia.
  - apply N.ltb_ge in E. rewrite Hd.
    assert (Hs : char_isspace c = false).
    { apply not_true_is_false. intros Hs.
      unfold char_isspace, in_ranges, space_ranges in Hs. simpl in Hs.
      rewrite !orb_true_iff, !andb_true_iff, !N.leb_le in Hs.
      each_zero Hin; lia. }
    rewrite Hs. reflexivity.
Qed.

Lemma decimal_ascii_digit (c : N) :
  char_isdecimal c = true ->
  ascii_digit (to_ascii_decimal c) =
    Some (match decimal_value c with Some d => Z.of_N d | None => 0 end).
Proof.
  unfold char_isdecimal. destruct (decimal_value c) as [d|] eqn:E; [|discriminate].
  intros _. destruct (decimal_to_ascii c d E) as [-> Hlt].
  unfold ascii_digit.
  replace ((48 <=? 48 + d)%N && (48 + d <=? 57)%N) with true.
  - f_equal. lia.
  - symmetry. apply andb_true_iff. split; apply N.leb_le; lia.
Qed.

Lemma scan_decimals (s : str) (acc : Z) :
  forallb char_isdecimal s = true ->
  scan_digits acc false (List.map to_ascii_decimal s) =
    Some (fold_left
            (fun a c => 10 * a + match decimal_value c with
                                 | Some d => Z.of_N d
                                 | None => 0
                                 end) s acc, []).
Proof.
  revert acc. induction s as [|c s IH]; intros acc H; simpl; [reflexivity|].
  simpl in H. apply andb_true_iff in H as [Hc Hs].
  rewrite (decimal_ascii_digit c Hc). apply IH. exact Hs.
Qed.

Lemma ascii_digit_range (c : N) (d : Z) :
  ascii_digit c = Some d -> (48 <= c <= 57)%N.
Proof.
  unfold ascii_digit.
  destruct ((48 <=? c)%N && (c <=? 57)%N) eqn:E; [|discriminate].
  intros _. apply andb_true_iff in E as [H1 H2].
  apply N.leb_le in H1. apply N.leb_le in H2. lia.
Qed.

(** A number that starts with a digit: no blank to skip and no sign. *)
Lemma parse_int_ascii_digits (c : N) (s rest : str) (d v : Z) :
  ascii_digit c = Some d ->
  scan_digits 0 false (c :: s) = Some (v, rest) ->
  skip_spaces rest = [] ->
  parse_int_ascii (c :: s) = Ok v.
Proof.
  intros Hd Hscan Hrest. pose proof (ascii_digit_range c d Hd) as Hc.
  unfold parse_int_ascii.
  assert (Hsp : skip_spaces (c :: s) = c :: s).
  { simpl. unfold ascii_isspace.
    replace (c =? 32)%N with false by (symmetry; apply N.eqb_neq; lia).
    replace ((9 <=? c)%N && (c <=? 13)%N) with false; [reflexivity|].
    symmetry. apply andb_false_iff. right. apply N.leb_gt. lia. }
  rewrite Hsp.
  assert (Hsign : (match c :: s with
                   | 43%N :: t => (false, t)
                   | 45%N :: t => (true, t)
                   | _ => (false, c :: s)
                   end) = (false, c :: s)).
  { destruct c as [|p]; [reflexivity|].
    do 6 (destruct p as [p|p|]; try reflexivity); lia. }
  rewrite Hsign, Hd, Hscan, Hrest. reflexivity.
Qed.

(** [int] reads a string of decimal digits, of any script, as the number
    it stands for. *)
Lemma py_int_decimal (s : str) :
  s <> [] -> forallb char_isdecimal s = true -> py_int s = Ok (decimal_number s).
Proof.
  intros Hne Hall. unfold py_int, decimal_number.
  destruct s as [|c s]; [contradiction|].
  pose proof (scan_decimals (c :: s) 0 Hall) as Hscan.
  simpl in Hall. apply andb_true_iff in Hall as [Hc _].
  simpl List.map in *.
  eapply parse_int_ascii_digits.
  - apply decimal_ascii_digit. exact Hc.
  - exact Hscan.
  - reflexivity.
Qed.

(** ** [add_task] *)

Lemma digit_ids_spec (data : list row) :
  forallb id_readable data = true ->
  digit_ids data = Ok (List.map id_number (List.filter has_digit_id data)).
Proof.
  induction data as [|r rest IH]; simpl; [reflexivity|].
  intros H. apply andb_true_iff in H as [Hr Hrest].
  unfold id_readable in Hr. unfold has_digit_id, id_number, getitem.
  destruct (r !! 0%nat) as [id|] eqn:E; [|discriminate]. simpl.
  destruct (isdigit id) eqn:Hd.
  - simpl in Hr.
    assert (Hp : py_int id = Ok (decimal_number id)).
    { apply py_int_decimal; [|exact Hr]. intros ->. discriminate. }
    rewrite Hp. simpl. rewrite (IH Hrest). simpl. rewrite E. reflexivity.
  - apply IH. exact Hrest.
Qed.

Lemma list_max_Z_ge (l : list Z) (x : Z) :
  x <= list_max_Z x l /\ forall y, In y l -> y <= list_max_Z x l.
Proof.
  unfold list_max_Z. revert x. induction l as [|a l IH]; intros x; simpl.
  - split; [lia|contradiction].
  - destruct (IH (Z.max x a)) as [H1 H2]. split; [lia|].
    intros y [<-|Hy]; [lia|]. apply H2. exact Hy.
Qed.

Lemma list_max_Z_in (l : list Z) (x : Z) : In (list_max_Z x l) (x :: l).
Proof.
  unfold list_max_Z. revert x. induction l as [|a l IH]; intros x; simpl.
  - left. reflexivity.
  - destruct (IH (Z.max x a)) as [H|H].
    + rewrite <- H. destruct (Z.max_spec x a) as [[_ ->]|[_ ->]]; auto.
    + right. right. exact H.
Qed.

Lemma next_task_id_spec (rows : list row) :
  forallb id_readable (drop 1 rows) = true ->
  next_task_id rows = Ok (next_id_of (List.filter has_digit_id (drop 1 rows))).
Proof.
  intros H. unfold next_task_id, next_id_of.
  destruct (bool_decide (1 < length rows)%nat) eqn:E.
  - rewrite (digit_ids_spec _ H). simpl.
    destruct (List.map id_number _); reflexivity.
  - apply bool_decide_eq_false in E.
    destruct rows as [|h [|r rows]]; try reflexivity. simpl in E. lia.
Qed.

Lemma next_id_of_max (digit_rows : list row) :
  (forall r, In r digit_rows -> id_number r < next_id_of digit_rows) /\
  ((exists r, In r digit_rows /\ next_id_of digit_rows = id_number r + 1) \/
   (digit_rows = [] /\ next_id_of digit_rows = 1)).
Proof.
  unfold next_id_of. destruct digit_rows as [|r0 rs]; simpl.
  - split; [contradiction|]. right. split; reflexivity.
  - destruct (list_max_Z_ge (List.map id_number rs) (id_number r0)) as [H1 H2].
    split.
    + intros r [<-|Hr]; [lia|].
      specialize (H2 (id_number r) (in_map id_number _ _ Hr)). lia.
    + left. destruct (list_max_Z_in (List.map id_number rs) (id_number r0)) as [E|E].
      * exists r0. split; [left; reflexivity|]. rewrite <- E. reflexivity.
      * apply in_map_iff in E as (r & E & Hr).
        exists r. split; [right; exact Hr|]. rewrite E. reflexivity.
Qed.

Lemma add_task_run (self : PersonalPASystem)
    (title description category : str) (priority : Z)
    (due_date time_block : str) (w : world) (n : Z) :
  next_task_id (tasks_csv (files w)) = Ok n ->
  add_task self title description category priority due_date time_block w =
    (Ok PNone,
     mkworld
       (mkfiles
          (tasks_csv (files w) ++
             [[ py_str n; title; description; category; py_str priority;
                lit "pending"; now_date self; due_date; lit "0"; time_block ]])
          (schedule_csv (files w)) (progress_csv (files w)))
       (stdout w ++ [add_task_msg title n]) (calls w)).
Proof.
  intros H. unfold add_task, bind, read_tasks, lift. rewrite H. reflexivity.
Qed.

(** C5, as the code has it: [add_task] gives the new task one more than the
    largest id among the rows whose id field is all digits, and 1 when the
    store has no such row, be it empty or not. The new row goes to the end
    of the file with that id. Every row has an id field, and the ids
    [isdigit] accepts are made of decimal digits. *)
Theorem add_task_next_digit_id (self : PersonalPASystem)
    (title description category : str) (priority : Z)
    (due_date time_block : str) (w : world) :
  forallb id_readable (drop 1 (tasks_csv (files w))) = true ->
  exists n : Z,
    add_task self title description category priority due_date time_block w =
      (Ok PNone,
       mkworld
         (mkfiles
            (tasks_csv (files w) ++
               [[ py_str n; title; description; category; py_str priority;
                  lit "pending"; now_date self; due_date; lit "0"; time_block ]])
            (schedule_csv (files w)) (progress_csv (files w)))
         (stdout w ++ [add_task_msg title n]) (calls w)) /\
    (forall r : row, In r (drop 1 (tasks_csv (files w))) ->
       has_digit_id r = true -> id_number r < n) /\
    ((exists r : row, In r (drop 1 (tasks_csv (files w))) /\
        has_digit_id r = true /\ n = id_number r + 1) \/
     ((forall r : row, In r (drop 1 (tasks_csv (files w))) ->
         has_digit_id r = false) /\ n = 1)).
Proof.
  intros Hread.
  set (data := drop 1 (tasks_csv (files w))) in *.
  exists (next_id_of (List.filter has_digit_id data)).
  destruct (next_id_of_max (List.filter has_digit_id data)) as [Hub Hmax].
  split; [|split].
  - apply add_task_run. apply next_task_id_spec. exact Hread.
  - intros r Hr Hd. apply Hub. apply filter_In. split; assumption.
  - destruct Hmax as [(r & Hr & E)|[Hnil E]].
    + left. apply filter_In in Hr as [Hr Hd]. exists r. repeat split; assumption.
    + right. split; [|exact E].
      intros r Hr. destruct (has_digit_id r) eqn:Hd; [|reflexivity].
      assert (Hin : In r (List.filter has_digit_id data))
        by (apply filter_In; split; assumption).
      rewrite Hnil in Hin. contradiction.
Qed.

Lemma add_task_next_digit_id_witness :
  exists n : Z,
    add_task (sample_system "1,2") (lit "T") (lit "D") (lit "C") 3
        (lit "2024-01-05") (lit "B")
        (sample_world [tasks_header; sample_task "5" "pending" "2024-01-01" "2";
                       sample_task "note" "pending" "2024-01-01" "0";
                       sample_task "12" "completed" "2024-01-01" "0"]) =
      (Ok PNone,
       mkworld
         (mkfiles
            ([tasks_header; sample_task "5" "pending" "2024-01-01" "2";
              sample_task "note" "pending" "2024-01-01" "0";
              sample_task "12" "completed" "2024-01-01" "0"] ++
               [[ py_str n; lit "T"; lit "D"; lit "C"; py_str 3;
                  lit "pending"; lit "2024-01-02"; lit "2024-01-05"; lit "0";
                  lit "B" ]])
            [] [])
         ([] ++ [add_task_msg (lit "T") n]) []) /\
    (forall r : row,
       In r [sample_task "5" "pending" "2024-01-01" "2";
             sample_task "note" "pending" "2024-01-01" "0";
             sample_task "12" "completed" "2024-01-01" "0"] ->
       has_digit_id r = true -> id_number r < n) /\
    ((exists r : row,
        In r [sample_task "5" "pending" "2024-01-01" "2";
              sample_task "note" "pending" "2024-01-01" "0";
              sample_task "12" "completed" "2024-01-01" "0"] /\
        has_digit_id r = true /\ n = id_number r + 1) \/
     ((forall r : row,
         In r [sample_task "5" "pending" "2024-01-01" "2";
               sample_task "note" "pending" "2024-01-01" "0";
               sample_task "12" "completed" "2024-01-01" "0"] ->
         has_digit_id r = false) /\ n = 1)).
Proof.
  apply (add_task_next_digit_id (sample_system "1,2") (lit "T") (lit "D") (lit "C") 3
           (lit "2024-01-05") (lit "B")
           (sample_world [tasks_header; sample_task "5" "pending" "2024-01-01" "2";
                          sample_task "note" "pending" "2024-01-01" "0";
                          sample_task "12" "completed" "2024-01-01" "0"])).
  reflexivity.
Defined.

(** C5 as the specification states it fails on a store whose one task has
    the id -1: the largest id plus one is 0, and [add_task] assigns 1,
    because ['-1'.isdigit()] is false and the row is left out. *)
Lemma add_task_id_not_max_plus_one :
  promised_task_id negative_id_store = Ok 0 /\
  next_task_id negative_id_store = Ok 1 /\
  tasks_csv (files (snd (add_task (sample_system "1,2") (lit "T") (lit "D")
                           (lit "C") 3 (lit "2024-01-05") (lit "B")
                           (sample_world negative_id_store)))) !! 2%nat =
    Some [ lit "1"; lit "T"; lit "D"; lit "C"; lit "3"; lit "pending";
           lit "2024-01-02"; lit "2024-01-05"; lit "0"; lit "B" ].
Proof. repeat split; vm_compute; reflexivity. Qed.

(** On ASCII the guard of [add_task] does its work: an id that [isdigit]
    accepts is a string of the digits 0 to 9, and [int] reads it. *)
Lemma ascii_digit_is_decimal (c : N) :
  (c < 128)%N -> char_isdigit c = true -> char_isdecimal c = true.
Proof.
  intros Hc H. unfold char_isdigit in H. apply orb_true_iff in H as [H|H].
  - exact H.
  - unfold in_ranges, other_digit_ranges in H. simpl in H.
    rewrite !orb_true_iff, !andb_true_iff, !N.leb_le in H. lia.
Qed.

Lemma isdigit_ascii_parses (s : str) :
  Forall (fun c => (c < 128)%N) s -> isdigit s = true ->
  py_int s = Ok (decimal_number s).
Proof.
  intros Hascii Hd. apply py_int_decimal.
  - intros ->. discriminate.
  - destruct s as [|c s]; [discriminate|]. unfold isdigit in Hd.
    apply forallb_forall. intros x Hx.
    apply ascii_digit_is_decimal.
    + rewrite Forall_forall in Hascii. apply Hascii.
      apply list_elem_of_In. exact Hx.
    + rewrite forallb_forall in Hd. apply Hd. exact Hx.
Qed.

(** A store none of whose rows has an all-digit id gives the id 1, empty
    or not. *)
Lemma next_task_id_without_digit_ids (rows : list row) :
  forallb (fun r => match r !! 0%nat with
                    | Some id => negb (isdigit id)
                    | None => false
                    end) (drop 1 rows) = true ->
  next_task_id rows = Ok 1.
Proof.
  intros H.
  assert (Hr : forallb id_readable (drop 1 rows) = true).
  { apply forallb_forall. intros r Hr. rewrite forallb_forall in H.
    specialize (H r Hr). unfold id_readable.
    destruct (r !! 0%nat); [|discriminate].
    apply negb_true_iff in H. rewrite H. reflexivity. }
  rewrite (next_task_id_spec rows Hr).
  replace (List.filter has_digit_id (drop 1 rows)) with (@nil (list (list N)));
    [reflexivity|].
  symmetry. induction (drop 1 rows) as [|r rest IH]; [reflexivity|].
  simpl in H. apply andb_true_iff in H as [H1 H2]. simpl.
  unfold has_digit_id at 1. destruct (r !! 0%nat); [|discriminate].
  apply negb_true_iff in H1. rewrite H1. apply IH; [exact H2|].
  simpl in Hr. apply andb_true_iff in Hr as [_ Hr]. exact Hr.
Qed.

(** C10: the superscript two is a digit for [isdigit] and not a number for
    [int]. A row with that id is not left out; [add_task] raises
    [ValueError] and adds nothing. *)
Theorem add_task_raises_on_superscript_id :
  isdigit [0xB2%N] = true /\
  py_int [0xB2%N] = Raise ValueError /\
  add_task (sample_system "1,2") (lit "T") (lit "D") (lit "C") 3
      (lit "2024-01-05") (lit "B") (sample_world superscript_id_store) =
    (Raise ValueError, sample_world superscript_id_store).
Proof. repeat split; vm_compute; reflexivity. Qed.

(** [TaskManagerTools.add_task] of the other listing takes the maximum of
    all ids: the new id is above every id of the frame and one more than
    one of them, and 1 for an empty frame. *)
Lemma tools_new_task_id_max (df : list TaskManagerTools.task) :
  (forall t, In t df ->
     TaskManagerTools.task_id t < TaskManagerTools.new_task_id df) /\
  ((exists t, In t df /\
      TaskManagerTools.new_task_id df = TaskManagerTools.task_id t + 1) \/
   (df = [] /\ TaskManagerTools.new_task_id df = 1)).
Proof.
  unfold TaskManagerTools.new_task_id, TaskManagerTools.max_task_id.
  destruct df as [|t0 ts].
  - split; [contradiction|]. right. split; reflexivity.
  - destruct (list_max_Z_ge (List.map TaskManagerTools.task_id ts)
                (TaskManagerTools.task_id t0)) as [H1 H2].
    split.
    + intros t [<-|Ht]; [lia|].
      specialize (H2 _ (in_map TaskManagerTools.task_id _ _ Ht)). lia.
    + left.
      destruct (list_max_Z_in (List.map TaskManagerTools.task_id ts)
                  (TaskManagerTools.task_id t0)) as [E|E].
      * exists t0. split; [left; reflexivity|]. rewrite <- E. reflexivity.
      * apply in_map_iff in E as (t & E & Ht).
        exists t. split; [right; exact Ht|]. rewrite E. reflexivity.
Qed.

(** On a frame whose one task has the id -1 it gives 0, where
    [PersonalPASystem.add_task] gives 1. *)
Example tools_new_task_id_negative :
  TaskManagerTools.new_task_id
    [ TaskManagerTools.mktask (-1) PNone PNone PNone PNone PNone PNone PNone
        PNone PNone PNone ] = 0.
Proof. reflexivity. Qed.

(** ** [int(str(n))] *)

Lemma ascii_digit_of (k : Z) :
  0 <= k <= 9 -> ascii_digit (Z.to_N (48 + k)) = Some k.
Proof.
  intros Hk. unfold ascii_digit.
  replace ((48 <=? Z.to_N (48 + k))%N && (Z.to_N (48 + k) <=? 57)%N) with true.
  - f_equal. lia.
  - symmetry. apply andb_true_iff. split; apply N.leb_le; lia.
Qed.

Lemma scan_digits_of (f : nat) (n : Z) (acc : str) :
  0 <= n < 10 ^ Z.of_nat f ->
  scan_digits 0 false (digits_of f n acc) = scan_digits n false acc.
Proof.
  revert n acc. induction f as [|f IH]; intros n acc Hn.
  - simpl in *. replace n with 0 by lia. reflexivity.
  - cbn [digits_of].
    assert (Hmod : 0 <= n mod 10 <= 9) by (pose proof (Z.mod_pos_bound n 10); lia).
    destruct (n <? 10) eqn:E.
    + apply Z.ltb_lt in E. cbn [scan_digits].
      rewrite (ascii_digit_of (n mod 10) Hmod).
      rewrite Z.mod_small by lia. reflexivity.
    + apply Z.ltb_ge in E. rewrite IH.
      * cbn [scan_digits]. rewrite (ascii_digit_of (n mod 10) Hmod).
        f_equal. pose proof (Z.div_mod n 10). lia.
      * rewrite Nat2Z.inj_succ, Z.pow_succ_r in Hn by lia.
        split; [apply Z.div_pos; lia|].
        apply Z.div_lt_upper_bound; lia.
Qed.

Lemma digits_of_head (f : nat) (n : Z) (acc : str) :
  0 <= n ->
  exists (c : N) (s : str) (d : Z),
    digits_of (S f) n acc = c :: s /\ ascii_digit c = Some d.
Proof.
  revert n acc. induction f as [|f IH]; intros n acc Hn.
  - exists (Z.to_N (48 + n mod 10)), acc, (n mod 10).
    split.
    + cbn [digits_of]. destruct (n <? 10); reflexivity.
    + apply ascii_digit_of. pose proof (Z.mod_pos_bound n 10). lia.
  - cbn [digits_of]. destruct (n <? 10) eqn:E.
    + exists (Z.to_N (48 + n mod 10)), acc, (n mod 10). split; [reflexivity|].
      apply ascii_digit_of. pose proof (Z.mod_pos_bound n 10). lia.
    + apply (IH (n / 10)). apply Z.div_pos; lia.
Qed.

Lemma digits_of_ascii (f : nat) (n : Z) (acc : str) :
  0 <= n -> Forall (fun c => (c < 128)%N) acc ->
  Forall (fun c => (c < 128)%N) (digits_of f n acc).
Proof.
  revert n acc. induction f as [|f IH]; intros n acc Hn Hacc; [exact Hacc|].
  cbn [digits_of].
  assert (Hc : Forall (fun c => (c < 128)%N) (Z.to_N (48 + n mod 10) :: acc)).
  { constructor; [|exact Hacc]. pose proof (Z.mod_pos_bound n 10). lia. }
  destruct (n <? 10); [exact Hc|].
  apply IH; [apply Z.div_pos; lia|exact Hc].
Qed.

Lemma to_ascii_decimal_ascii (s : str) :
  Forall (fun c => (c < 128)%N) s -> List.map to_ascii_decimal s = s.
Proof.
  induction 1 as [|c s Hc _ IH]; [reflexivity|].
  simpl. rewrite IH. unfold to_ascii_decimal.
  apply N.ltb_lt in Hc. rewrite Hc. reflexivity.
Qed.

Lemma enough_fuel (a : Z) : 0 <= a -> a < 10 ^ Z.of_nat (S (Z.to_nat (Z.log2 a))).
Proof.
  intros Ha. rewrite Nat2Z.inj_succ, Z2Nat.id by apply Z.log2_nonneg.
  destruct (Z.eq_dec a 0) as [->|Hne]; [reflexivity|].
  pose proof (Z.log2_spec a ltac:(lia)) as [_ Hlt].
  eapply Z.lt_le_trans; [exact Hlt|].
  apply Z.pow_le_mono_l. pose proof (Z.log2_nonneg a). lia.
Qed.

Lemma parse_int_ascii_minus (c : N) (s rest : str) (d v : Z) :
  ascii_digit c = Some d ->
  scan_digits 0 false (c :: s) = Some (v, rest) ->
  skip_spaces rest = [] ->
  parse_int_ascii (45%N :: c :: s) = Ok (- v).
Proof.
  intros Hd Hscan Hrest. unfold parse_int_ascii.
  change (skip_spaces (45%N :: c :: s)) with (45%N :: c :: s).
  cbv iota beta. rewrite Hd, Hscan, Hrest. reflexivity.
Qed.

(** [int] reads back what [str] writes. *)
Lemma py_int_py_str (n : Z) : py_int (py_str n) = Ok n.
Proof.
  unfold py_int, py_str.
  set (a := Z.abs n). set (f := Z.to_nat (Z.log2 a)).
  assert (Ha : 0 <= a) by (unfold a; lia).
  destruct (digits_of_head f a [] Ha) as (c & s & d & Hds & Hc).
  assert (Hscan : scan_digits 0 false (c :: s) = Some (a, [])).
  { rewrite <- Hds, scan_digits_of; [reflexivity|].
    split; [exact Ha|]. apply enough_fuel. exact Ha. }
  assert (Hascii : Forall (fun c => (c < 128)%N) (c :: s)).
  { rewrite <- Hds. apply digits_of_ascii; [exact Ha|constructor]. }
  destruct (n <? 0) eqn:E.
  - apply Z.ltb_lt in E. rewrite Hds.
    rewrite to_ascii_decimal_ascii by (constructor; [lia|exact Hascii]).
    rewrite (parse_int_ascii_minus c s [] d a Hc Hscan eq_refl).
    f_equal. unfold a. lia.
  - apply Z.ltb_ge in E. rewrite Hds, to_ascii_decimal_ascii by exact Hascii.
    rewrite (parse_int_ascii_digits c s [] d a Hc Hscan eq_refl).
    f_equal. unfold a. lia.
Qed.

(** ** Dates *)

Lemma valid_date_bounds (d : date) :
  valid_date d = true ->
  1 <= year d <= 9999 /\ 1 <= month d <= 12 /\
  1 <= day d <= days_in_month (year d) (month d).
Proof.
  unfold valid_date. rewrite !andb_true_iff, !Z.leb_le. lia.
Qed.

Lemma valid_date_intro (d : date) :
  1 <= year d <= 9999 -> 1 <= month d <= 12 ->
  1 <= day d <= days_in_month (year d) (month d) ->
  valid_date d = true.
Proof.
  intros. unfold valid_date. rewrite !andb_true_iff, !Z.leb_le. lia.
Qed.

Ltac each_month m :=
  let H := fresh "Hm" in
  assert (H : m = 1 \/ m = 2 \/ m = 3 \/ m = 4 \/ m = 5 \/ m = 6 \/ m = 7 \/
              m = 8 \/ m = 9 \/ m = 10 \/ m = 11 \/ m = 12) by lia;
  repeat (destruct H as [H|H]; [subst m|]); [..|subst m].

(** A date that [strptime] returns is a date of the calendar. *)
Lemma strptime_valid (s : str) (d : date) :
  strptime s = Ok d -> valid_date d = true.
Proof.
  unfold strptime.
  destruct (parse_year s) as [[y s1]|]; [|discriminate].
  destruct (expect 45 s1) as [s2|]; [|discriminate].
  destruct (parse_month s2) as [[m s3]|]; [|discriminate].
  destruct (expect 45 s3) as [s4|]; [|discriminate].
  destruct (parse_day s4) as [[dd [|? ?]]|]; try discriminate.
  destruct (valid_date (mkdate y m dd)) eqn:E; [|discriminate].
  intros [= <-]. exact E.
Qed.

Lemma days_before_next_year (y : Z) :
  days_before_year (y + 1) =
    days_before_year y + (if is_leap y then 366 else 365).
Proof.
  unfold days_before_year, is_leap. replace (y + 1 - 1) with y by lia.
  destruct (y mod 4 =? 0) eqn:E4; destruct (y mod 100 =? 0) eqn:E100;
    destruct (y mod 400 =? 0) eqn:E400; simpl;
    rewrite ?Z.eqb_eq, ?Z.eqb_neq in *;
    Z.div_mod_to_equations; lia.
Qed.

(** The day after is the next day number: one day later, no more. *)
Lemma toordinal_next_day (d : date) :
  valid_date d = true -> toordinal (next_day d) = toordinal d + 1.
Proof.
  intros Hv. apply valid_date_bounds in Hv as (Hy & Hm & Hd).
  destruct d as [y m dd]. simpl in *. unfold next_day, toordinal. simpl.
  destruct (dd <? days_in_month y m) eqn:E1; simpl; [lia|].
  apply Z.ltb_ge in E1.
  destruct (m <? 12) eqn:E2; simpl.
  - apply Z.ltb_lt in E2.
    each_month m; try lia;
      unfold days_in_month, days_before_month in *; simpl in *;
      destruct (is_leap y); simpl in *; lia.
  - apply Z.ltb_ge in E2. assert (m = 12) by lia. subst m.
    rewrite days_before_next_year.
    unfold days_in_month, days_before_month in *; simpl in *.
    destruct (is_leap y); simpl; lia.
Qed.

Lemma next_day_valid (d : date) :
  valid_date d = true -> year (next_day d) <= 9999 ->
  valid_date (next_day d) = true.
Proof.
  intros Hv Hy'. apply valid_date_bounds in Hv as (Hy & Hm & Hd).
  destruct d as [y m dd]. simpl in *. unfold next_day in *. simpl in *.
  destruct (dd <? days_in_month y m) eqn:E1; simpl in *.
  - apply Z.ltb_lt in E1. apply valid_date_intro; simpl; lia.
  - destruct (m <? 12) eqn:E2; simpl in *.
    + apply Z.ltb_lt in E2. apply valid_date_intro; simpl; try lia.
      unfold days_in_month.
      destruct (m + 1 =? 2); [destruct (is_leap y); lia|].
      destruct ((m + 1 =? 4) || (m + 1 =? 6) || (m + 1 =? 9) || (m + 1 =? 11)); lia.
    + apply valid_date_intro; simpl; try lia.
      unfold days_in_month. simpl. lia.
Qed.

Lemma add_one_day_Ok (d d' : date) :
  add_one_day d = Ok d' -> d' = next_day d /\ year d' <= 9999.
Proof.
  unfold add_one_day. destruct (year (next_day d) <=? 9999) eqn:E; [|discriminate].
  intros [= <-]. apply Z.leb_le in E. split; [reflexivity|exact E].
Qed.

Lemma parse_year_rest (a b c d : N) (rest : str) (y : Z) :
  parse_year [a; b; c; d] = Some (y, []) ->
  parse_year (a :: b :: c :: d :: rest) = Some (y, rest).
Proof.
  unfold parse_year.
  destruct (decimal_value a), (decimal_value b), (decimal_value c),
    (decimal_value d); try discriminate.
  intros [= <-]. reflexivity.
Qed.

Lemma all_years_read_back :
  forallb year_reads_back (List.map (fun k => 1000 + Z.of_nat k) (seq 0 (Z.to_nat 9000))) = true.
Proof. vm_compute. reflexivity. Qed.

Lemma parse_year_py_str (y : Z) (rest : str) :
  1000 <= y <= 9999 -> parse_year (py_str y ++ rest) = Some (y, rest).
Proof.
  intros Hy. pose proof all_years_read_back as H.
  rewrite forallb_forall in H.
  assert (Hin : In y (List.map (fun k => 1000 + Z.of_nat k) (seq 0 (Z.to_nat 9000)))).
  { apply in_map_iff. exists (Z.to_nat (y - 1000)). split; [lia|].
    apply in_seq. lia. }
  specialize (H y Hin). unfold year_reads_back in H.
  destruct (py_str y) as [|a [|b [|c [|d [|? ?]]]]]; try discriminate.
  destruct (parse_year [a; b; c; d]) as [[v [|? ?]]|] eqn:E; try discriminate.
  apply Z.eqb_eq in H. subst v. apply parse_year_rest. exact E.
Qed.

Lemma parse_month_pad2 (m : Z) (rest : str) :
  1 <= m <= 12 -> parse_month (pad2 m ++ 45%N :: rest) = Some (m, 45%N :: rest).
Proof. intros Hm. each_month m; reflexivity. Qed.

Lemma parse_day_pad2 (d : Z) :
  1 <= d <= 31 -> parse_day (pad2 d) = Some (d, []).
Proof.
  intros Hd.
  assert (H : In d (List.map Z.of_nat (seq 1 31))).
  { apply in_map_iff. exists (Z.to_nat d). split; [lia|]. apply in_seq. lia. }
  simpl in H.
  repeat (destruct H as [H|H]; [subst d; reflexivity|]). contradiction.
Qed.

Lemma days_in_month_le_31 (y m : Z) : days_in_month y m <= 31.
Proof.
  unfold days_in_month.
  destruct (m =? 2); [destruct (is_leap y); lia|].
  destruct ((m =? 4) || (m =? 6) || (m =? 9) || (m =? 11)); lia.
Qed.

Lemma expect_hit (c : N) (rest : str) : expect c (c :: rest) = Some rest.
Proof. simpl. rewrite N.eqb_refl. reflexivity. Qed.

(** [strptime] reads back what [strftime] writes, for the years of four
    digits. *)
Lemma strptime_strftime (d : date) :
  valid_date d = true -> 1000 <= year d ->
  strptime (strftime d) = Ok d.
Proof.
  intros Hv Hy. pose proof Hv as Hb.
  apply valid_date_bounds in Hb as (Hy' & Hm & Hd).
  pose proof (days_in_month_le_31 (year d) (month d)).
  destruct d as [y m dd]. simpl in *.
  assert (E : strftime (mkdate y m dd) =
              py_str y ++ 45%N :: (pad2 m ++ 45%N :: pad2 dd)) by reflexivity.
  unfold strptime. rewrite E.
  rewrite parse_year_py_str, expect_hit by lia.
  rewrite parse_month_pad2, expect_hit by lia.
  rewrite parse_day_pad2 by lia.
  rewrite Hv. reflexivity.
Qed.

(** ** The order of date strings

    The rollover compares the due date and today as strings. For dates
    written as [strftime] writes them, with a year of four digits, that is
    the order of the calendar. *)

Lemma all_years_have_four_digits :
  forallb year_has_four_digits
    (List.map (fun k => 1000 + Z.of_nat k) (seq 0 (Z.to_nat 9000))) = true.
Proof. vm_compute. reflexivity. Qed.

Lemma py_str_four_digits (y : Z) :
  1000 <= y <= 9999 ->
  py_str y =
    [ digit_char (y / 1000); digit_char (y / 100 mod 10);
      digit_char (y / 10 mod 10); digit_char (y mod 10) ].
Proof.
  intros Hy. pose proof all_years_have_four_digits as H.
  rewrite forallb_forall in H.
  assert (Hin : In y (List.map (fun k => 1000 + Z.of_nat k) (seq 0 (Z.to_nat 9000)))).
  { apply in_map_iff. exists (Z.to_nat (y - 1000)). split; [lia|].
    apply in_seq. lia. }
  apply str_eqb_eq. exact (H y Hin).
Qed.

Lemma pad2_two_digits (n : Z) :
  1 <= n <= 31 -> pad2 n = [digit_char (n / 10); digit_char (n mod 10)].
Proof.
  intros Hn.
  assert (H : In n (List.map Z.of_nat (seq 1 31))).
  { apply in_map_iff. exists (Z.to_nat n). split; [lia|]. apply in_seq. lia. }
  simpl in H.
  repeat (destruct H as [H|H]; [subst n; reflexivity|]). contradiction.
Qed.

Lemma strftime_ten_characters (d : date) :
  valid_date d = true -> 1000 <= year d ->
  strftime d =
    [ digit_char (year d / 1000); digit_char (year d / 100 mod 10);
      digit_char (year d / 10 mod 10); digit_char (year d mod 10); 45%N;
      digit_char (month d / 10); digit_char (month d mod 10); 45%N;
      digit_char (day d / 10); digit_char (day d mod 10) ].
Proof.
  intros Hv Hy. apply valid_date_bounds in Hv as (Hy' & Hm & Hd).
  pose proof (days_in_month_le_31 (year d) (month d)).
  unfold strftime. change (lit "-") with [45%N].
  rewrite py_str_four_digits by lia.
  rewrite (pad2_two_digits (month d)) by lia.
  rewrite (pad2_two_digits (day d)) by lia.
  reflexivity.
Qed.

Ltac split_ltb :=
  repeat match goal with
         | |- context [(?a <? ?b)%N] => destruct (N.ltb_spec a b)
         end.

Lemma str_le_strftime (a b : date) :
  valid_date a = true -> valid_date b = true ->
  1000 <= year a -> 1000 <= year b ->
  str_le (strftime a) (strftime b) = (date_key a <=? date_key b).
Proof.
  intros Ha Hb Hya Hyb.
  rewrite (strftime_ten_characters a Ha Hya), (strftime_ten_characters b Hb Hyb).
  apply valid_date_bounds in Ha as (Ha1 & Ha2 & Ha3).
  apply valid_date_bounds in Hb as (Hb1 & Hb2 & Hb3).
  pose proof (days_in_month_le_31 (year a) (month a)).
  pose proof (days_in_month_le_31 (year b) (month b)).
  destruct a as [y m d], b as [y' m' d']. unfold date_key, digit_char. simpl in *.
  change (45 <? 45)%N with false. cbv iota.
  split_ltb; symmetry;
    first [ apply Z.leb_le | apply Z.leb_gt ];
    Z.div_mod_to_equations; lia.
Qed.

Lemma days_before_year_mono (y y' : Z) :
  y <= y' -> days_before_year y <= days_before_year y'.
Proof.
  intros H. unfold days_before_year. Z.div_mod_to_equations. lia.
Qed.

(** A date falls within its year. *)
Lemma toordinal_within_year (d : date) :
  valid_date d = true ->
  days_before_year (year d) < toordinal d <= days_before_year (year d + 1).
Proof.
  intros Hv. apply valid_date_bounds in Hv as (Hy & Hm & Hd).
  rewrite days_before_next_year.
  destruct d as [y m dd]. unfold toordinal. simpl in *.
  each_month m; unfold days_in_month, days_before_month in *; simpl in *;
    destruct (is_leap y); simpl in *; lia.
Qed.

(** Within a year the months follow one another. *)
Lemma days_before_month_step (y m m' : Z) :
  1 <= m -> m < m' -> m' <= 12 ->
  days_before_month y m + days_in_month y m <= days_before_month y m'.
Proof.
  intros H1 H2 H3.
  each_month m; each_month m'; try lia;
    unfold days_in_month, days_before_month; simpl;
    destruct (is_leap y); simpl; lia.
Qed.

Lemma date_key_lt_toordinal (a b : date) :
  valid_date a = true -> valid_date b = true ->
  date_key a < date_key b -> toordinal a < toordinal b.
Proof.
  intros Ha Hb Hlt.
  pose proof (toordinal_within_year a Ha) as [_ Ha_hi].
  pose proof (toordinal_within_year b Hb) as [Hb_lo _].
  apply valid_date_bounds in Ha as (Ha1 & Ha2 & Ha3).
  apply valid_date_bounds in Hb as (Hb1 & Hb2 & Hb3).
  pose proof (days_in_month_le_31 (year a) (month a)).
  pose proof (days_in_month_le_31 (year b) (month b)).
  unfold date_key in Hlt.
  destruct (Z.lt_trichotomy (year a) (year b)) as [Hy|[Hy|Hy]]; [| |lia].
  - pose proof (days_before_year_mono (year a + 1) (year b) ltac:(lia)). lia.
  - destruct a as [y m d], b as [y' m' d']. simpl in *. subst y'.
    unfold toordinal. simpl.
    destruct (Z.lt_trichotomy m m') as [Hm|[Hm|Hm]]; [| |lia].
    + pose proof (days_before_month_step y m m' ltac:(lia) Hm ltac:(lia)). lia.
    + subst m'. lia.
Qed.

Lemma date_key_inj (a b : date) :
  valid_date a = true -> valid_date b = true ->
  date_key a = date_key b -> a = b.
Proof.
  intros Ha Hb E.
  apply valid_date_bounds in Ha as (Ha1 & Ha2 & Ha3).
  apply valid_date_bounds in Hb as (Hb1 & Hb2 & Hb3).
  pose proof (days_in_month_le_31 (year a) (month a)).
  pose proof (days_in_month_le_31 (year b) (month b)).
  destruct a as [y m d], b as [y' m' d']. unfold date_key in E. simpl in *.
  assert (y = y' /\ m = m' /\ d = d') as (-> & -> & ->) by lia.
  reflexivity.
Qed.

(** Dates as [strftime] writes them, years of four digits: the order of
    the strings is the order of the days. *)
Lemma iso_order_is_calendar_order (a b : date) :
  valid_date a = true -> valid_date b = true ->
  1000 <= year a -> 1000 <= year b ->
  str_le (strftime a) (strftime b) = true <-> toordinal a <= toordinal b.
Proof.
  intros Ha Hb Hya Hyb. rewrite (str_le_strftime a b Ha Hb Hya Hyb).
  rewrite Z.leb_le. split.
  - intros H. destruct (Z.eq_dec (date_key a) (date_key b)) as [E|E].
    + rewrite (date_key_inj a b Ha Hb E). lia.
    + pose proof (date_key_lt_toordinal a b Ha Hb ltac:(lia)). lia.
  - intros H. destruct (Z_le_gt_dec (date_key a) (date_key b)) as [Hle|Hgt];
      [exact Hle|].
    pose proof (date_key_lt_toordinal b a Hb Ha ltac:(lia)). lia.
Qed.

(** ** [migrate_incomplete_tasks] *)

Lemma migrate_row_spec (today : str) (r : row) :
  rollover_ready today r = true ->
  migrate_row today r = Ok (rolled today r, is_due today r).
Proof.
  unfold rollover_ready, migrate_row, rolled, is_due, getitem.
  destruct (r !! 5%nat) as [status|] eqn:E5; [|discriminate]. simpl.
  destruct (r !! 7%nat) as [due|] eqn:E7;
    destruct (str_eqb status (lit "pending")); try discriminate;
    try reflexivity.
  simpl. destruct (str_le due today); [|reflexivity].
  unfold rollover_count_of, due_date_of, getitem. rewrite E7. simpl.
  destruct (r !! 8%nat) as [count|] eqn:E8; [|discriminate]. simpl.
  destruct (py_int count) as [n|]; [|discriminate]. simpl.
  destruct (strptime due) as [d|] eqn:Ed; [|discriminate].
  destruct (add_one_day d) as [d'|] eqn:Ea; [|discriminate]. intros _.
  pose proof (lookup_lt_Some _ _ _ E8) as Hlen.
  rewrite setitem_Ok by exact Hlen. simpl.
  rewrite list_lookup_insert_ne by lia. rewrite E7. simpl. rewrite Ed. simpl.
  rewrite Ea. simpl.
  rewrite setitem_Ok by (rewrite length_insert; lia).
  apply add_one_day_Ok in Ea as [-> _]. reflexivity.
Qed.

Lemma migrate_loop_spec (today : str) (data : list row) (count : Z) :
  forallb (rollover_ready today) data = true ->
  migrate_loop today data count =
    Ok (List.map (rolled today) data, count + due_count today data).
Proof.
  unfold due_count. revert count.
  induction data as [|r rest IH]; intros count H; simpl.
  - f_equal. f_equal. lia.
  - apply andb_true_iff in H as [Hr Hrest].
    rewrite (migrate_row_spec today r Hr). simpl.
    rewrite (IH _ Hrest). simpl. f_equal. f_equal.
    destruct (is_due today r); simpl; lia.
Qed.

(** A row that is ready for the rollover takes the step the specification
    describes. *)
Lemma rolled_step (today : str) (r : row) :
  rollover_ready today r = true -> rollover_step today r (rolled today r).
Proof.
  unfold rollover_ready, rollover_step, rolled, is_due.
  destruct (r !! 5%nat) as [status|] eqn:E5; [|discriminate].
  destruct (r !! 7%nat) as [due|] eqn:E7;
    destruct (str_eqb status (lit "pending")); try discriminate;
    try reflexivity.
  simpl. destruct (str_le due today); [|reflexivity].
  destruct (rollover_count_of r) as [n|] eqn:En; [|discriminate].
  destruct (due_date_of r) as [d|] eqn:Ed; [|discriminate].
  destruct (add_one_day d) as [d'|] eqn:Ea; [|discriminate]. intros _.
  apply add_one_day_Ok in Ea as [-> Hy].
  assert (Hv : valid_date d = true).
  { unfold due_date_of, getitem in Ed. rewrite E7 in Ed. simpl in Ed.
    apply strptime_valid in Ed. exact Ed. }
  assert (H8 : (8 < length r)%nat).
  { unfold rollover_count_of, getitem in En.
    destruct (r !! 8%nat) eqn:E8; [|discriminate].
    apply lookup_lt_Some in E8. exact E8. }
  exists n, d. unfold roll. repeat split.
  - unfold rollover_count_of, getitem.
    rewrite list_lookup_insert_ne by lia.
    rewrite list_lookup_insert_eq by lia. simpl. apply py_int_py_str.
  - apply toordinal_next_day. exact Hv.
  - intros H1000. unfold due_date_of, getitem.
    rewrite list_lookup_insert_eq by (rewrite length_insert; lia). simpl.
    apply strptime_strftime.
    + apply next_day_valid; assumption.
    + unfold next_day. destruct (day d <? _); simpl; [lia|].
      destruct (month d <? 12); simpl; lia.
Qed.

(** The progress log and [print] leave the task file alone. *)
Lemma update_progress_log_tasks (self : PersonalPASystem) (m : Z) (w : world) :
  tasks_csv (files (snd (_update_progress_log self m w))) = tasks_csv (files w).
Proof.
  unfold _update_progress_log, bind, query, lift, append_progress, ret. simpl.
  destruct (bool_decide _); [|reflexivity].
  destruct (split 10 _) as [|? [|counts [|? ?]]]; try reflexivity. simpl.
  destruct (split 44 counts) as [|a [|b [|? ?]]]; try reflexivity. simpl.
  destruct (py_int a); [|reflexivity]. simpl.
  destruct (py_int b); [|reflexivity]. simpl.
  destruct (productivity_score _ _); reflexivity.
Qed.

(** The run of the method on a store the loop gets through: the task file
    is written, then the progress log is brought up to date with the
    number of rows migrated, then the message is printed. *)
Lemma migrate_run (self : PersonalPASystem) (w : world) :
  forallb (rollover_ready (now_date self)) (drop 1 (tasks_csv (files w))) = true ->
  migrate_incomplete_tasks self w =
    let n := due_count (now_date self) (drop 1 (tasks_csv (files w))) in
    let w1 :=
      with_tasks
        (fun rows => take 1 rows ++ List.map (rolled (now_date self)) (drop 1 rows))
        w in
    match _update_progress_log self n w1 with
    | (Ok _, w2) =>
        (Ok PNone, mkworld (files w2) (stdout w2 ++ [migrated_msg n]) (calls w2))
    | (Raise e, w2) => (Raise e, w2)
    end.
Proof.
  intros H. unfold migrate_incomplete_tasks, bind, read_tasks, lift.
  rewrite (migrate_loop_spec _ _ 0 H). simpl.
  unfold write_tasks, with_tasks. simpl.
  destruct (_update_progress_log self _ _) as [[v|e] w2]; reflexivity.
Qed.

(** C1: one run of the rollover. Every row that is pending and due moves
    to the day after its due date, one day later however long it is
    overdue, and its rollover count goes up by one; every other row is the
    same after the run. Each row is visited once: the row in its place
    after the run is one such step away, also when it is still due. The
    loop gets through every row of the store. *)
Theorem rollover_moves_due_tasks_one_day (self : PersonalPASystem) (w : world) :
  forallb (rollover_ready (now_date self)) (drop 1 (tasks_csv (files w))) = true ->
  exists data' : list row,
    tasks_csv (files (snd (migrate_incomplete_tasks self w))) =
      take 1 (tasks_csv (files w)) ++ data' /\
    Forall2 (rollover_step (now_date self)) (drop 1 (tasks_csv (files w))) data'.
Proof.
  intros H.
  exists (List.map (rolled (now_date self)) (drop 1 (tasks_csv (files w)))).
  split.
  - rewrite (migrate_run self w H). cbv zeta.
    match goal with
    | |- context [_update_progress_log self ?n ?w1] =>
        pose proof (update_progress_log_tasks self n w1) as Hlog;
        destruct (_update_progress_log self n w1) as [[v|e] w2]
    end; simpl in *; rewrite Hlog; reflexivity.
  - rewrite forallb_forall in H.
    induction (drop 1 (tasks_csv (files w))) as [|r rest IH]; simpl.
    + constructor.
    + constructor.
      * apply rolled_step. apply H. left. reflexivity.
      * apply IH. intros x Hx. apply H. right. exact Hx.
Qed.

Lemma rollover_moves_due_tasks_one_day_witness :
  exists data' : list row,
    tasks_csv (files (snd (migrate_incomplete_tasks (sample_system "1,2")
                             (sample_world rollover_store)))) =
      take 1 (tasks_csv (files (sample_world rollover_store))) ++ data' /\
    Forall2 (rollover_step (now_date (sample_system "1,2")))
      (drop 1 (tasks_csv (files (sample_world rollover_store)))) data'.
Proof.
  apply (rollover_moves_due_tasks_one_day (sample_system "1,2")
           (sample_world rollover_store)).
  vm_compute. reflexivity.
Defined.

(** The scenario of the specification, and a task a year overdue: it moves
    one day, to a date that is still before today, and is not moved again
    in the same run. *)
Example rollover_scenario :
  tasks_csv (files (snd (migrate_incomplete_tasks (sample_system "1,2")
                           (sample_world rollover_store)))) =
    [ tasks_header;
      sample_task "5" "pending" "2024-01-02" "3";
      sample_task "6" "completed" "2024-01-01" "2";
      sample_task "7" "pending" "2024-01-03" "0";
      sample_task "8" "pending" "2023-01-01" "10" ].
Proof. vm_compute. reflexivity. Qed.

(** A row that is pending, with a due date as [strftime] writes it, is due
    when its day is today or before, today read the same way. *)
Lemma is_due_by_calendar (r : row) (status : str) (due today : date) :
  r !! 5%nat = Some status -> r !! 7%nat = Some (strftime due) ->
  valid_date due = true -> valid_date today = true ->
  1000 <= year due -> 1000 <= year today ->
  is_due (strftime today) r = true <->
  status = lit "pending" /\ toordinal due <= toordinal today.
Proof.
  intros E5 E7 Hd Ht Hyd Hyt. unfold is_due. rewrite E5, E7.
  rewrite andb_true_iff, str_eqb_eq.
  rewrite (iso_order_is_calendar_order due today Hd Ht Hyd Hyt). reflexivity.
Qed.

(** When the loop raises, on a count or a date it cannot read or on a row
    that is too short, the method raises before it writes: no file
    changes, nothing is printed and no query is sent. *)
Lemma migrate_failure_leaves_files (self : PersonalPASystem) (w : world) (e : exn) :
  migrate_loop (now_date self) (drop 1 (tasks_csv (files w))) 0 = Raise e ->
  migrate_incomplete_tasks self w = (Raise e, w).
Proof.
  intros H. unfold migrate_incomplete_tasks, bind, read_tasks, lift.
  rewrite H. reflexivity.
Qed.

(** ** Floating point *)

Section Binary64.

Local Open Scope Q_scope.

Lemma Qabs_nonneg_eq (x : Q) : 0 <= x -> Qabs x = x.
Proof.
  destruct x as [n d]. unfold Qle, Qabs. simpl. intros H.
  f_equal. lia.
Qed.

Lemma rne_spec (x : Q) :
  inject_Z (rne x) - x <= 1 # 2 /\ x - inject_Z (rne x) <= 1 # 2.
Proof.
  unfold rne. pose proof (Qfloor_le x) as Hlo. pose proof (Qlt_floor x) as Hhi.
  rewrite inject_Z_plus in Hhi. change (inject_Z 1) with 1 in Hhi.
  set (f := Qfloor x) in *.
  destruct (Qcompare_spec (x - inject_Z f) (1 # 2)) as [E|E|E].
  - destruct (Z.even f).
    + lra.
    + rewrite inject_Z_plus. change (inject_Z 1) with 1. lra.
  - lra.
  - rewrite inject_Z_plus. change (inject_Z 1) with 1. lra.
Qed.

Lemma rne_le_int (x : Q) (k : Z) : x <= inject_Z k -> (rne x <= k)%Z.
Proof.
  intros Hx. unfold rne.
  pose proof (Qfloor_resp_le _ _ Hx) as Hf. rewrite Qfloor_Z in Hf.
  pose proof (Qfloor_le x) as Hlo.
  set (f := Qfloor x) in *.
  assert (Hup : 0 < x - inject_Z f -> (f + 1 <= k)%Z).
  { intros Hpos. assert (Hlt : inject_Z f < inject_Z k) by lra.
    rewrite <- Zlt_Qlt in Hlt. lia. }
  destruct (Qcompare_spec (x - inject_Z f) (1 # 2)) as [E|E|E].
  - destruct (Z.even f); [exact Hf|]. apply Hup. lra.
  - exact Hf.
  - apply Hup. lra.
Qed.

Lemma rne_nonneg (x : Q) : 0 <= x -> (0 <= rne x)%Z.
Proof.
  intros Hx. unfold rne.
  pose proof (Qfloor_resp_le _ _ Hx) as Hf.
  change (Qfloor 0) with 0%Z in Hf.
  destruct (x - inject_Z (Qfloor x) ?= 1 # 2); [destruct (Z.even _)|..]; lia.
Qed.

Lemma two_pow_pos (e : Z) : 0 < 2 ^ e.
Proof. apply Qpower_0_lt. reflexivity. Qed.

Lemma two_pow_inject (k : Z) : (0 <= k)%Z -> inject_Z (2 ^ k) == 2 ^ k.
Proof. intros Hk. apply (Zpower_Qpower 2 k Hk). Qed.

Lemma two_pow_le (a b : Z) : (a <= b)%Z -> 2 ^ a <= 2 ^ b.
Proof. intros H. apply Qpower_le_compat_l; [exact H|discriminate]. Qed.

(** A positive fraction against a quotient of powers of two. *)
Lemma fraction_lt_pow (n : Z) (d : positive) (a b : Z) :
  (0 <= a)%Z -> (0 <= b)%Z ->
  (n < 2 ^ a)%Z -> (2 ^ b <= Zpos d)%Z -> (0 < n)%Z ->
  n # d < 2 ^ (a - b).
Proof.
  intros Ha Hb Hn Hd Hpos.
  rewrite Qpower_minus by discriminate.
  rewrite <- (two_pow_inject a Ha), <- (two_pow_inject b Hb).
  apply Qlt_shift_div_l.
  - rewrite <- (Zlt_Qlt 0). lia.
  - unfold Qlt, Qmult, inject_Z. simpl. nia.
Qed.

Lemma pow_le_fraction (n : Z) (d : positive) (a b : Z) :
  (0 <= a)%Z -> (0 <= b)%Z ->
  (2 ^ a <= n)%Z -> (Zpos d < 2 ^ b)%Z ->
  2 ^ (a - b) <= n # d.
Proof.
  intros Ha Hb Hn Hd.
  rewrite Qpower_minus by discriminate.
  rewrite <- (two_pow_inject a Ha), <- (two_pow_inject b Hb).
  apply Qle_shift_div_r.
  - rewrite <- (Zlt_Qlt 0). lia.
  - unfold Qle, Qmult, inject_Z. simpl.
    assert (0 < 2 ^ a)%Z by lia. nia.
Qed.

(** [Qlog2] is the integer part of the binary logarithm. *)
Lemma Qlog2_spec (x : Q) :
  0 < x -> 2 ^ Qlog2 x <= x /\ x < 2 ^ (Qlog2 x + 1).
Proof.
  intros Hx. destruct x as [n d].
  assert (Hn : (0 < n)%Z) by (unfold Qlt in Hx; simpl in Hx; lia).
  unfold Qlog2. simpl Qnum. simpl Qden.
  destruct (Z.log2_spec n Hn) as [Hn1 Hn2].
  destruct (Z.log2_spec (Zpos d) ltac:(lia)) as [Hd1 Hd2].
  pose proof (Z.log2_nonneg n) as Ha.
  pose proof (Z.log2_nonneg (Zpos d)) as Hb.
  set (a := Z.log2 n) in *. set (b := Z.log2 (Zpos d)) in *.
  destruct (Qle_bool (2 ^ (a - b)) (n # d)) eqn:E.
  - apply Qle_bool_iff in E. split; [exact E|].
    replace (a - b + 1)%Z with (Z.succ a - b)%Z by lia.
    apply fraction_lt_pow; lia.
  - assert (Hlt : n # d < 2 ^ (a - b)).
    { apply Qnot_le_lt. intros H. apply Qle_bool_iff in H. congruence. }
    split.
    + replace (a - b - 1)%Z with (a - Z.succ b)%Z by lia.
      apply pow_le_fraction; lia.
    + replace (a - b - 1 + 1)%Z with (a - b)%Z by lia. exact Hlt.
Qed.

Lemma Qlog2_lt (x : Q) (k : Z) : 0 < x -> x < 2 ^ k -> (Qlog2 x < k)%Z.
Proof.
  intros Hx Hk. destruct (Qlog2_spec x Hx) as [Hlo _].
  apply (Qpower_lt_compat_l_inv 2); [|reflexivity].
  eapply Qle_lt_trans; eassumption.
Qed.

(** The float nearest to a positive rational: an integer number of units
    in the last place. *)
Lemma b64_pos (x : Q) :
  0 < x ->
  b64 x == inject_Z (rne (x / 2 ^ b64_exp x)) * 2 ^ b64_exp x.
Proof.
  intros Hx. unfold b64.
  destruct (Qeq_bool x 0) eqn:E.
  - apply Qeq_bool_eq in E. rewrite E in Hx. discriminate.
  - rewrite (Qabs_nonneg_eq x) by (apply Qlt_le_weak; exact Hx).
    assert (Hle : Qle_bool 0 x = true)
      by (apply Qle_bool_iff, Qlt_le_weak; exact Hx).
    rewrite Hle. ring.
Qed.

Lemma b64_zero (x : Q) : x == 0 -> b64 x = 0.
Proof.
  intros Hx. unfold b64. rewrite (Qeq_eq_bool _ _ Hx). reflexivity.
Qed.

Lemma b64_exp_le (x : Q) (k : Z) :
  0 < x -> x < 2 ^ k -> (-1021 <= k)%Z -> (b64_exp x <= k - 53)%Z.
Proof.
  intros Hx Hk Hmin. unfold b64_exp.
  pose proof (Qlog2_lt x k Hx Hk). lia.
Qed.

Lemma b64_nonneg (x : Q) : 0 <= x -> 0 <= b64 x.
Proof.
  intros Hx. destruct (Qlt_le_dec 0 x) as [Hpos|Hle].
  - rewrite (b64_pos x Hpos).
    apply Qmult_le_0_compat.
    + rewrite <- (Zle_Qle 0). apply rne_nonneg.
      apply Qle_shift_div_l; [apply two_pow_pos|].
      rewrite Qmult_0_l. exact Hx.
    + apply Qlt_le_weak, two_pow_pos.
  - rewrite (b64_zero x); [apply Qle_refl|]. apply Qle_antisym; assumption.
Qed.

(** Rounding does not go past an integer below 2^53. *)
Lemma b64_le_int (x : Q) (B : Z) :
  0 <= x -> x <= inject_Z B -> (B < 2 ^ 53)%Z -> b64 x <= inject_Z B.
Proof.
  intros Hx HB Hsmall. destruct (Qlt_le_dec 0 x) as [Hpos|Hle].
  - rewrite (b64_pos x Hpos).
    assert (Hlt : x < 2 ^ 53).
    { eapply Qle_lt_trans; [exact HB|].
      rewrite <- (two_pow_inject 53) by lia. rewrite <- Zlt_Qlt. exact Hsmall. }
    pose proof (b64_exp_le x 53 Hpos Hlt ltac:(lia)) as He.
    set (e := b64_exp x) in *.
    pose proof (two_pow_pos e) as Hp.
    assert (Hinv : / 2 ^ e == inject_Z (2 ^ (- e))).
    { rewrite two_pow_inject by lia. rewrite Qpower_opp. reflexivity. }
    assert (Hm : (rne (x / 2 ^ e) <= B * 2 ^ (- e))%Z).
    { apply rne_le_int. rewrite inject_Z_mult, <- Hinv.
      unfold Qdiv. apply Qmult_le_compat_r; [exact HB|].
      apply Qlt_le_weak, Qinv_lt_0_compat. exact Hp. }
    rewrite Zle_Qle, inject_Z_mult, <- Hinv in Hm.
    apply (Qmult_le_compat_r _ _ (2 ^ e)) in Hm; [|apply Qlt_le_weak; exact Hp].
    eapply Qle_trans; [exact Hm|].
    rewrite <- Qmult_assoc, (Qmult_comm (/ 2 ^ e)), Qmult_inv_r, Qmult_1_r.
    + apply Qle_refl.
    + intros H0. rewrite H0 in Hp. discriminate.
  - rewrite (b64_zero x); [|apply Qle_antisym; assumption].
    eapply Qle_trans; [exact Hx|exact HB].
Qed.

(** Rounding moves a number below 2^k by at most 2^(k-54), half a unit in
    the last place. *)
Lemma b64_error (x : Q) (k : Z) :
  0 <= x -> x < 2 ^ k -> (-1021 <= k)%Z ->
  b64 x - x <= 2 ^ (k - 54) /\ x - b64 x <= 2 ^ (k - 54).
Proof.
  intros Hx Hk Hmin.
  pose proof (two_pow_pos (k - 54)) as Hpk.
  destruct (Qlt_le_dec 0 x) as [Hpos|Hle].
  - rewrite (b64_pos x Hpos).
    pose proof (b64_exp_le x k Hpos Hk Hmin) as He.
    set (e := b64_exp x) in *.
    pose proof (two_pow_pos e) as Hp.
    destruct (rne_spec (x / 2 ^ e)) as [H1 H2].
    set (m := inject_Z (rne (x / 2 ^ e))) in *.
    assert (Hx' : x == x / 2 ^ e * 2 ^ e).
    { field. intros H0. rewrite H0 in Hp. discriminate. }
    assert (Hhalf : 2 ^ e * (1 # 2) <= 2 ^ (k - 54)).
    { replace (k - 54)%Z with ((k - 53) + -1)%Z by lia.
      rewrite Qpower_plus by discriminate.
      change (2 ^ (-1)) with (1 # 2).
      apply Qmult_le_compat_r; [|discriminate].
      apply two_pow_le. exact He. }
    set (y := x / 2 ^ e) in *. set (p := 2 ^ e) in *.
    assert (G1 : (m - y) * p <= (1 # 2) * p).
    { apply Qmult_le_compat_r; [exact H1|]. apply Qlt_le_weak. exact Hp. }
    assert (G2 : (y - m) * p <= (1 # 2) * p).
    { apply Qmult_le_compat_r; [exact H2|]. apply Qlt_le_weak. exact Hp. }
    assert (E1 : (m - y) * p == m * p - x) by (rewrite Hx'; ring).
    assert (E2 : (y - m) * p == x - m * p) by (rewrite Hx'; ring).
    rewrite E1 in G1. rewrite E2 in G2.
    split; lra.
  - rewrite (b64_zero x); [|apply Qle_antisym; assumption]. split; lra.
Qed.

End Binary64.

(** ** The productivity score *)

Section Score.

Local Open Scope Q_scope.

Lemma overflows_small (x : Q) : 0 <= x -> x <= 100 -> overflows x = false.
Proof.
  intros H0 H100. unfold overflows. rewrite (Qabs_nonneg_eq x H0).
  destruct (Qle_bool b64_overflow x) eqn:E; [|reflexivity].
  apply Qle_bool_iff in E.
  assert (Hbig : 100 < b64_overflow) by (vm_compute; reflexivity).
  exfalso. apply (Qlt_irrefl 100).
  eapply Qlt_le_trans; [exact Hbig|]. eapply Qle_trans; eassumption.
Qed.

(** The quotient of the counts lies between 0 and 1. *)
Lemma ratio_bounds (c p : Z) :
  (0 <= c)%Z -> (0 <= p)%Z -> (0 < c + p)%Z ->
  0 <= inject_Z c / inject_Z (c + p) /\ inject_Z c / inject_Z (c + p) <= 1.
Proof.
  intros Hc Hp Ht.
  assert (Htq : 0 < inject_Z (c + p)) by (rewrite <- (Zlt_Qlt 0); exact Ht).
  split.
  - apply Qle_shift_div_l; [exact Htq|]. rewrite Qmult_0_l.
    rewrite <- (Zle_Qle 0). exact Hc.
  - apply Qle_shift_div_r; [exact Htq|]. rewrite Qmult_1_l.
    rewrite <- Zle_Qle. lia.
Qed.

(** The score of counts that are not negative and not both zero: a float
    nearest to a decimal of two places between 0 and 100, at most 0.0051
    away from the exact percentage. *)
Lemma score_of_counts (c p : Z) :
  (0 <= c)%Z -> (0 <= p)%Z -> (0 < c + p)%Z ->
  exists (q : Q) (k : Z),
    productivity_score c p = Ok (PFloat (Fin q)) /\
    q = b64 (inject_Z k / 100) /\ (0 <= k <= 10000)%Z /\
    0 <= q /\ q <= 100 /\
    Qabs (q - inject_Z c / inject_Z (c + p) * 100) <= 51 # 10000.
Proof.
  intros Hc Hp Ht.
  destruct (ratio_bounds c p Hc Hp Ht) as [Hx0 Hx1].
  unfold productivity_score.
  assert (Hpos : (0 <? c + p)%Z = true) by (apply Z.ltb_lt; exact Ht).
  rewrite Hpos. unfold int_truediv.
  set (x := inject_Z c / inject_Z (c + p)) in *.
  rewrite (overflows_small x) by lra.
  cbn [rbind float_mul_100 float_round_2].
  (* the quotient as a float *)
  pose proof (b64_nonneg x Hx0) as Hy0.
  pose proof (b64_le_int x 1 Hx0 Hx1 ltac:(lia)) as Hy1.
  change (inject_Z 1) with 1 in Hy1.
  assert (Hx2 : x < 2 ^ 1) by (change (2 ^ 1) with 2; lra).
  destruct (b64_error x 1 Hx0 Hx2 ltac:(lia)) as [Ey1 Ey2].
  set (y := b64 x) in *.
  (* times 100 *)
  rewrite (overflows_small (y * 100)) by lra.
  assert (Hu0 : 0 <= y * 100) by lra.
  assert (Hu1 : y * 100 <= inject_Z 100) by (change (inject_Z 100) with 100; lra).
  pose proof (b64_nonneg _ Hu0) as Hz0.
  pose proof (b64_le_int _ 100 Hu0 Hu1 ltac:(lia)) as Hz1.
  change (inject_Z 100) with 100 in Hz1.
  assert (Hu2 : y * 100 < 2 ^ 7) by (change (2 ^ 7) with 128; lra).
  destruct (b64_error _ 7 Hu0 Hu2 ltac:(lia)) as [Ez1 Ez2].
  set (z := b64 (y * 100)) in *.
  (* two decimals *)
  assert (Hk0 : (0 <= rne (z * 100))%Z) by (apply rne_nonneg; lra).
  assert (Hk1 : (rne (z * 100) <= 10000)%Z).
  { apply rne_le_int. change (inject_Z 10000) with 10000. lra. }
  destruct (rne_spec (z * 100)) as [Ek1 Ek2].
  set (k := rne (z * 100)) in *.
  assert (Hw0 : 0 <= inject_Z k / 100).
  { apply Qle_shift_div_l; [reflexivity|]. rewrite Qmult_0_l.
    rewrite <- (Zle_Qle 0). exact Hk0. }
  assert (Hw1 : inject_Z k / 100 <= inject_Z 100).
  { apply Qle_shift_div_r; [reflexivity|]. change (inject_Z 100 * 100) with
      (inject_Z 10000). rewrite <- Zle_Qle. exact Hk1. }
  assert (Ew : inject_Z k == inject_Z k / 100 * 100) by (field; discriminate).
  pose proof (b64_nonneg _ Hw0) as Hq0.
  pose proof (b64_le_int _ 100 Hw0 Hw1 ltac:(lia)) as Hq1.
  change (inject_Z 100) with 100 in Hq1, Hw1.
  assert (Hw2 : inject_Z k / 100 < 2 ^ 7) by (change (2 ^ 7) with 128; lra).
  destruct (b64_error _ 7 Hw0 Hw2 ltac:(lia)) as [Eq1 Eq2].
  set (w := inject_Z k / 100) in *.
  exists (b64 w), k.
  split; [reflexivity|]. split; [reflexivity|]. split; [lia|].
  split; [exact Hq0|]. split; [exact Hq1|].
  change (2 ^ (1 - 54)) with (1 # 9007199254740992) in Ey1, Ey2.
  change (2 ^ (7 - 54)) with (1 # 140737488355328) in Ez1, Ez2, Eq1, Eq2.
  apply Qabs_Qle_condition. split; lra.
Qed.

End Score.

(** The score is defined for counts that are not negative. *)
Lemma productivity_score_total (c p : Z) :
  0 <= c -> 0 <= p -> exists v : pyval, productivity_score c p = Ok v.
Proof.
  intros Hc Hp. destruct (Z.eq_dec (c + p) 0) as [E|E].
  - exists (PInt 0). unfold productivity_score. rewrite E. reflexivity.
  - destruct (score_of_counts c p Hc Hp ltac:(lia)) as (q & k & Hs & _).
    exists (PFloat (Fin q)). exact Hs.
Qed.

(** C4, as the code has it: the score is the percentage of completed tasks
    computed in floating point and rounded to two decimals. For counts
    that are not negative it lies between 0 and 100; it is the integer 0
    when both counts are 0, that is when no task is due today; otherwise
    it is the float nearest to a decimal of two places, and at most 0.0051
    away from completed / (completed + pending) * 100. *)
Theorem productivity_score_is_rounded_percentage (completed pending : Z) :
  0 <= completed -> 0 <= pending ->
  exists (v : pyval) (q : Q),
    productivity_score completed pending = Ok v /\
    number_of v = Some q /\
    (0 <= q)%Q /\ (q <= 100)%Q /\
    (completed + pending = 0 -> v = PInt 0) /\
    (0 < completed + pending ->
       (exists k : Z, 0 <= k <= 10000 /\ q = b64 (inject_Z k / 100)) /\
       (Qabs (q - exact_score completed pending) <= 51 # 10000)%Q).
Proof.
  intros Hc Hp. destruct (Z.eq_dec (completed + pending) 0) as [E|E].
  - exists (PInt 0), 0%Q. unfold productivity_score. rewrite E. simpl.
    repeat split; try discriminate; try reflexivity; lia.
  - destruct (score_of_counts completed pending Hc Hp ltac:(lia))
      as (q & k & Hs & Hq & Hk & H0 & H100 & Herr).
    exists (PFloat (Fin q)), q. repeat split; try assumption; try lia.
    + exists k. split; assumption.
    + unfold exact_score.
      replace (0 <? completed + pending) with true
        by (symmetry; apply Z.ltb_lt; lia).
      exact Herr.
Qed.

Lemma productivity_score_is_rounded_percentage_witness :
  exists (v : pyval) (q : Q),
    productivity_score 1 2 = Ok v /\
    number_of v = Some q /\
    (0 <= q)%Q /\ (q <= 100)%Q /\
    (1 + 2 = 0 -> v = PInt 0) /\
    (0 < 1 + 2 ->
       (exists k : Z, 0 <= k <= 10000 /\ q = b64 (inject_Z k / 100)) /\
       (Qabs (q - exact_score 1 2) <= 51 # 10000)%Q).
Proof.
  apply (productivity_score_is_rounded_percentage 1 2); lia.
Defined.

(** C4 as the specification states it fails for one task completed out of
    three due: the exact score is 100/3, and the code logs the float
    nearest to 33.33, which is lower by more than 0.003. *)
Lemma score_of_one_in_three_is_not_exact :
  exists q : Q,
    productivity_score 1 2 = Ok (PFloat (Fin q)) /\
    q = b64 (3333 # 100) /\
    (exact_score 1 2 == 100 # 3)%Q /\
    (q < exact_score 1 2 - (3 # 1000))%Q /\
    ~ (q == exact_score 1 2)%Q.
Proof.
  exists (b64 (3333 # 100)). split; [|split; [|split; [|split]]].
  - vm_compute. reflexivity.
  - reflexivity.
  - vm_compute. reflexivity.
  - vm_compute. reflexivity.
  - vm_compute. discriminate.
Qed.

(** ** [_update_progress_log] *)

(** The run of the method when the tool answers with two counts. *)
Lemma update_progress_log_run (self : PersonalPASystem) (m : Z) (w : world)
    (c p : Z) (v : pyval) :
  tool_counts self (files w) = Some (c, p) ->
  productivity_score c p = Ok v ->
  _update_progress_log self m w =
    (Ok PNone,
     mkworld
       (mkfiles (tasks_csv (files w)) (schedule_csv (files w))
          (progress_csv (files w) ++
             [[ PStr (now_date self); PInt c; PInt p; PInt m; v; PStr [] ]]))
       (stdout w)
       (calls w ++ [(lit "tasks", stats_query (now_date self))])).
Proof.
  unfold tool_counts, answer_counts, _update_progress_log, bind, query, lift.
  cbn [files stdout calls].
  destruct (split 10 _) as [|l0 [|counts [|? ?]]]; try discriminate.
  destruct (split 44 counts) as [|a [|b [|? ?]]]; try discriminate.
  destruct (py_int a) as [c'|]; [|discriminate].
  destruct (py_int b) as [p'|]; [|discriminate].
  intros [= -> ->] Hs. simpl. rewrite Hs. reflexivity.
Qed.

Lemma counts_ok_inv (cp : option (Z * Z)) :
  counts_ok cp = true -> exists c p : Z, cp = Some (c, p) /\ 0 <= c /\ 0 <= p.
Proof.
  destruct cp as [[c p]|]; [|discriminate]. simpl.
  intros H. apply andb_true_iff in H as [H1 H2].
  apply Z.leb_le in H1. apply Z.leb_le in H2.
  exists c, p. repeat split; assumption.
Qed.

(** C7: each run of the progress aggregation adds one row to the end of
    the progress log, and a second run on the same day adds a second row
    with the same date: two runs leave two rows for that date where there
    was none, and the log after the second run is not the log after the
    first. The tool answers the statistics query with two counts that are
    not negative. *)
Theorem progress_log_grows_by_one_row_per_run (self : PersonalPASystem)
    (migrated_1 migrated_2 : Z) (w : world) :
  (forall fs : csv_files, counts_ok (tool_counts self fs) = true) ->
  exists r1 r2 : list pyval,
    let run_1 := _update_progress_log self migrated_1 w in
    let run_2 := _update_progress_log self migrated_2 (snd run_1) in
    fst run_1 = Ok PNone /\ fst run_2 = Ok PNone /\
    progress_csv (files (snd run_1)) = progress_csv (files w) ++ [r1] /\
    progress_csv (files (snd run_2)) = progress_csv (files w) ++ [r1; r2] /\
    r1 !! 0%nat = Some (PStr (now_date self)) /\
    r2 !! 0%nat = Some (PStr (now_date self)) /\
    progress_csv (files (snd run_2)) <> progress_csv (files (snd run_1)).
Proof.
  intros Htool.
  destruct (counts_ok_inv _ (Htool (files w))) as (c1 & p1 & E1 & Hc1 & Hp1).
  destruct (productivity_score_total c1 p1 Hc1 Hp1) as (v1 & Hv1).
  pose proof (update_progress_log_run self migrated_1 w c1 p1 v1 E1 Hv1) as R1.
  set (w1 := snd (_update_progress_log self migrated_1 w)).
  destruct (counts_ok_inv _ (Htool (files w1))) as (c2 & p2 & E2 & Hc2 & Hp2).
  destruct (productivity_score_total c2 p2 Hc2 Hp2) as (v2 & Hv2).
  pose proof (update_progress_log_run self migrated_2 w1 c2 p2 v2 E2 Hv2) as R2.
  exists [ PStr (now_date self); PInt c1; PInt p1; PInt migrated_1; v1; PStr [] ],
         [ PStr (now_date self); PInt c2; PInt p2; PInt migrated_2; v2; PStr [] ].
  cbv zeta. fold w1. rewrite R2. unfold w1. rewrite R1. cbn [fst snd files progress_csv].
  repeat split; try reflexivity.
  - rewrite <- app_assoc. reflexivity.
  - intros H. apply (f_equal length) in H.
    rewrite !length_app in H. simpl in H. lia.
Qed.

Lemma progress_log_grows_by_one_row_per_run_witness :
  exists r1 r2 : list pyval,
    let run_1 := _update_progress_log (sample_system "1,2") 0
                   (sample_world rollover_store) in
    let run_2 := _update_progress_log (sample_system "1,2") 0 (snd run_1) in
    fst run_1 = Ok PNone /\ fst run_2 = Ok PNone /\
    progress_csv (files (snd run_1)) =
      progress_csv (files (sample_world rollover_store)) ++ [r1] /\
    progress_csv (files (snd run_2)) =
      progress_csv (files (sample_world rollover_store)) ++ [r1; r2] /\
    r1 !! 0%nat = Some (PStr (now_date (sample_system "1,2"))) /\
    r2 !! 0%nat = Some (PStr (now_date (sample_system "1,2"))) /\
    progress_csv (files (snd run_2)) <> progress_csv (files (snd run_1)).
Proof.
  apply (progress_log_grows_by_one_row_per_run (sample_system "1,2") 0 0
           (sample_world rollover_store)).
  intros fs. reflexivity.
Defined.

(** The guard of [_update_progress_log]: an answer of the tool of one line,
    such as an error message, adds no row. *)
Lemma update_progress_log_without_answer (self : PersonalPASystem) (m : Z)
    (w : world) (line : str) :
  split 10 (strip (query_csv_file self (files w) (lit "tasks")
                     (stats_query (now_date self)))) = [line] ->
  _update_progress_log self m w =
    (Ok PNone,
     mkworld (files w) (stdout w)
       (calls w ++ [(lit "tasks", stats_query (now_date self))])).
Proof.
  intros H. unfold _update_progress_log, bind, query.
  cbn [files stdout calls]. rewrite H. reflexivity.
Qed.

(** ** The count of migrated tasks *)

(** C2, as the code has it: the rollover returns [None]. The number of rows
    that were pending and due when the run began is what it prints, in
    the message ['Migrated n incomplete tasks'], and what it hands to the
    progress log, whose new row has it as its fourth field. The loop gets
    through every row, and the tool answers the statistics query with two
    counts that are not negative. *)
Theorem rollover_reports_migrated_count (self : PersonalPASystem) (w : world) :
  forallb (rollover_ready (now_date self)) (drop 1 (tasks_csv (files w))) = true ->
  (forall fs : csv_files, counts_ok (tool_counts self fs) = true) ->
  exists (c p : Z) (v : pyval),
    let n := due_count (now_date self) (drop 1 (tasks_csv (files w))) in
    let run := migrate_incomplete_tasks self w in
    fst run = Ok PNone /\
    stdout (snd run) =
      stdout w ++ [lit "Migrated " ++ py_str n ++ lit " incomplete tasks"] /\
    progress_csv (files (snd run)) =
      progress_csv (files w) ++
        [[ PStr (now_date self); PInt c; PInt p; PInt n; v; PStr [] ]].
Proof.
  intros Hready Htool.
  set (n := due_count (now_date self) (drop 1 (tasks_csv (files w)))).
  set (w1 := with_tasks
               (fun rows => take 1 rows ++
                            List.map (rolled (now_date self)) (drop 1 rows)) w).
  destruct (counts_ok_inv _ (Htool (files w1))) as (c & p & E & Hc & Hp).
  destruct (productivity_score_total c p Hc Hp) as (v & Hv).
  exists c, p, v. cbv zeta.
  rewrite (migrate_run self w Hready). cbv zeta. fold n. fold w1.
  rewrite (update_progress_log_run self n w1 c p v E Hv).
  repeat split; reflexivity.
Qed.

Lemma rollover_reports_migrated_count_witness :
  exists (c p : Z) (v : pyval),
    let n := due_count (now_date (sample_system "1,2"))
               (drop 1 (tasks_csv (files (sample_world rollover_store)))) in
    let run := migrate_incomplete_tasks (sample_system "1,2")
                 (sample_world rollover_store) in
    fst run = Ok PNone /\
    stdout (snd run) =
      stdout (sample_world rollover_store) ++
        [lit "Migrated " ++ py_str n ++ lit " incomplete tasks"] /\
    progress_csv (files (snd run)) =
      progress_csv (files (sample_world rollover_store)) ++
        [[ PStr (now_date (sample_system "1,2")); PInt c; PInt p; PInt n; v;
           PStr [] ]].
Proof.
  apply (rollover_reports_migrated_count (sample_system "1,2")
           (sample_world rollover_store)).
  - vm_compute. reflexivity.
  - intros fs. reflexivity.
Defined.

(** C2 as the specification states it fails: on a store with two rows
    pending and due the method returns [None], not the count 2. *)
Lemma rollover_returns_none :
  due_count (lit "2024-01-02") (drop 1 rollover_store) = 2 /\
  fst (migrate_incomplete_tasks (sample_system "1,2")
         (sample_world rollover_store)) = Ok PNone /\
  fst (migrate_incomplete_tasks (sample_system "1,2")
         (sample_world rollover_store)) <>
    Ok (PInt (due_count (lit "2024-01-02") (drop 1 rollover_store))).
Proof.
  split; [|split].
  - vm_compute. reflexivity.
  - vm_compute. reflexivity.
  - vm_compute. discriminate.
Qed.

(** ** [get_today_schedule] *)

(** The text of the schedule query is the text of no task query: they part
    at the tenth character. *)
Lemma schedule_query_is_no_tasks_query (today_name : str) (task_ids : list (list N)) :
  schedule_query today_name <> tasks_query task_ids.
Proof.
  intros H. apply (f_equal (fun s : list N => s !! 9%nat)) in H.
  vm_compute in H. discriminate.
Qed.

Lemma schedule_block_run (self : PersonalPASystem) (q : str)
    (headers : list (list N)) (line : str) (w : world) :
  block_task_ids headers line <> None ->
  schedule_block self q headers line w =
    (Ok (block_of headers
           (answer_records (query_csv_file self (files w) (lit "tasks") q)) line),
     mkworld (files w) (stdout w)
       (calls w ++ (if block_has_ids headers line then [(lit "tasks", q)] else []))).
Proof.
  intros Hids. unfold schedule_block, block_of, block_has_ids, bind, lift,
    dict_get, query, ret.
  unfold block_task_ids in *. rewrite lookup_fmap.
  destruct (dict_zip headers (split 44 line) !! lit "task_ids") as [[|c ids]|];
    [| |contradiction]; simpl.
  - rewrite app_nil_r. destruct w; reflexivity.
  - reflexivity.
Qed.

Lemma schedule_blocks_run (self : PersonalPASystem) (q : str)
    (headers : list (list N)) (lines : list (list N)) (w : world) :
  Forall (fun line => block_task_ids headers line <> None) lines ->
  schedule_blocks self q headers lines w =
    (Ok (List.map
           (block_of headers
              (answer_records (query_csv_file self (files w) (lit "tasks") q)))
           lines),
     mkworld (files w) (stdout w)
       (calls w ++
          repeat (lit "tasks", q)
            (length (List.filter (block_has_ids headers) lines)))).
Proof.
  revert w. induction lines as [|line rest IH]; intros w Hall.
  - simpl. unfold ret. rewrite app_nil_r. destruct w; reflexivity.
  - inversion Hall as [|? ? Hline Hrest]. subst.
    cbn [schedule_blocks]. unfold bind at 1.
    rewrite (schedule_block_run self q headers line w Hline).
    unfold bind. rewrite (IH _ Hrest). cbn [files stdout calls]. unfold ret.
    simpl List.map. simpl List.filter.
    destruct (block_has_ids headers line); simpl.
    + rewrite <- app_assoc. reflexivity.
    + rewrite app_nil_r. reflexivity.
Qed.

Lemma lookup_In {A} (l : list A) (i : nat) (x : A) : l !! i = Some x -> In x l.
Proof.
  revert i. induction l as [|a l IH]; intros [|i] H; try discriminate.
  - injection H as ->. left. reflexivity.
  - right. apply (IH i H).
Qed.

(** C8: [get_today_schedule] on a schedule whose lines all have a
    [task_ids] field, at a block whose field is not empty. The method
    returns, and the tasks it puts in that block are the rows of the answer
    to a query on the task table whose text is the text of the schedule
    query. After the query for the schedule it sends one query for each
    block that names task ids, at least this one, and each has the text of
    the schedule query, which is not the text built from the ids of the
    block: that text is sent by no query. *)
Theorem block_tasks_fetched_with_schedule_query (self : PersonalPASystem)
    (w : world) (header_line line ids : str) (lines : list (list N)) (i : nat) :
  split 10 (strip (query_csv_file self (files w) (lit "schedule")
                     (schedule_query (now_weekday self)))) =
    header_line :: lines ->
  Forall (fun l => block_task_ids (split 44 header_line) l <> None) lines ->
  lines !! i = Some line ->
  block_task_ids (split 44 header_line) line = Some ids ->
  ids <> [] ->
  exists blocks : list (gmap (list N) dval),
    get_today_schedule self w =
      (Ok blocks,
       mkworld (files w) (stdout w)
         (calls w ++
            (lit "schedule", schedule_query (now_weekday self))
            :: repeat (lit "tasks", schedule_query (now_weekday self))
                 (length (List.filter (block_has_ids (split 44 header_line))
                            lines)))) /\
    blocks !! i =
      Some (<[lit "tasks" :=
                DTasks (answer_records
                          (query_csv_file self (files w) (lit "tasks")
                             (schedule_query (now_weekday self))))]>
              (DStr <$> dict_zip (split 44 header_line) (split 44 line))) /\
    (1 <= length (List.filter (block_has_ids (split 44 header_line)) lines))%nat /\
    schedule_query (now_weekday self) <> tasks_query (split 59 ids).
Proof.
  intros Hsplit Hall Hline Hids Hne.
  assert (Hhas : block_has_ids (split 44 header_line) line = true).
  { unfold block_has_ids. rewrite Hids. destruct ids; [contradiction|reflexivity]. }
  exists (List.map
            (block_of (split 44 header_line)
               (answer_records
                  (query_csv_file self (files w) (lit "tasks")
                     (schedule_query (now_weekday self)))))
            lines).
  split; [|split; [|split]].
  - unfold get_today_schedule, bind, query. cbn [files stdout calls].
    rewrite Hsplit. destruct lines as [|l0 ls]; [discriminate Hline|].
    rewrite (schedule_blocks_run _ _ _ _ _ Hall). cbn [files stdout calls].
    rewrite <- app_assoc. reflexivity.
  - change (List.map ?f ?l) with (f <$> l).
    rewrite list_lookup_fmap, Hline. cbn [fmap option_fmap option_map].
    unfold block_of. rewrite Hhas. reflexivity.
  - assert (Hin : In line (List.filter (block_has_ids (split 44 header_line)) lines)).
    { apply filter_In. split; [|exact Hhas].
      apply (lookup_In lines i line Hline). }
    destruct (List.filter _ lines); [contradiction|]. simpl. lia.
  - apply schedule_query_is_no_tasks_query.
Qed.

Lemma block_tasks_fetched_with_schedule_query_witness :
  exists blocks : list (gmap (list N) dval),
    get_today_schedule (sample_schedule_system sample_schedule_answer)
      (sample_world rollover_store) =
      (Ok blocks,
       mkworld (files (sample_world rollover_store))
         (stdout (sample_world rollover_store))
         (calls (sample_world rollover_store) ++
            (lit "schedule",
             schedule_query
               (now_weekday (sample_schedule_system sample_schedule_answer)))
            :: repeat
                 (lit "tasks",
                  schedule_query
                    (now_weekday (sample_schedule_system sample_schedule_answer)))
                 (length (List.filter
                            (block_has_ids (split 44 (lit "block_id,task_ids")))
                            [lit "1,"; lit "2,5;6"; lit "3,7"])))) /\
    blocks !! 1%nat =
      Some (<[lit "tasks" :=
                DTasks (answer_records
                          (query_csv_file
                             (sample_schedule_system sample_schedule_answer)
                             (files (sample_world rollover_store)) (lit "tasks")
                             (schedule_query
                                (now_weekday
                                   (sample_schedule_system
                                      sample_schedule_answer)))))]>
              (DStr <$> dict_zip (split 44 (lit "block_id,task_ids"))
                          (split 44 (lit "2,5;6")))) /\
    (1 <= length (List.filter
                    (block_has_ids (split 44 (lit "block_id,task_ids")))
                    [lit "1,"; lit "2,5;6"; lit "3,7"]))%nat /\
    schedule_query (now_weekday (sample_schedule_system sample_schedule_answer)) <>
      tasks_query (split 59 (lit "5;6")).
Proof.
  apply (block_tasks_fetched_with_schedule_query
           (sample_schedule_system sample_schedule_answer)
           (sample_world rollover_store)
           (lit "block_id,task_ids") (lit "2,5;6") (lit "5;6")
           [lit "1,"; lit "2,5;6"; lit "3,7"] 1%nat).
  - reflexivity.
  - repeat constructor; vm_compute; discriminate.
  - reflexivity.
  - vm_compute. reflexivity.
  - discriminate.
Defined.

(** The loop sends nothing but the schedule query. *)
Lemma schedule_blocks_calls (self : PersonalPASystem) (q : str)
    (headers : list (list N)) (lines : list (list N)) (w : world) :
  exists n : nat,
    calls (snd (schedule_blocks self q headers lines w)) =
      calls w ++ repeat (lit "tasks", q) n.
Proof.
  revert w. induction lines as [|line rest IH]; intros w.
  - exists 0%nat. simpl. rewrite app_nil_r. reflexivity.
  - cbn [schedule_blocks]. unfold bind at 1.
    assert (Hb : exists k : nat,
               calls (snd (schedule_block self q headers line w)) =
                 calls w ++ repeat (lit "tasks", q) k).
    { unfold schedule_block, bind, lift, dict_get, query, ret.
      destruct (_ !! lit "task_ids") as [[[|c ids]|l]|]; simpl;
        first [ exists 0%nat; simpl; rewrite app_nil_r; reflexivity
              | exists 1%nat; reflexivity ]. }
    destruct Hb as [k Hk].
    destruct (schedule_block self q headers line w) as [[b|e] w1]; simpl in Hk.
    + destruct (IH w1) as [n Hn]. unfold bind.
      destruct (schedule_blocks self q headers rest w1) as [[bs|e] w2];
        simpl in *; exists (k + n)%nat;
        rewrite Hn, Hk, repeat_app, app_assoc; reflexivity.
    + exists k. simpl. exact Hk.
Qed.

(** Every query [get_today_schedule] sends, the one for the schedule and
    those for the tasks of the blocks, has the text of the schedule
    query. *)
Lemma get_today_schedule_queries (self : PersonalPASystem) (w : world) :
  exists n : nat,
    calls (snd (get_today_schedule self w)) =
      calls w ++ (lit "schedule", schedule_query (now_weekday self))
        :: repeat (lit "tasks", schedule_query (now_weekday self)) n.
Proof.
  unfold get_today_schedule, bind, query. cbn [files stdout calls].
  destruct (split 10 _) as [|h [|l ls]].
  - exists 0%nat. reflexivity.
  - exists 0%nat. reflexivity.
  - match goal with
    | |- context [schedule_blocks self ?q ?hs ?lines ?w1] =>
        destruct (schedule_blocks_calls self q hs lines w1) as [n Hn]
    end.
    exists n. rewrite Hn. simpl. rewrite <- app_assoc. reflexivity.
Qed.

Example get_today_schedule_check :
  calls (snd (get_today_schedule
                (mksystem (lit "2024-01-02") (lit "Tuesday")
                   (sample_tool "1,2" "block_id,task_ids
1,
2,5;6
3,7"))
                (sample_world rollover_store))) =
    [ (lit "schedule", schedule_query (lit "Tuesday"));
      (lit "tasks", schedule_query (lit "Tuesday"));
      (lit "tasks", schedule_query (lit "Tuesday")) ].
Proof. vm_compute. reflexivity. Qed.

(** * Further properties of the methods *)

(** ** [update_task_status], further *)

Lemma set_status_twice (st : str) (r : row) :
  set_status st (set_status st r) = set_status st r.
Proof.
  unfold set_status. destruct (str_eqb st (lit "completed")).
  - rewrite (list_insert_insert_ne (<[5%nat:=st]> r) 5 8) by lia.
    rewrite list_insert_insert_eq.
    rewrite (list_insert_insert_eq r 5).
    reflexivity.
  - apply list_insert_insert_eq.
Qed.

(** X1: The same update made twice leaves the files as the update made once:
    the second run finds the same row and writes the same values. *)
Theorem update_task_status_twice (self : PersonalPASystem) (task_id : Z)
    (new_status : str) (w : world) (header r : row) (pre post : list row) :
  tasks_csv (files w) = header :: pre ++ r :: post ->
  forallb (has_other_id (py_str task_id)) pre = true ->
  r !! 0%nat = Some (py_str task_id) ->
  (status_fields new_status <= length r)%nat ->
  let once := update_task_status self task_id new_status w in
  let twice := update_task_status self task_id new_status (snd once) in
  fst once = Ok PNone /\ fst twice = Ok PNone /\
  files (snd twice) = files (snd once).
Proof.
  intros Hrows Hpre Hid Hlen. cbv zeta.
  rewrite (update_task_status_hit self task_id new_status w header r pre post)
    by assumption.
  cbn [fst snd].
  erewrite (update_task_status_hit self task_id new_status _ header
              (set_status new_status r) pre post).
  - cbn [fst snd files]. rewrite set_status_twice. repeat split.
  - reflexivity.
  - exact Hpre.
  - rewrite set_status_other; [exact Hid|lia|left; lia].
  - rewrite set_status_length. exact Hlen.
Qed.

Lemma update_task_status_twice_witness :
  fst (update_task_status (sample_system "1,2") 7 (lit "completed")
         (sample_world rollover_store)) = Ok PNone /\
  fst (update_task_status (sample_system "1,2") 7 (lit "completed")
         (snd (update_task_status (sample_system "1,2") 7 (lit "completed")
                 (sample_world rollover_store)))) = Ok PNone /\
  files (snd (update_task_status (sample_system "1,2") 7 (lit "completed")
                (snd (update_task_status (sample_system "1,2") 7 (lit "completed")
                        (sample_world rollover_store))))) =
    files (snd (update_task_status (sample_system "1,2") 7 (lit "completed")
                  (sample_world rollover_store))).
Proof.
  apply (update_task_status_twice (sample_system "1,2") 7 (lit "completed")
           (sample_world rollover_store) tasks_header
           (sample_task "7" "pending" "2024-01-03" "0")
           [sample_task "5" "pending" "2024-01-01" "2";
            sample_task "6" "completed" "2024-01-01" "2"]
           [sample_task "8" "pending" "2022-12-31" "9"]).
  - reflexivity.
  - reflexivity.
  - reflexivity.
  - vm_compute. lia.
Defined.

Lemma update_loop_keeps (key st : str) (data : list row) (res : bool * list row) :
  update_loop key st data = Ok res ->
  Forall2 same_but_status data (snd res).
Proof.
  revert res. induction data as [|r rest IH]; intros res; simpl.
  - intros [= <-]. constructor.
  - unfold getitem. destruct (r !! 0%nat) as [id|]; [|discriminate]. simpl.
    destruct (str_eqb id key).
    + unfold setitem.
      destruct (bool_decide (5 < length r)%nat); [|discriminate]. simpl.
      destruct (str_eqb st (lit "completed")).
      * destruct (bool_decide (8 < length (<[5%nat:=st]> r))%nat); [|discriminate].
        simpl. intros [= <-]. simpl. constructor.
        -- split; [rewrite !length_insert; reflexivity|].
           intros j H5 H8. rewrite !list_lookup_insert_ne by lia. reflexivity.
        -- apply Forall2_same_length_lookup_2; [reflexivity|].
           intros i x y Hx Hy. rewrite Hx in Hy. injection Hy as <-.
           split; reflexivity.
      * simpl. intros [= <-]. simpl. constructor.
        -- split; [rewrite length_insert; reflexivity|].
           intros j H5 H8. rewrite list_lookup_insert_ne by lia. reflexivity.
        -- apply Forall2_same_length_lookup_2; [reflexivity|].
           intros i x y Hx Hy. rewrite Hx in Hy. injection Hy as <-.
           split; reflexivity.
    + destruct (update_loop key st rest) as [res'|]; [|discriminate]. simpl.
      intros [= <-]. simpl. constructor.
      * split; reflexivity.
      * apply IH. reflexivity.
Qed.

(** X2: Whatever the outcome, found, not found or an exception,
    [update_task_status] leaves every row in its place with its length and
    with all its fields but the status and the rollover count: no task is
    added, removed, moved or renamed, and the header, the schedule and the
    progress log stay as they are. *)
Theorem update_task_status_keeps_rows (self : PersonalPASystem) (task_id : Z)
    (new_status : str) (w : world) :
  let w' := snd (update_task_status self task_id new_status w) in
  take 1 (tasks_csv (files w')) = take 1 (tasks_csv (files w)) /\
  Forall2 same_but_status (drop 1 (tasks_csv (files w)))
    (drop 1 (tasks_csv (files w'))) /\
  schedule_csv (files w') = schedule_csv (files w) /\
  progress_csv (files w') = progress_csv (files w).
Proof.
  assert (Hsame : forall l : list row,
             Forall2 same_but_status l l).
  { intros l. apply Forall2_same_length_lookup_2; [reflexivity|].
    intros i x y Hx Hy. rewrite Hx in Hy. injection Hy as <-. split; reflexivity. }
  cbv zeta. unfold update_task_status, bind, read_tasks, lift.
  destruct (update_loop (py_str task_id) new_status (drop 1 (tasks_csv (files w))))
    as [res|e] eqn:E.
  - destruct (fst res) eqn:Eu; simpl.
    + destruct (tasks_csv (files w)) as [|h data] eqn:Erows.
      * simpl in E. injection E as <-. discriminate.
      * simpl. change (drop 0 (snd res)) with (snd res).
        repeat split. apply (update_loop_keeps _ _ _ _ E).
    + repeat split. apply Hsame.
  - simpl. repeat split. apply Hsame.
Qed.

Lemma update_loop_short_row (key st : str) (pre post : list row) (r : row) :
  forallb (has_other_id key) pre = true ->
  r !! 0%nat = Some key ->
  (length r < status_fields st)%nat ->
  update_loop key st (pre ++ r :: post) = Raise IndexError.
Proof.
  intros Hpre Hid Hlen. induction pre as [|p pre IH]; simpl.
  - unfold getitem. rewrite Hid. simpl. rewrite str_eqb_refl.
    unfold status_fields in Hlen. unfold setitem.
    destruct (bool_decide (5 < length r)%nat) eqn:E5; [|reflexivity]. simpl.
    apply bool_decide_eq_true in E5.
    destruct (str_eqb st (lit "completed")); [|lia].
    rewrite bool_decide_eq_false_2; [reflexivity|].
    rewrite length_insert. lia.
  - simpl in Hpre. apply andb_true_iff in Hpre as [Hp Hpre].
    unfold has_other_id in Hp. unfold getitem.
    destruct (p !! 0%nat) as [id|]; [|discriminate]. simpl.
    apply negb_true_iff in Hp. rewrite Hp, (IH Hpre). reflexivity.
Qed.

(** X3: A matching row too short for the update, fewer than six fields or
    fewer than nine when the status is ['completed'], makes
    [update_task_status] raise [IndexError]; nothing is written and
    nothing is printed, also when the status field itself could be set. *)
Theorem update_task_status_short_row (self : PersonalPASystem) (task_id : Z)
    (new_status : str) (w : world) (header r : row) (pre post : list row) :
  tasks_csv (files w) = header :: pre ++ r :: post ->
  forallb (has_other_id (py_str task_id)) pre = true ->
  r !! 0%nat = Some (py_str task_id) ->
  (length r < status_fields new_status)%nat ->
  update_task_status self task_id new_status w = (Raise IndexError, w).
Proof.
  intros Hrows Hpre Hid Hlen.
  apply update_failure_leaves_store. rewrite Hrows.
  change (drop 1 (header :: pre ++ r :: post)) with (pre ++ r :: post).
  apply update_loop_short_row; assumption.
Qed.

Lemma update_task_status_short_row_witness :
  update_task_status (sample_system "1,2") 5 (lit "completed")
    (sample_world [tasks_header;
                   [lit "5"; lit "t"; lit "d"; lit "c"; lit "1"; lit "pending";
                    lit "2023-12-30"; lit "2024-01-01"]]) =
    (Raise IndexError,
     sample_world [tasks_header;
                   [lit "5"; lit "t"; lit "d"; lit "c"; lit "1"; lit "pending";
                    lit "2023-12-30"; lit "2024-01-01"]]).
Proof.
  apply (update_task_status_short_row (sample_system "1,2") 5 (lit "completed")
           (sample_world [tasks_header;
                          [lit "5"; lit "t"; lit "d"; lit "c"; lit "1"; lit "pending";
                           lit "2023-12-30"; lit "2024-01-01"]])
           tasks_header
           [lit "5"; lit "t"; lit "d"; lit "c"; lit "1"; lit "pending";
            lit "2023-12-30"; lit "2024-01-01"] [] []).
  - reflexivity.
  - reflexivity.
  - reflexivity.
  - vm_compute. lia.
Defined.

Lemma update_loop_blank_row (key st : str) (pre post : list row) :
  forallb (has_other_id key) pre = true ->
  update_loop key st (pre ++ [] :: post) = Raise IndexError.
Proof.
  intros Hpre. induction pre as [|p pre IH]; simpl; [reflexivity|].
  simpl in Hpre. apply andb_true_iff in Hpre as [Hp Hpre].
  unfold has_other_id in Hp. unfold getitem.
  destruct (p !! 0%nat) as [id|]; [|discriminate]. simpl.
  apply negb_true_iff in Hp. rewrite Hp, (IH Hpre). reflexivity.
Qed.

(** X4: A row without fields, which is what the reader yields for an empty
    line of the file, stops the search: when no row before it has the id,
    [update_task_status] raises [IndexError] and writes nothing, also when
    a row after it has the id. *)
Theorem update_task_status_blank_row (self : PersonalPASystem) (task_id : Z)
    (new_status : str) (w : world) (header : row) (pre post : list row) :
  tasks_csv (files w) = header :: pre ++ [] :: post ->
  forallb (has_other_id (py_str task_id)) pre = true ->
  update_task_status self task_id new_status w = (Raise IndexError, w).
Proof.
  intros Hrows Hpre. apply update_failure_leaves_store. rewrite Hrows.
  change (drop 1 (header :: pre ++ [] :: post)) with (pre ++ [] :: post).
  apply update_loop_blank_row. exact Hpre.
Qed.

Lemma update_task_status_blank_row_witness :
  update_task_status (sample_system "1,2") 6 (lit "completed")
    (sample_world [tasks_header; sample_task "5" "pending" "2024-01-01" "2"; [];
                   sample_task "6" "pending" "2024-01-01" "2"]) =
    (Raise IndexError,
     sample_world [tasks_header; sample_task "5" "pending" "2024-01-01" "2"; [];
                   sample_task "6" "pending" "2024-01-01" "2"]).
Proof.
  apply (update_task_status_blank_row (sample_system "1,2") 6 (lit "completed")
           (sample_world [tasks_header; sample_task "5" "pending" "2024-01-01" "2"; [];
                          sample_task "6" "pending" "2024-01-01" "2"])
           tasks_header [sample_task "5" "pending" "2024-01-01" "2"]
           [sample_task "6" "pending" "2024-01-01" "2"]).
  - reflexivity.
  - reflexivity.
Defined.

(** ** [add_task], further *)

Lemma digit_char_decimal (k : Z) :
  0 <= k <= 9 -> char_isdecimal (Z.to_N (48 + k)) = true.
Proof.
  intros Hk.
  assert (H : k = 0 \/ k = 1 \/ k = 2 \/ k = 3 \/ k = 4 \/ k = 5 \/ k = 6 \/
              k = 7 \/ k = 8 \/ k = 9) by lia.
  repeat (destruct H as [H|H]; [subst k; reflexivity|]). subst k. reflexivity.
Qed.

Lemma digits_of_decimal (f : nat) (n : Z) (acc : str) :
  0 <= n -> forallb char_isdecimal acc = true ->
  forallb char_isdecimal (digits_of f n acc) = true.
Proof.
  revert n acc. induction f as [|f IH]; intros n acc Hn Hacc; [exact Hacc|].
  cbn [digits_of].
  assert (Hc : forallb char_isdecimal (Z.to_N (48 + n mod 10) :: acc) = true).
  { simpl. rewrite Hacc, digit_char_decimal; [reflexivity|].
    pose proof (Z.mod_pos_bound n 10). lia. }
  destruct (n <? 10); [exact Hc|].
  apply IH; [apply Z.div_pos; lia|exact Hc].
Qed.

(** [str] writes a number that is not negative with decimal digits only. *)
Lemma py_str_decimal (n : Z) :
  0 <= n -> py_str n <> [] /\ forallb char_isdecimal (py_str n) = true.
Proof.
  intros Hn. unfold py_str.
  replace (n <? 0) with false by (symmetry; apply Z.ltb_ge; lia).
  rewrite Z.abs_eq by lia. split.
  - destruct (digits_of_head (Z.to_nat (Z.log2 n)) n [] Hn) as (c & s & d & E & _).
    rewrite E. discriminate.
  - apply digits_of_decimal; [exact Hn|reflexivity].
Qed.

Lemma decimal_number_py_str (n : Z) : 0 <= n -> decimal_number (py_str n) = n.
Proof.
  intros Hn. destruct (py_str_decimal n Hn) as [Hne Hall].
  pose proof (py_int_decimal (py_str n) Hne Hall) as H.
  rewrite py_int_py_str in H. injection H as H. symmetry. exact H.
Qed.

Lemma isdigit_py_str (n : Z) : 0 <= n -> isdigit (py_str n) = true.
Proof.
  intros Hn. destruct (py_str_decimal n Hn) as [Hne Hall].
  unfold isdigit. destruct (py_str n) as [|c s]; [contradiction|].
  apply forallb_forall. intros x Hx. rewrite forallb_forall in Hall.
  unfold char_isdigit. rewrite (Hall x Hx). reflexivity.
Qed.

Lemma decimal_number_nonneg (s : str) : 0 <= decimal_number s.
Proof.
  unfold decimal_number.
  assert (H : forall acc, 0 <= acc ->
            0 <= fold_left
                   (fun a c => 10 * a + match decimal_value c with
                                        | Some d => Z.of_N d
                                        | None => 0
                                        end) s acc).
  { induction s as [|c s IH]; intros acc Hacc; simpl; [exact Hacc|].
    apply IH. destruct (decimal_value c); lia. }
  apply H. lia.
Qed.

Lemma next_id_of_positive (digit_rows : list row) : 1 <= next_id_of digit_rows.
Proof.
  destruct (next_id_of_max digit_rows) as [_ [(r & _ & E)|[_ E]]]; rewrite E.
  - unfold id_number. destruct (r !! 0%nat) as [id|]; [|lia].
    pose proof (decimal_number_nonneg id). lia.
  - lia.
Qed.

(** The id [add_task] computes is the id field of no row of the store. *)
Lemma next_id_fresh (data : list row) (r : row) :
  In r data -> r !! 0%nat <> Some (py_str (next_id_of (List.filter has_digit_id data))).
Proof.
  intros Hr E.
  pose proof (next_id_of_positive (List.filter has_digit_id data)) as Hpos.
  set (n := next_id_of (List.filter has_digit_id data)) in *.
  assert (Hd : has_digit_id r = true).
  { unfold has_digit_id. rewrite E. apply isdigit_py_str. lia. }
  destruct (next_id_of_max (List.filter has_digit_id data)) as [Hub _].
  specialize (Hub r ltac:(apply filter_In; split; assumption)). fold n in Hub.
  unfold id_number in Hub. rewrite E in Hub.
  rewrite decimal_number_py_str in Hub by lia. lia.
Qed.

(** X5: The new task cannot be taken for another. On a task file the
    writer has just written, as [update_task_status] and the rollover
    leave it, so that its last line is complete, [add_task] adds one row
    at the end; the id it gives is at least 1 and is the id field of no
    row that was in the file. Every row has an id field, and the ids
    [isdigit] accepts are made of decimal digits. *)
Theorem add_task_id_is_fresh (self : PersonalPASystem)
    (title description category : str) (priority : Z)
    (due_date time_block : str) (rows : list row) (w : world) :
  forallb id_readable (drop 1 rows) = true ->
  exists n : Z,
    1 <= n /\
    add_task self title description category priority due_date time_block
      (snd (write_tasks rows w)) =
      (Ok PNone,
       mkworld
         (mkfiles
            (rows ++
               [task_row self n title description category priority due_date
                  time_block])
            (schedule_csv (files w)) (progress_csv (files w)))
         (stdout w ++ [add_task_msg title n]) (calls w)) /\
    forall r : row, In r (drop 1 rows) -> r !! 0%nat <> Some (py_str n).
Proof.
  intros Hread.
  exists (next_id_of (List.filter has_digit_id (drop 1 rows))).
  split; [apply next_id_of_positive|]. split.
  - rewrite (add_task_run self title description category priority due_date
               time_block (snd (write_tasks rows w)) _
               (next_task_id_spec rows Hread)).
    reflexivity.
  - intros r Hr. apply next_id_fresh. exact Hr.
Qed.

Lemma add_task_id_is_fresh_witness :
  exists n : Z,
    1 <= n /\
    add_task (sample_system "1,2") (lit "T") (lit "D") (lit "C") 3
      (lit "2024-01-05") (lit "B")
      (snd (write_tasks rollover_store (sample_world []))) =
      (Ok PNone,
       mkworld
         (mkfiles
            (rollover_store ++
               [task_row (sample_system "1,2") n (lit "T") (lit "D") (lit "C") 3
                  (lit "2024-01-05") (lit "B")])
            (schedule_csv (files (sample_world [])))
            (progress_csv (files (sample_world []))))
         (stdout (sample_world []) ++ [add_task_msg (lit "T") n])
         (calls (sample_world []))) /\
    forall r : row, In r (drop 1 rollover_store) ->
      r !! 0%nat <> Some (py_str n).
Proof.
  apply (add_task_id_is_fresh (sample_system "1,2") (lit "T") (lit "D") (lit "C") 3
           (lit "2024-01-05") (lit "B") rollover_store (sample_world [])).
  reflexivity.
Defined.

Lemma task_row_readable (self : PersonalPASystem) (n : Z)
    (title description category : str) (priority : Z) (due_date time_block : str) :
  0 <= n ->
  id_readable (task_row self n title description category priority due_date
                 time_block) = true /\
  has_digit_id (task_row self n title description category priority due_date
                  time_block) = true /\
  id_number (task_row self n title description category priority due_date
               time_block) = n.
Proof.
  intros Hn. unfold id_readable, has_digit_id, id_number, task_row.
  cbn [lookup list_lookup].
  destruct (py_str_decimal n Hn) as [_ Hall].
  rewrite isdigit_py_str, Hall, decimal_number_py_str by lia.
  repeat split.
Qed.

Lemma next_task_id_after_add (rows : list row) (new : row) (n : Z) :
  rows <> [] ->
  forallb id_readable (drop 1 rows) = true ->
  next_task_id rows = Ok n ->
  id_readable new = true -> has_digit_id new = true -> id_number new = n ->
  next_task_id (rows ++ [new]) = Ok (n + 1).
Proof.
  intros Hne Hread Hn Hr Hd Hid.
  rewrite (next_task_id_spec rows Hread) in Hn. injection Hn as Hn.
  destruct rows as [|h data]; [contradiction|].
  change (drop 1 (h :: data)) with data in *.
  assert (Hread' : forallb id_readable (drop 1 ((h :: data) ++ [new])) = true).
  { change (drop 1 ((h :: data) ++ [new])) with (data ++ [new]).
    rewrite forallb_app, Hread. simpl. rewrite Hr. reflexivity. }
  rewrite (next_task_id_spec _ Hread'). f_equal.
  change (drop 1 ((h :: data) ++ [new])) with (data ++ [new]).
  rewrite List.filter_app. simpl. rewrite Hd.
  destruct (next_id_of_max (List.filter has_digit_id data)) as [Hub _].
  rewrite Hn in Hub.
  destruct (next_id_of_max (List.filter has_digit_id data ++ [new]))
    as [Hub' [(r & Hin & E)|[Hnil _]]].
  - rewrite E. apply in_app_or in Hin as [Hin|[<-|[]]].
    + specialize (Hub r Hin).
      specialize (Hub' new ltac:(apply in_or_app; right; left; reflexivity)).
      lia.
    + lia.
  - destruct (List.filter has_digit_id data); discriminate.
Qed.

(** X6: Two tasks added one after the other get ids that follow one
    another: the second is the first plus one. The task file is one the
    writer has just written, so that its last line is complete, and it has
    its header row. *)
Theorem add_task_twice_consecutive_ids (self : PersonalPASystem)
    (title1 description1 category1 : str) (priority1 : Z)
    (due_date1 time_block1 : str)
    (title2 description2 category2 : str) (priority2 : Z)
    (due_date2 time_block2 : str) (rows : list row) (w : world) :
  rows <> [] ->
  forallb id_readable (drop 1 rows) = true ->
  exists n : Z,
    tasks_csv
      (files (snd (add_task self title2 description2 category2 priority2
                     due_date2 time_block2
                     (snd (add_task self title1 description1 category1
                             priority1 due_date1 time_block1
                             (snd (write_tasks rows w))))))) =
      rows ++
        [ task_row self n title1 description1 category1 priority1 due_date1
            time_block1;
          task_row self (n + 1) title2 description2 category2 priority2
            due_date2 time_block2 ].
Proof.
  intros Hne Hread.
  pose proof (next_task_id_spec rows Hread) as Hn.
  set (n := next_id_of (List.filter has_digit_id (drop 1 rows))) in *.
  pose proof (next_id_of_positive (List.filter has_digit_id (drop 1 rows))) as Hpos.
  fold n in Hpos.
  exists n.
  rewrite (add_task_run self title1 description1 category1 priority1 due_date1
             time_block1 (snd (write_tasks rows w)) n Hn).
  cbn [snd].
  destruct (task_row_readable self n title1 description1 category1 priority1
              due_date1 time_block1 ltac:(lia)) as (Hr & Hd & Hid).
  erewrite (add_task_run self title2 description2 category2 priority2 due_date2
              time_block2 _ (n + 1)).
  - cbn. rewrite <- app_assoc. reflexivity.
  - cbn [files tasks_csv].
    apply (next_task_id_after_add rows _ n Hne Hread Hn Hr Hd Hid).
Qed.

Lemma add_task_twice_consecutive_ids_witness :
  exists n : Z,
    tasks_csv
      (files (snd (add_task (sample_system "1,2") (lit "U") (lit "E") (lit "C") 1
                     (lit "2024-01-06") (lit "B")
                     (snd (add_task (sample_system "1,2") (lit "T") (lit "D")
                             (lit "C") 3 (lit "2024-01-05") (lit "B")
                             (snd (write_tasks rollover_store
                                     (sample_world []))))))))  =
      rollover_store ++
        [ task_row (sample_system "1,2") n (lit "T") (lit "D") (lit "C") 3
            (lit "2024-01-05") (lit "B");
          task_row (sample_system "1,2") (n + 1) (lit "U") (lit "E") (lit "C") 1
            (lit "2024-01-06") (lit "B") ].
Proof.
  apply (add_task_twice_consecutive_ids (sample_system "1,2")
           (lit "T") (lit "D") (lit "C") 3 (lit "2024-01-05") (lit "B")
           (lit "U") (lit "E") (lit "C") 1 (lit "2024-01-06") (lit "B")
           rollover_store (sample_world [])).
  - discriminate.
  - reflexivity.
Defined.

(** X7: On a task file that is empty, without even the header, the first task
    added becomes the first row, which the next call skips as if it were
    the header: the first two tasks both get the id 1. *)
Theorem add_task_twice_on_empty_file (self : PersonalPASystem)
    (title1 description1 category1 : str) (priority1 : Z)
    (due_date1 time_block1 : str)
    (title2 description2 category2 : str) (priority2 : Z)
    (due_date2 time_block2 : str) (w : world) :
  tasks_csv (files w) = [] ->
  tasks_csv
    (files (snd (add_task self title2 description2 category2 priority2
                   due_date2 time_block2
                   (snd (add_task self title1 description1 category1
                           priority1 due_date1 time_block1 w))))) =
    [ task_row self 1 title1 description1 category1 priority1 due_date1
        time_block1;
      task_row self 1 title2 description2 category2 priority2 due_date2
        time_block2 ].
Proof.
  intros Hrows.
  rewrite (add_task_run self title1 description1 category1 priority1 due_date1
             time_block1 w 1) by (rewrite Hrows; reflexivity).
  cbn [snd].
  erewrite (add_task_run self title2 description2 category2 priority2 due_date2
              time_block2 _ 1).
  - cbn [snd files tasks_csv]. rewrite Hrows. reflexivity.
  - cbn [files tasks_csv]. rewrite Hrows. reflexivity.
Qed.

Lemma add_task_twice_on_empty_file_witness :
  tasks_csv
    (files (snd (add_task (sample_system "1,2") (lit "U") (lit "E") (lit "C") 1
                   (lit "2024-01-06") (lit "B")
                   (snd (add_task (sample_system "1,2") (lit "T") (lit "D")
                           (lit "C") 3 (lit "2024-01-05") (lit "B")
                           (sample_world [])))))) =
    [ task_row (sample_system "1,2") 1 (lit "T") (lit "D") (lit "C") 3
        (lit "2024-01-05") (lit "B");
      task_row (sample_system "1,2") 1 (lit "U") (lit "E") (lit "C") 1
        (lit "2024-01-06") (lit "B") ].
Proof.
  apply (add_task_twice_on_empty_file (sample_system "1,2")
           (lit "T") (lit "D") (lit "C") 3 (lit "2024-01-05") (lit "B")
           (lit "U") (lit "E") (lit "C") 1 (lit "2024-01-06") (lit "B")
           (sample_world [])).
  reflexivity.
Defined.

Lemma other_digit_to_question (c : N) :
  char_isdigit c = true -> char_isdecimal c = false ->
  to_ascii_decimal c = 63%N.
Proof.
  unfold char_isdigit, char_isdecimal. intros Hd Hn.
  destruct (decimal_value c) eqn:Ev; [discriminate|]. simpl in Hd.
  unfold in_ranges, other_digit_ranges in Hd. simpl in Hd.
  rewrite !orb_true_iff, !andb_true_iff, !N.leb_le in Hd.
  unfold to_ascii_decimal. rewrite Ev.
  replace (c <? 128)%N with false by (symmetry; apply N.ltb_ge; lia).
  assert (Hs : char_isspace c = false).
  { apply not_true_is_false. intros Hs.
    unfold char_isspace, in_ranges, space_ranges in Hs. simpl in Hs.
    rewrite !orb_true_iff, !andb_true_iff, !N.leb_le in Hs. lia. }
  rewrite Hs. reflexivity.
Qed.

Lemma scan_stops_at_other_digit (s : str) (acc : Z) :
  forallb char_isdigit s = true -> forallb char_isdecimal s = false ->
  exists (v : Z) (rest : str),
    scan_digits acc false (List.map to_ascii_decimal s) = Some (v, 63%N :: rest).
Proof.
  revert acc. induction s as [|c s IH]; intros acc Hd Hn; [discriminate|].
  simpl in Hd, Hn. apply andb_true_iff in Hd as [Hc Hs]. simpl.
  destruct (char_isdecimal c) eqn:Ec.
  - rewrite (decimal_ascii_digit c Ec). apply IH; assumption.
  - rewrite (other_digit_to_question c Hc Ec). simpl.
    exists acc, (List.map to_ascii_decimal s). reflexivity.
Qed.

Lemma parse_int_ascii_junk (c : N) (s rest : str) (d v : Z) :
  ascii_digit c = Some d ->
  scan_digits 0 false (c :: s) = Some (v, 63%N :: rest) ->
  parse_int_ascii (c :: s) = Raise ValueError.
Proof.
  intros Hd Hscan. pose proof (ascii_digit_range c d Hd) as Hc.
  unfold parse_int_ascii.
  assert (Hsp : skip_spaces (c :: s) = c :: s).
  { simpl. unfold ascii_isspace.
    replace (c =? 32)%N with false by (symmetry; apply N.eqb_neq; lia).
    replace ((9 <=? c)%N && (c <=? 13)%N) with false; [reflexivity|].
    symmetry. apply andb_false_iff. right. apply N.leb_gt. lia. }
  rewrite Hsp.
  assert (Hsign : (match c :: s with
                   | 43%N :: t => (false, t)
                   | 45%N :: t => (true, t)
                   | _ => (false, c :: s)
                   end) = (false, c :: s)).
  { destruct c as [|p]; [reflexivity|].
    do 6 (destruct p as [p|p|]; try reflexivity); lia. }
  rewrite Hsign, Hd, Hscan. reflexivity.
Qed.

(** [int] refuses a string [isdigit] accepts as soon as one of its
    characters is a digit that is not decimal. *)
Lemma py_int_other_digit (s : str) :
  isdigit s = true -> forallb char_isdecimal s = false ->
  py_int s = Raise ValueError.
Proof.
  intros Hd Hn. destruct s as [|c s]; [discriminate|].
  unfold isdigit in Hd.
  destruct (scan_stops_at_other_digit (c :: s) 0 Hd Hn) as (v & rest & Hscan).
  unfold py_int. simpl List.map in *.
  simpl in Hd. apply andb_true_iff in Hd as [Hc _].
  destruct (char_isdecimal c) eqn:Ec.
  - eapply parse_int_ascii_junk; [apply (decimal_ascii_digit c Ec)|exact Hscan].
  - rewrite (other_digit_to_question c Hc Ec). reflexivity.
Qed.

Lemma digit_ids_unreadable (data : list row) :
  forallb id_readable data = false ->
  exists e : exn, (e = IndexError \/ e = ValueError) /\ digit_ids data = Raise e.
Proof.
  induction data as [|r rest IH]; [discriminate|]. simpl.
  intros H. apply andb_false_iff in H. unfold getitem.
  destruct (id_readable r) eqn:Er.
  - destruct H as [H|H]; [discriminate|].
    destruct (IH H) as (e & He & E).
    unfold id_readable in Er.
    destruct (r !! 0%nat) as [id|]; [|discriminate]. simpl.
    destruct (isdigit id) eqn:Ed.
    + simpl in Er. rewrite py_int_decimal; [|intros ->; discriminate|exact Er].
      simpl. rewrite E. exists e. split; [exact He|reflexivity].
    + exists e. split; [exact He|exact E].
  - clear H IH. unfold id_readable in Er.
    destruct (r !! 0%nat) as [id|].
    + simpl. destruct (isdigit id) eqn:Ed; [|discriminate]. simpl in Er.
      rewrite (py_int_other_digit id Ed Er). simpl.
      exists ValueError. split; [right|]; reflexivity.
    + exists IndexError. split; [left|]; reflexivity.
Qed.

(** X8: A row [add_task] cannot read, a row without fields or one whose id
    [isdigit] accepts and [int] does not, makes it raise [IndexError] or
    [ValueError] before it writes: no task is added and nothing is
    printed. With the theorem on the new id this makes readable rows the
    exact condition for [add_task] to succeed. *)
Theorem add_task_unreadable_row (self : PersonalPASystem)
    (title description category : str) (priority : Z)
    (due_date time_block : str) (w : world) :
  forallb id_readable (drop 1 (tasks_csv (files w))) = false ->
  exists e : exn,
    (e = IndexError \/ e = ValueError) /\
    add_task self title description category priority due_date time_block w =
      (Raise e, w).
Proof.
  intros H. destruct (digit_ids_unreadable _ H) as (e & He & E).
  exists e. split; [exact He|].
  unfold add_task, bind, read_tasks, lift, next_task_id.
  destruct (bool_decide (1 < length (tasks_csv (files w)))%nat) eqn:El.
  - rewrite E. reflexivity.
  - apply bool_decide_eq_false in El.
    destruct (tasks_csv (files w)) as [|h [|r rows]]; try discriminate.
    simpl in El. lia.
Qed.

Lemma add_task_unreadable_row_witness :
  exists e : exn,
    (e = IndexError \/ e = ValueError) /\
    add_task (sample_system "1,2") (lit "T") (lit "D") (lit "C") 3
        (lit "2024-01-05") (lit "B")
        (sample_world [tasks_header; sample_task "5" "pending" "2024-01-01" "2"; []]) =
      (Raise e,
       sample_world [tasks_header; sample_task "5" "pending" "2024-01-01" "2"; []]).
Proof.
  apply (add_task_unreadable_row (sample_system "1,2") (lit "T") (lit "D") (lit "C") 3
           (lit "2024-01-05") (lit "B")
           (sample_world [tasks_header; sample_task "5" "pending" "2024-01-01" "2"; []])).
  reflexivity.
Defined.

(** X9: A task that was just added is the one [update_task_status] finds
    under its id. On a task file the writer has just written, so that its
    last line is complete, after [add_task] and an update with the id it
    assigned the file is the old rows followed by the new row with the new
    status, and no older row has changed. *)
Theorem add_task_then_update (self : PersonalPASystem)
    (title description category : str) (priority : Z)
    (due_date time_block new_status : str) (w : world) (header : row)
    (data : list row) :
  forallb id_readable data = true ->
  exists n : Z,
    tasks_csv (files (snd (add_task self title description category priority
                             due_date time_block
                             (snd (write_tasks (header :: data) w))))) =
      header :: data ++
        [task_row self n title description category priority due_date time_block] /\
    fst (update_task_status self n new_status
           (snd (add_task self title description category priority due_date
                   time_block (snd (write_tasks (header :: data) w))))) =
      Ok PNone /\
    tasks_csv (files (snd (update_task_status self n new_status
                             (snd (add_task self title description category
                                     priority due_date time_block
                                     (snd (write_tasks (header :: data) w))))))) =
      header :: data ++
        [set_status new_status
           (task_row self n title description category priority due_date
              time_block)].
Proof.
  intros Hread.
  pose proof (next_task_id_spec (header :: data) Hread) as Hn.
  change (drop 1 (header :: data)) with data in Hn.
  set (n := next_id_of (List.filter has_digit_id data)) in *.
  exists n.
  rewrite (add_task_run self title description category priority due_date
             time_block (snd (write_tasks (header :: data) w)) n Hn).
  cbn [snd files tasks_csv write_tasks with_tasks].
  assert (Hpre : forallb (has_other_id (py_str n)) data = true).
  { apply forallb_forall. intros r Hr.
    rewrite forallb_forall in Hread. specialize (Hread r Hr).
    pose proof (next_id_fresh data r Hr) as Hfresh. fold n in Hfresh.
    unfold id_readable in Hread. unfold has_other_id.
    destruct (r !! 0%nat) as [id|]; [|discriminate].
    apply negb_true_iff, str_eqb_neq. intros ->. apply Hfresh. reflexivity. }
  split; [reflexivity|].
  erewrite (update_task_status_hit self n new_status _ header
              (task_row self n title description category priority due_date
                 time_block) data []).
  - split; reflexivity.
  - reflexivity.
  - exact Hpre.
  - reflexivity.
  - unfold status_fields. destruct (str_eqb new_status (lit "completed"));
      simpl; lia.
Qed.

Lemma add_task_then_update_witness :
  exists n : Z,
    tasks_csv (files (snd (add_task (sample_system "1,2") (lit "T") (lit "D")
                             (lit "C") 3 (lit "2024-01-05") (lit "B")
                             (snd (write_tasks
                                     (tasks_header :: drop 1 rollover_store)
                                     (sample_world [])))))) =
      tasks_header :: drop 1 rollover_store ++
        [task_row (sample_system "1,2") n (lit "T") (lit "D") (lit "C") 3
           (lit "2024-01-05") (lit "B")] /\
    fst (update_task_status (sample_system "1,2") n (lit "completed")
           (snd (add_task (sample_system "1,2") (lit "T") (lit "D") (lit "C") 3
                   (lit "2024-01-05") (lit "B")
                   (snd (write_tasks (tasks_header :: drop 1 rollover_store)
                           (sample_world [])))))) =
      Ok PNone /\
    tasks_csv (files (snd (update_task_status (sample_system "1,2") n
                             (lit "completed")
                             (snd (add_task (sample_system "1,2") (lit "T")
                                     (lit "D") (lit "C") 3 (lit "2024-01-05")
                                     (lit "B")
                                     (snd (write_tasks
                                             (tasks_header ::
                                                drop 1 rollover_store)
                                             (sample_world [])))))))) =
      tasks_header :: drop 1 rollover_store ++
        [set_status (lit "completed")
           (task_row (sample_system "1,2") n (lit "T") (lit "D") (lit "C") 3
              (lit "2024-01-05") (lit "B"))].
Proof.
  apply (add_task_then_update (sample_system "1,2") (lit "T") (lit "D") (lit "C") 3
           (lit "2024-01-05") (lit "B") (lit "completed")
           (sample_world []) tasks_header (drop 1 rollover_store)).
  reflexivity.
Defined.

(** ** [_update_progress_log], further *)

Lemma update_progress_log_effect (self : PersonalPASystem)
    (migrated_tasks : Z) (w : world) :
  exists new : list (list pyval),
    (length new <= 1)%nat /\
    progress_csv (files (snd (_update_progress_log self migrated_tasks w))) =
      progress_csv (files w) ++ new /\
    tasks_csv (files (snd (_update_progress_log self migrated_tasks w))) =
      tasks_csv (files w) /\
    schedule_csv (files (snd (_update_progress_log self migrated_tasks w))) =
      schedule_csv (files w) /\
    stdout (snd (_update_progress_log self migrated_tasks w)) = stdout w /\
    calls (snd (_update_progress_log self migrated_tasks w)) =
      calls w ++ [(lit "tasks", stats_query (now_date self))].
Proof.
  unfold _update_progress_log, bind, query, lift, append_progress, ret.
  cbn [files stdout calls].
  destruct (bool_decide _).
  - destruct (split 10 _) as [|? [|counts [|? ?]]]; simpl;
      try (exists []; rewrite app_nil_r; repeat split; simpl; lia).
    destruct (split 44 counts) as [|a [|b [|? ?]]]; simpl;
      try (exists []; rewrite app_nil_r; repeat split; simpl; lia).
    destruct (py_int a) as [c|]; simpl;
      [|exists []; rewrite app_nil_r; repeat split; simpl; lia].
    destruct (py_int b) as [p|]; simpl;
      [|exists []; rewrite app_nil_r; repeat split; simpl; lia].
    destruct (productivity_score c p) as [v|]; simpl;
      [|exists []; rewrite app_nil_r; repeat split; simpl; lia].
    eexists [_]. repeat split. simpl. lia.
  - simpl. exists []. rewrite app_nil_r. repeat split. simpl. lia.
Qed.

(** X10: The progress log only grows, and by one row at most: whatever the tool
    answers and whether the method returns or raises, the rows that were
    in the log stay as they are and in place, the task file, the schedule
    and the output are not touched, and the one query sent is the
    statistics query on the task table. *)
Theorem progress_log_is_append_only (self : PersonalPASystem)
    (migrated_tasks : Z) (w : world) :
  exists new : list (list pyval),
    (length new <= 1)%nat /\
    progress_csv (files (snd (_update_progress_log self migrated_tasks w))) =
      progress_csv (files w) ++ new /\
    tasks_csv (files (snd (_update_progress_log self migrated_tasks w))) =
      tasks_csv (files w) /\
    schedule_csv (files (snd (_update_progress_log self migrated_tasks w))) =
      schedule_csv (files w) /\
    stdout (snd (_update_progress_log self migrated_tasks w)) = stdout w /\
    calls (snd (_update_progress_log self migrated_tasks w)) =
      calls w ++ [(lit "tasks", stats_query (now_date self))].
Proof. apply update_progress_log_effect. Qed.

(** [int] raises nothing but [ValueError]. *)
Lemma py_int_raises_value_error (s : str) (e : exn) :
  py_int s = Raise e -> e = ValueError.
Proof.
  unfold py_int, parse_int_ascii.
  repeat match goal with
         | |- context [match ?x with _ => _ end] => destruct x
         end; congruence.
Qed.

(** X11: No counts, no row: when the answer of the tool is not a header line and
    a line of two integers, nothing is added to the progress log. The
    method then returns [None] without a word, for an answer of one line,
    or raises [ValueError]. *)
Theorem progress_log_needs_counts (self : PersonalPASystem)
    (migrated_tasks : Z) (w : world) :
  tool_counts self (files w) = None ->
  progress_csv (files (snd (_update_progress_log self migrated_tasks w))) =
    progress_csv (files w) /\
  (fst (_update_progress_log self migrated_tasks w) = Ok PNone \/
   fst (_update_progress_log self migrated_tasks w) = Raise ValueError).
Proof.
  unfold tool_counts, answer_counts, _update_progress_log, bind, query, lift, ret.
  cbn [files stdout calls].
  destruct (split 10 _) as [|l0 [|counts [|l2 ls]]]; simpl.
  - intros _. split; [reflexivity|left; reflexivity].
  - intros _. split; [reflexivity|left; reflexivity].
  - destruct (split 44 counts) as [|a [|b [|? ?]]]; simpl;
      try (intros _; split; [reflexivity|right; reflexivity]).
    destruct (py_int a) as [c|e] eqn:Ea; simpl.
    + destruct (py_int b) as [p|e] eqn:Eb; simpl; [discriminate|].
      intros _. split; [reflexivity|right].
      rewrite (py_int_raises_value_error b e Eb). reflexivity.
    + intros _. split; [reflexivity|right].
      rewrite (py_int_raises_value_error a e Ea). reflexivity.
  - intros _. split; [reflexivity|right; reflexivity].
Qed.

Lemma progress_log_needs_counts_witness :
  progress_csv
    (files (snd (_update_progress_log
                   (mksystem (lit "2024-01-02") (lit "Tuesday")
                      (fun _ _ _ => lit "Error querying csv: no such table"))
                   0 (sample_world rollover_store)))) =
    progress_csv (files (sample_world rollover_store)) /\
  (fst (_update_progress_log
          (mksystem (lit "2024-01-02") (lit "Tuesday")
             (fun _ _ _ => lit "Error querying csv: no such table"))
          0 (sample_world rollover_store)) = Ok PNone \/
   fst (_update_progress_log
          (mksystem (lit "2024-01-02") (lit "Tuesday")
             (fun _ _ _ => lit "Error querying csv: no such table"))
          0 (sample_world rollover_store)) = Raise ValueError).
Proof.
  apply (progress_log_needs_counts
           (mksystem (lit "2024-01-02") (lit "Tuesday")
              (fun _ _ _ => lit "Error querying csv: no such table"))
           0 (sample_world rollover_store)).
  reflexivity.
Defined.

(** ** [migrate_incomplete_tasks], further *)

Lemma migrate_row_not_ready (today : str) (r : row) :
  rollover_ready today r = false -> exists e : exn, migrate_row today r = Raise e.
Proof.
  unfold rollover_ready, migrate_row, getitem.
  destruct (r !! 5%nat) as [status|] eqn:E5;
    [|intros _; eexists; reflexivity]. simpl.
  destruct (str_eqb status (lit "pending")); [|discriminate].
  destruct (r !! 7%nat) as [due|] eqn:E7;
    [|intros _; eexists; reflexivity]. simpl.
  destruct (str_le due today); [|discriminate].
  unfold rollover_count_of, due_date_of, getitem. rewrite E7. simpl.
  destruct (r !! 8%nat) as [count|] eqn:E8;
    [|intros _; eexists; reflexivity]. simpl.
  destruct (py_int count) as [n|e]; [|intros _; eexists; reflexivity]. simpl.
  rewrite setitem_Ok by (apply lookup_lt_Some in E8; exact E8). simpl.
  rewrite list_lookup_insert_ne by lia. rewrite E7. simpl.
  destruct (strptime due) as [d|e]; [|intros _; eexists; reflexivity]. simpl.
  destruct (add_one_day d); [discriminate|]. intros _. eexists. reflexivity.
Qed.

Lemma migrate_loop_not_ready (today : str) (data : list row) (count : Z) :
  forallb (rollover_ready today) data = false ->
  exists e : exn, migrate_loop today data count = Raise e.
Proof.
  revert count. induction data as [|r rest IH]; intros count; [discriminate|].
  simpl. intros H. destruct (rollover_ready today r) eqn:Er.
  - simpl in H. rewrite (migrate_row_spec today r Er). simpl.
    destruct (IH (if is_due today r then count + 1 else count) H) as [e E].
    rewrite E. exists e. reflexivity.
  - destruct (migrate_row_not_ready today r Er) as [e E]. rewrite E.
    exists e. reflexivity.
Qed.

(** X12: The rollover is all or nothing: if one row cannot be read, a row too
    short, or a due row whose count is no integer or whose date is no
    date or is the last day of the year 9999, the method raises before it
    writes, also when rows before that one were due. The files keep every
    row as it was, nothing is logged and nothing is printed. *)
Theorem rollover_is_all_or_nothing (self : PersonalPASystem) (w : world) :
  forallb (rollover_ready (now_date self)) (drop 1 (tasks_csv (files w))) = false ->
  exists e : exn, migrate_incomplete_tasks self w = (Raise e, w).
Proof.
  intros H. destruct (migrate_loop_not_ready _ _ 0 H) as [e E].
  exists e. apply migrate_failure_leaves_files. exact E.
Qed.

Lemma rollover_is_all_or_nothing_witness :
  exists e : exn,
    migrate_incomplete_tasks (sample_system "1,2")
      (sample_world [tasks_header; sample_task "5" "pending" "2024-01-01" "2";
                     sample_task "6" "pending" "2024-01-01" "many"]) =
      (Raise e,
       sample_world [tasks_header; sample_task "5" "pending" "2024-01-01" "2";
                     sample_task "6" "pending" "2024-01-01" "many"]).
Proof.
  apply (rollover_is_all_or_nothing (sample_system "1,2")
           (sample_world [tasks_header; sample_task "5" "pending" "2024-01-01" "2";
                          sample_task "6" "pending" "2024-01-01" "many"])).
  reflexivity.
Defined.

Lemma same_but_due_refl (r : row) : same_but_due r r.
Proof. split; reflexivity. Qed.

Lemma rolled_same_but_due (today : str) (r : row) :
  same_but_due r (rolled today r).
Proof.
  unfold rolled. destruct (is_due today r); [|apply same_but_due_refl].
  destruct (rollover_count_of r) as [n|]; [|apply same_but_due_refl].
  destruct (due_date_of r) as [d|]; [|apply same_but_due_refl].
  unfold roll. split.
  - rewrite !length_insert. reflexivity.
  - intros j H7 H8. rewrite !list_lookup_insert_ne by lia. reflexivity.
Qed.

(** X13: Whatever the outcome, the rollover leaves every row in its place with
    its length and with all its fields but the due date and the rollover
    count: it adds, removes and moves no task, and changes no id, title or
    status. The header row and the schedule stay as they are. *)
Theorem rollover_keeps_rows (self : PersonalPASystem) (w : world) :
  take 1 (tasks_csv (files (snd (migrate_incomplete_tasks self w)))) =
    take 1 (tasks_csv (files w)) /\
  Forall2 same_but_due (drop 1 (tasks_csv (files w)))
    (drop 1 (tasks_csv (files (snd (migrate_incomplete_tasks self w))))) /\
  schedule_csv (files (snd (migrate_incomplete_tasks self w))) =
    schedule_csv (files w).
Proof.
  assert (Hsame : forall l : list row, Forall2 same_but_due l l).
  { induction l; constructor; [apply same_but_due_refl|assumption]. }
  destruct (forallb (rollover_ready (now_date self)) (drop 1 (tasks_csv (files w))))
    eqn:Hready.
  - rewrite (migrate_run self w Hready). cbv zeta.
    match goal with
    | |- context [_update_progress_log self ?n ?w1] =>
        destruct (update_progress_log_effect self n w1)
          as (new & _ & _ & Htasks & Hsched & _);
        destruct (_update_progress_log self n w1) as [[v|e] w2]
    end; cbn [fst snd files] in *; rewrite Htasks, Hsched;
      unfold with_tasks; cbn [files tasks_csv schedule_csv];
      (destruct (tasks_csv (files w)) as [|h data];
       [repeat split; constructor|]);
      change (drop 1 (h :: data)) with data;
      change (take 1 (h :: data)) with [h];
      (repeat split);
      change (drop 1 ([h] ++ List.map (rolled (now_date self)) data))
        with (List.map (rolled (now_date self)) data);
      clear; induction data; constructor;
      try apply rolled_same_but_due; assumption.
  - destruct (migrate_loop_not_ready _ _ 0 Hready) as [e E].
    rewrite (migrate_failure_leaves_files self w e E). cbn [snd].
    repeat split. apply Hsame.
Qed.

Lemma migrate_row_Ok (today : str) (r : row) (res : row * bool) :
  migrate_row today r = Ok res ->
  rollover_ready today r = true /\ res = (rolled today r, is_due today r).
Proof.
  intros H. destruct (rollover_ready today r) eqn:E.
  - rewrite (migrate_row_spec today r E) in H. injection H as <-.
    split; reflexivity.
  - destruct (migrate_row_not_ready today r E) as [e He]. congruence.
Qed.

Lemma next_day_year (d : date) : year d <= year (next_day d).
Proof.
  unfold next_day. destruct (day d <? _); simpl; [lia|].
  destruct (month d <? 12); simpl; lia.
Qed.

Lemma rolled_stays_ready (today later : str) (r : row) (d : date) :
  rollover_ready today r = true ->
  is_due today r = true ->
  due_date_of r = Ok d ->
  1000 <= year d ->
  year (next_day (next_day d)) <= 9999 ->
  rollover_ready later (rolled today r) = true.
Proof.
  intros Hready Hdue Hd Hy Hlast.
  pose proof (rolled_step today r Hready) as Hstep.
  unfold rollover_step in Hstep. rewrite Hdue in Hstep.
  destruct Hstep as (n & d0 & Hn & Hd0 & Hr' & Hcount & _ & Hdate).
  rewrite Hd in Hd0. injection Hd0 as <-. specialize (Hdate Hy).
  unfold is_due in Hdue.
  destruct (r !! 5%nat) as [status|] eqn:E5; [|discriminate].
  destruct (r !! 7%nat) as [due|] eqn:E7; [|discriminate].
  assert (H8 : (8 < length r)%nat).
  { unfold rollover_count_of, getitem in Hn.
    destruct (r !! 8%nat) eqn:E8; [|discriminate].
    apply lookup_lt_Some in E8. exact E8. }
  unfold rollover_ready. rewrite Hcount, Hdate.
  assert (E5' : rolled today r !! 5%nat = Some status).
  { rewrite Hr'. rewrite !list_lookup_insert_ne by lia. exact E5. }
  assert (E7' : rolled today r !! 7%nat = Some (strftime (next_day d))).
  { rewrite Hr'. apply list_lookup_insert_eq. rewrite length_insert. lia. }
  rewrite E5', E7'.
  destruct (str_eqb status (lit "pending")); [|reflexivity].
  destruct (str_le (strftime (next_day d)) later); [|reflexivity].
  unfold add_one_day.
  replace (year (next_day (next_day d)) <=? 9999) with true
    by (symmetry; apply Z.leb_le; exact Hlast).
  reflexivity.
Qed.

(** X14: A task that has been rolled over can be rolled over again: the row the
    loop wrote has a count [int] reads and a date [strptime] reads, so the
    loop of a later run, on whatever day, gets through it without an
    exception. The year of the due date has four digits and the new date
    is not the last day of the year 9999. *)
Theorem rolled_row_stays_ready (today later : str) (r r' : row) (d : date) :
  migrate_row today r = Ok (r', true) ->
  due_date_of r = Ok d ->
  1000 <= year d ->
  year (next_day (next_day d)) <= 9999 ->
  exists res : row * bool, migrate_row later r' = Ok res.
Proof.
  intros Hrun Hd Hy Hlast.
  apply migrate_row_Ok in Hrun as [Hready [= -> Hdue]].
  exists (rolled later (rolled today r), is_due later (rolled today r)).
  apply migrate_row_spec.
  apply (rolled_stays_ready today later r d); auto.
Qed.

Lemma rolled_row_stays_ready_witness :
  exists res : row * bool,
    migrate_row (lit "2024-06-30")
      (sample_task "8" "pending" "2023-01-01" "10") = Ok res.
Proof.
  apply (rolled_row_stays_ready (lit "2024-01-02") (lit "2024-06-30")
           (sample_task "8" "pending" "2022-12-31" "9")
           (sample_task "8" "pending" "2023-01-01" "10") (mkdate 2022 12 31)).
  - reflexivity.
  - reflexivity.
  - simpl. lia.
  - vm_compute. discriminate.
Defined.

(** X15: After a run a task is due again on the same day exactly when it was
    overdue. The loop moves a pending task whose date is today or earlier
    by one day; run on the new row with the same today, it moves it again
    if the old date was before today, and leaves it alone if the old date
    was today. The dates are written as [strftime] writes them, with years
    of four digits. *)
Theorem due_again_iff_overdue (r : row) (due today : date) (n : Z) :
  r !! 5%nat = Some (lit "pending") ->
  r !! 7%nat = Some (strftime due) ->
  rollover_count_of r = Ok n ->
  valid_date due = true -> valid_date today = true ->
  1000 <= year due -> 1000 <= year today ->
  toordinal due <= toordinal today ->
  year (next_day (next_day due)) <= 9999 ->
  exists (r1 r2 : row) (again : bool),
    migrate_row (strftime today) r = Ok (r1, true) /\
    migrate_row (strftime today) r1 = Ok (r2, again) /\
    (again = true <-> toordinal due < toordinal today).
Proof.
  intros E5 E7 Hn Hvd Hvt Hyd Hyt Hle Hlast.
  pose proof (next_day_year (next_day due)) as Hmono.
  assert (Hdue : is_due (strftime today) r = true).
  { apply (is_due_by_calendar r (lit "pending") due today); try assumption.
    split; [reflexivity|exact Hle]. }
  assert (Hd : due_date_of r = Ok due).
  { unfold due_date_of, getitem. rewrite E7. simpl.
    apply strptime_strftime; assumption. }
  assert (H8 : (8 < length r)%nat).
  { unfold rollover_count_of, getitem in Hn.
    destruct (r !! 8%nat) eqn:E8; [|discriminate].
    apply lookup_lt_Some in E8. exact E8. }
  assert (Hready : rollover_ready (strftime today) r = true).
  { unfold rollover_ready. rewrite E5, E7. simpl.
    unfold is_due in Hdue. rewrite E5, E7 in Hdue. simpl in Hdue.
    rewrite Hdue, Hn, Hd. unfold add_one_day.
    replace (year (next_day due) <=? 9999) with true
      by (symmetry; apply Z.leb_le; lia).
    reflexivity. }
  pose proof (rolled_stays_ready (strftime today) (strftime today) r due
                Hready Hdue Hd Hyd Hlast) as Hready'.
  exists (rolled (strftime today) r),
         (rolled (strftime today) (rolled (strftime today) r)),
         (is_due (strftime today) (rolled (strftime today) r)).
  split; [|split].
  - rewrite (migrate_row_spec _ _ Hready), Hdue. reflexivity.
  - apply migrate_row_spec. exact Hready'.
  - unfold rolled at 1. rewrite Hdue, Hn, Hd. unfold roll.
    rewrite (is_due_by_calendar _ (lit "pending") (next_day due) today).
    + rewrite (toordinal_next_day due Hvd). split; [intros [_ H]; lia|].
      intros H. split; [reflexivity|lia].
    + rewrite !list_lookup_insert_ne by lia. exact E5.
    + apply list_lookup_insert_eq. rewrite length_insert. lia.
    + apply next_day_valid; [assumption|lia].
    + exact Hvt.
    + pose proof (next_day_year due). lia.
    + exact Hyt.
Qed.

Lemma due_again_iff_overdue_witness :
  exists (r1 r2 : row) (again : bool),
    migrate_row (strftime (mkdate 2024 1 2))
      [ lit "5"; lit "t"; lit "d"; lit "c"; lit "1"; lit "pending";
        lit "2023-12-30"; strftime (mkdate 2023 12 31); lit "2"; lit "b" ] =
      Ok (r1, true) /\
    migrate_row (strftime (mkdate 2024 1 2)) r1 = Ok (r2, again) /\
    (again = true <-> toordinal (mkdate 2023 12 31) < toordinal (mkdate 2024 1 2)).
Proof.
  apply (due_again_iff_overdue
           [ lit "5"; lit "t"; lit "d"; lit "c"; lit "1"; lit "pending";
             lit "2023-12-30"; strftime (mkdate 2023 12 31); lit "2"; lit "b" ]
           (mkdate 2023 12 31) (mkdate 2024 1 2) 2).
  - reflexivity.
  - reflexivity.
  - reflexivity.
  - reflexivity.
  - reflexivity.
  - simpl. lia.
  - simpl. lia.
  - vm_compute. discriminate.
  - vm_compute. discriminate.
Defined.

(** ** [get_today_schedule], further *)

Lemma dict_fold_absent {V} (l : list (list N * V)) (m : gmap (list N) V)
    (k : list N) :
  ~ In k (List.map fst l) ->
  fold_left (fun m kv => <[fst kv := snd kv]> m) l m !! k = m !! k.
Proof.
  revert m. induction l as [|[k0 v0] l IH]; intros m Hk; simpl; [reflexivity|].
  rewrite IH.
  - apply lookup_insert_ne. intros ->. apply Hk. left. reflexivity.
  - intros H. apply Hk. right. exact H.
Qed.

Lemma zip_keys_in {V} (keys : list (list N)) (values : list V) (k : list N) :
  In k (List.map fst (zip keys values)) -> In k keys.
Proof.
  revert values. induction keys as [|k0 keys IH]; intros [|v values]; simpl;
    try contradiction.
  intros [<-|H]; [left; reflexivity|right; apply (IH values H)].
Qed.

(** [dict(zip(keys, values))] has no entry for a key that is not among the
    keys. *)
Lemma dict_zip_absent {V} (keys : list (list N)) (values : list V) (k : list N) :
  ~ In k keys -> dict_zip keys values !! k = None.
Proof.
  intros Hk. unfold dict_zip. rewrite dict_fold_absent.
  - apply lookup_empty.
  - intros H. apply Hk. apply (zip_keys_in keys values k H).
Qed.

Lemma dict_zip_present {V} (keys : list (list N)) (values : list V)
    (m : gmap (list N) V) (i : nat) (k : list N) (v : V) :
  List.NoDup keys -> keys !! i = Some k -> values !! i = Some v ->
  fold_left (fun m kv => <[fst kv := snd kv]> m) (zip keys values) m !! k = Some v.
Proof.
  revert values m i. induction keys as [|k0 keys IH]; intros values m i Hnd Hk Hv.
  - destruct i; discriminate.
  - destruct values as [|v0 values]; [destruct i; discriminate|].
    inversion Hnd as [|? ? Hnotin Hnd']. subst. simpl.
    destruct i as [|i]; simpl in Hk, Hv.
    + injection Hk as ->. injection Hv as ->.
      rewrite dict_fold_absent.
      * apply lookup_insert_eq.
      * intros H. apply Hnotin. apply (zip_keys_in keys values k H).
    + apply (IH values _ i Hnd' Hk Hv).
Qed.

(** X16: The records read from an answer of the tool: one for each line after
    the header line, in order, and when the column names differ from one
    another each record has under a column name the field of its line that
    stands where the name stands in the header line. *)
Theorem answer_records_by_column (answer header_line line column field : str)
    (lines : list (list N)) (i j : nat) :
  split 10 (strip answer) = header_line :: lines ->
  lines <> [] ->
  List.NoDup (split 44 header_line) ->
  lines !! i = Some line ->
  split 44 header_line !! j = Some column ->
  split 44 line !! j = Some field ->
  length (answer_records answer) = length lines /\
  exists record : gmap (list N) (list N),
    answer_records answer !! i = Some record /\
    record !! column = Some field.
Proof.
  intros Hsplit Hne Hnd Hline Hcol Hfield.
  unfold answer_records. rewrite Hsplit.
  destruct lines as [|l0 ls]; [contradiction|].
  split; [apply length_map|].
  exists (dict_zip (split 44 header_line) (split 44 line)). split.
  - change (List.map ?f ?l) with (f <$> l).
    rewrite list_lookup_fmap, Hline. reflexivity.
  - apply (dict_zip_present _ _ _ j); assumption.
Qed.

Lemma answer_records_by_column_witness :
  length (answer_records sample_tasks_answer) =
    length [lit "5,Write report,pending"; lit "6,Call bank,completed"] /\
  exists record : gmap (list N) (list N),
    answer_records sample_tasks_answer !! 1%nat = Some record /\
    record !! lit "title" = Some (lit "Call bank").
Proof.
  apply (answer_records_by_column sample_tasks_answer
           (lit "task_id,title,status") (lit "6,Call bank,completed")
           (lit "title") (lit "Call bank")
           [lit "5,Write report,pending"; lit "6,Call bank,completed"]
           1%nat 1%nat).
  - reflexivity.
  - discriminate.
  - vm_compute. repeat constructor; simpl; intuition discriminate.
  - reflexivity.
  - reflexivity.
  - reflexivity.
Defined.

Lemma schedule_block_frame (self : PersonalPASystem) (q : str)
    (headers : list (list N)) (line : str) (w : world) :
  files (snd (schedule_block self q headers line w)) = files w /\
  stdout (snd (schedule_block self q headers line w)) = stdout w.
Proof.
  unfold schedule_block, bind, lift, dict_get, query, ret.
  destruct (_ !! lit "task_ids") as [[[|c ids]|l]|]; simpl; split; reflexivity.
Qed.

Lemma schedule_blocks_frame (self : PersonalPASystem) (q : str)
    (headers : list (list N)) (lines : list (list N)) (w : world) :
  files (snd (schedule_blocks self q headers lines w)) = files w /\
  stdout (snd (schedule_blocks self q headers lines w)) = stdout w.
Proof.
  revert w. induction lines as [|line rest IH]; intros w; [split; reflexivity|].
  cbn [schedule_blocks]. unfold bind.
  destruct (schedule_block_frame self q headers line w) as [Hf Hs].
  destruct (schedule_block self q headers line w) as [[b|e] w1];
    cbn [snd] in Hf, Hs.
  - destruct (IH w1) as [Hf1 Hs1].
    destruct (schedule_blocks self q headers rest w1) as [[bs|e] w2];
      simpl in *; split; congruence.
  - cbn [snd]. split; assumption.
Qed.

(** X17: [get_today_schedule] reads and does not write: whatever the tool
    answers and whether the method returns or raises, the three files and
    the output are what they were. *)
Theorem get_today_schedule_is_read_only (self : PersonalPASystem) (w : world) :
  files (snd (get_today_schedule self w)) = files w /\
  stdout (snd (get_today_schedule self w)) = stdout w.
Proof.
  unfold get_today_schedule, bind, query. cbn [files stdout calls].
  destruct (split 10 _) as [|h [|l ls]]; try (split; reflexivity).
  match goal with
  | |- context [schedule_blocks self ?q ?hs ?lines ?w1] =>
      destruct (schedule_blocks_frame self q hs lines w1) as [Hf Hs]
  end.
  split; [rewrite Hf|rewrite Hs]; reflexivity.
Qed.

(** X18: An answer whose header line has no column [task_ids] and which has at
    least one line more makes [get_today_schedule] raise [KeyError] at the
    first block, after the one query for the schedule. *)
Theorem get_today_schedule_without_task_ids (self : PersonalPASystem)
    (w : world) (header_line line : str) (rest : list (list N)) :
  split 10 (strip (query_csv_file self (files w) (lit "schedule")
                     (schedule_query (now_weekday self)))) =
    header_line :: line :: rest ->
  ~ In (lit "task_ids") (split 44 header_line) ->
  get_today_schedule self w =
    (Raise KeyError,
     mkworld (files w) (stdout w)
       (calls w ++ [(lit "schedule", schedule_query (now_weekday self))])).
Proof.
  intros Hsplit Hcol.
  unfold get_today_schedule, bind, query. cbn [files stdout calls].
  rewrite Hsplit. cbn [schedule_blocks]. unfold bind at 1.
  unfold schedule_block, bind, lift, dict_get.
  rewrite lookup_fmap, (dict_zip_absent _ _ _ Hcol). reflexivity.
Qed.

Lemma get_today_schedule_without_task_ids_witness :
  get_today_schedule (sample_schedule_system sample_answer_without_ids)
    (sample_world rollover_store) =
    (Raise KeyError,
     mkworld (files (sample_world rollover_store))
       (stdout (sample_world rollover_store))
       (calls (sample_world rollover_store) ++
          [(lit "schedule",
            schedule_query
              (now_weekday (sample_schedule_system sample_answer_without_ids)))])).
Proof.
  apply (get_today_schedule_without_task_ids
           (sample_schedule_system sample_answer_without_ids)
           (sample_world rollover_store)
           (lit "block_id,block_name") (lit "2,Core Learning Sessions") []).
  - reflexivity.
  - vm_compute. intuition discriminate.
Defined.

(** X19: What [get_today_schedule] returns when every schedule line has a
    [task_ids] field: one block for each line after the header, in order,
    with the fields of the line and a list of tasks. A block without task
    ids gets the empty list and costs no query; every block with task ids
    costs one query and gets the records of the answer to the schedule
    query on the task table, the same list for all of them whatever their
    ids are. *)
Theorem get_today_schedule_blocks (self : PersonalPASystem) (w : world)
    (header_line : str) (lines : list (list N)) :
  split 10 (strip (query_csv_file self (files w) (lit "schedule")
                     (schedule_query (now_weekday self)))) =
    header_line :: lines ->
  lines <> [] ->
  Forall (fun line => block_task_ids (split 44 header_line) line <> None) lines ->
  get_today_schedule self w =
    (Ok (List.map
           (block_of (split 44 header_line)
              (answer_records
                 (query_csv_file self (files w) (lit "tasks")
                    (schedule_query (now_weekday self)))))
           lines),
     mkworld (files w) (stdout w)
       (calls w ++
          (lit "schedule", schedule_query (now_weekday self))
          :: repeat (lit "tasks", schedule_query (now_weekday self))
               (length (List.filter (block_has_ids (split 44 header_line)) lines)))).
Proof.
  intros Hsplit Hne Hall.
  unfold get_today_schedule, bind, query. cbn [files stdout calls].
  rewrite Hsplit. destruct lines as [|l0 ls]; [contradiction|].
  rewrite (schedule_blocks_run _ _ _ _ _ Hall). cbn [files stdout calls].
  rewrite <- app_assoc. reflexivity.
Qed.

Lemma get_today_schedule_blocks_witness :
  get_today_schedule (sample_schedule_system sample_schedule_answer)
    (sample_world rollover_store) =
    (Ok (List.map
           (block_of (split 44 (lit "block_id,task_ids"))
              (answer_records
                 (query_csv_file (sample_schedule_system sample_schedule_answer)
                    (files (sample_world rollover_store)) (lit "tasks")
                    (schedule_query
                       (now_weekday
                          (sample_schedule_system sample_schedule_answer))))))
           [lit "1,"; lit "2,5;6"; lit "3,7"]),
     mkworld (files (sample_world rollover_store))
       (stdout (sample_world rollover_store))
       (calls (sample_world rollover_store) ++
          (lit "schedule",
           schedule_query
             (now_weekday (sample_schedule_system sample_schedule_answer)))
          :: repeat
               (lit "tasks",
                schedule_query
                  (now_weekday (sample_schedule_system sample_schedule_answer)))
               (length (List.filter
                          (block_has_ids (split 44 (lit "block_id,task_ids")))
                          [lit "1,"; lit "2,5;6"; lit "3,7"])))).
Proof.
  apply (get_today_schedule_blocks
           (sample_schedule_system sample_schedule_answer)
           (sample_world rollover_store)
           (lit "block_id,task_ids") [lit "1,"; lit "2,5;6"; lit "3,7"]).
  - reflexivity.
  - discriminate.
  - repeat constructor; vm_compute; discriminate.
Defined.

(** ** [_initialize_csv_files] and [_add_default_schedule] *)

(** X20: Starting the system never changes a file that is there: after
    [_initialize_csv_files] all three files are there, each one that was
    there has the rows it had, and a second start changes nothing at
    all. *)
Theorem initialize_csv_files_makes_missing_files_only (d : data_dir) :
  kept (tasks_file d) (tasks_file (_initialize_csv_files d)) /\
  kept (schedule_file d) (schedule_file (_initialize_csv_files d)) /\
  kept (progress_file d) (progress_file (_initialize_csv_files d)) /\
  (exists fs : csv_files, files_in (_initialize_csv_files d) = Some fs) /\
  _initialize_csv_files (_initialize_csv_files d) = _initialize_csv_files d.
Proof.
  destruct d as [[t|] [s|] [p|]]; unfold kept, files_in, _initialize_csv_files;
    cbn [tasks_file schedule_file progress_file];
    repeat split; eexists; reflexivity.
Qed.





Lemma initialize_files_exist (d : data_dir) :
  exists fs : csv_files,
    files_in (_initialize_csv_files d) = Some fs /\
    (tasks_file d = None -> tasks_csv fs = [tasks_columns]).
Proof.
  destruct d as [[t|] [s|] [p|]]; unfold files_in, _initialize_csv_files;
    cbn [tasks_file schedule_file progress_file];
    eexists; (split; [reflexivity|]); intros H; try discriminate H; reflexivity.
Qed.

(** X22: In a data directory without a task file the first task added after
    the start gets the id 1 and is the one row after the header. *)
Theorem first_task_in_new_directory (self : PersonalPASystem)
    (title description category : str) (priority : Z)
    (due_date time_block : str) (d : data_dir)
    (out : list str) (log : list (str * str)) :
  tasks_file d = None ->
  exists fs : csv_files,
    files_in (_initialize_csv_files d) = Some fs /\
    add_task self title description category priority due_date time_block
      (mkworld fs out log) =
      (Ok PNone,
       mkworld
         (mkfiles
            [ tasks_columns;
              task_row self 1 title description category priority due_date
                time_block ]
            (schedule_csv fs) (progress_csv fs))
         (out ++ [add_task_msg title 1]) log).
Proof.
  intros Hnone.
  destruct (initialize_files_exist d) as (fs & Hfs & Ht).
  exists fs. split; [exact Hfs|].
  rewrite (add_task_run self title description category priority due_date
             time_block (mkworld fs out log) 1).
  - cbn [files stdout calls]. rewrite (Ht Hnone). reflexivity.
  - cbn [files]. rewrite (Ht Hnone). reflexivity.
Qed.

Lemma first_task_in_new_directory_witness :
  exists fs : csv_files,
    files_in (_initialize_csv_files (mkdata_dir None None None)) = Some fs /\
    add_task (sample_system "1,2") (lit "Call bank") (lit "d") (lit "c") 2
      (lit "2024-01-05") (lit "b") (mkworld fs [] []) =
      (Ok PNone,
       mkworld
         (mkfiles
            [ tasks_columns;
              task_row (sample_system "1,2") 1 (lit "Call bank") (lit "d")
                (lit "c") 2 (lit "2024-01-05") (lit "b") ]
            (schedule_csv fs) (progress_csv fs))
         ([] ++ [add_task_msg (lit "Call bank") 1]) []).
Proof.
  apply (first_task_in_new_directory (sample_system "1,2") (lit "Call bank")
           (lit "d") (lit "c") 2 (lit "2024-01-05") (lit "b")
           (mkdata_dir None None None) [] []).
  reflexivity.
Defined.
